(** * SimpleScoringService: scoring, classification, priorities and ranking

    A shallow embedding of [proctoring/services/simple_scoring.py].  Python
    floats are IEEE-754 binary64 values (Rocq's primitive [float]); Python
    ints are [Z]; dictionaries that are iterated are association lists in
    insertion order, the answer dictionary (only looked up) is a [gmap];
    Django tables are lists of rows in primary-key order; model instances
    live in an object store addressed by reference. *)

From Stdlib Require Import QArith ZArith List Bool Lia Sorted Permutation Ascii.
From Stdlib Require Import Floats.
From stdpp Require Import base list gmap strings pretty.
Import ListNotations.

Local Open Scope string_scope.
Local Open Scope list_scope.
Local Open Scope Z_scope.

(** ** Python numbers *)

Module Py.

(** [float(n)] for an int [n], also where an int meets a float in an
    operation: the nearest binary64 value. *)
Definition float_of_int (n : Z) : float :=
  SF2Prim (binary_normalize prec emax n 0 false).

(** [min(a, b)]: the first argument unless the second is smaller. *)
Definition min (a b : float) : float := if (b <? a)%float then b else a.

(** [max(a, b)]: the first argument unless the second is greater. *)
Definition max (a b : float) : float := if (a <? b)%float then b else a.

(** [a >= b] on floats. *)
Definition ge (a b : float) : bool := (b <=? a)%float.

(** The comparison of two floats, [None] when one of them is NaN. *)
Definition cmp (x y : float) : option comparison :=
  SFcompare (Prim2SF x) (Prim2SF y).

(** [x == x]: [x] is a number, not NaN. *)
Definition number (x : float) : Prop := (x =? x)%float = true.

(** [round(x, 3)]: non-finite values round to themselves; a finite value
    [m * 2^e] is rounded, exactly and half-to-even, to an integer number
    [n] of thousandths, and the result is the binary64 value nearest to
    [n / 1000] (the sign of [x] is kept). *)
Definition thousandths (m : positive) (e : Z) : Z :=
  match e with
  | Zneg k =>
      let d := Z.pow_pos 2 k in
      let num := Zpos m * 1000 in
      let q := num / d in
      let r := num mod d in
      match (2 * r ?= d) with
      | Lt => q
      | Gt => q + 1
      | Eq => if Z.even q then q else q + 1
      end
  | _ => Zpos m * 1000 * 2 ^ e
  end.

Definition round3 (x : float) : float :=
  match Prim2SF x with
  | S754_finite s m e =>
      match thousandths m e with
      | Zpos n =>
          SF2Prim (SFdiv prec emax (S754_finite s n 0) (S754_finite false 1000 0))
      | _ => SF2Prim (S754_zero s)
      end
  | _ => x
  end.

(** Python values that occur as question ids and answers. *)
Inductive value : Type :=
| None
| Int (n : Z)
| Str (s : string).

#[global] Instance value_eq_dec : EqDecision value.
Proof. solve_decision. Defined.

(** [str(v)] *)
Definition str (v : value) : string :=
  match v with
  | None => "None"
  | Int n => pretty n
  | Str s => s
  end.

End Py.

(** ** Python string methods

    Strings are byte strings; the methods are those of [str] on ASCII text,
    which the competency names are.  A byte above 127 is kept and counts as
    a character without case. *)

Module Str.

Definition is_lower (a : Ascii.ascii) : bool :=
  ((97 <=? Ascii.nat_of_ascii a) && (Ascii.nat_of_ascii a <=? 122))%nat.

Definition is_upper (a : Ascii.ascii) : bool :=
  ((65 <=? Ascii.nat_of_ascii a) && (Ascii.nat_of_ascii a <=? 90))%nat.

Definition upper (a : Ascii.ascii) : Ascii.ascii :=
  if is_lower a then Ascii.ascii_of_nat (Ascii.nat_of_ascii a - 32) else a.

Definition lower (a : Ascii.ascii) : Ascii.ascii :=
  if is_upper a then Ascii.ascii_of_nat (Ascii.nat_of_ascii a + 32) else a.

(** [s.replace(old, new)] for one-character [old] and [new]. *)
Fixpoint replace (old new : Ascii.ascii) (s : string) : string :=
  match s with
  | EmptyString => EmptyString
  | String a s' => String (if Ascii.eqb a old then new else a) (replace old new s')
  end.

(** [s.title()]: a cased character is made upper case when the character
    before it has no case, lower case otherwise. *)
Fixpoint title_from (previous_is_cased : bool) (s : string) : string :=
  match s with
  | EmptyString => EmptyString
  | String a s' =>
      String (if previous_is_cased then lower a else upper a)
             (title_from (is_lower a || is_upper a) s')
  end.

Definition title (s : string) : string := title_from false s.

(** [sep.join(l)] *)
Definition join (sep : string) (l : list string) : string := String.concat sep l.

End Str.

(** ** Exceptions and the service's state monad *)

Inductive exn : Type :=
| KeyError (key : option string)
| ZeroDivisionError
| DatabaseError.

Inductive result (A : Type) : Type :=
| Ok (a : A)
| Raise (e : exn).
Arguments Ok {A} a.
Arguments Raise {A} e.

(** [a / b] on ints: [ZeroDivisionError] for a zero divisor, else the
    quotient as a float (the quotient of the two floats, which is what
    Python computes for ints below 2^53). *)
Definition int_truediv (a b : Z) : result float :=
  if (b =? 0)%Z then Raise ZeroDivisionError
  else Ok (Py.float_of_int a / Py.float_of_int b)%float.

(** ** Class constants of [SimpleScoringService] *)

Definition MARKS : list (string * Z) :=
  [ ("critical_thinking", 4); ("communication", 2); ("adaptability", 1);
    ("basic_engineering", 5); ("technical", 6) ].

Definition MAX_SCORES : list (string * Z) :=
  [ ("critical_thinking", 5 * 4); ("communication", 5 * 2); ("adaptability", 2 * 1);
    ("basic_engineering", 5 * 5); ("technical", 8 * 6) ].

Definition COMPETENCY_WEIGHTS : list (string * float) :=
  [ ("critical_thinking", 0x1.3333333333333p-2%float);  (* 0.30 *)
    ("communication", 0x1.999999999999ap-3%float);      (* 0.20 *)
    ("adaptability", 0x1.999999999999ap-4%float);       (* 0.10 *)
    ("basic_engineering", 0x1.3333333333333p-2%float);  (* 0.30 *)
    ("technical", 0.5%float) ].

(** [d.get(k)] on a dictionary kept as an association list. *)
Fixpoint dict_get {V : Type} (d : list (string * V)) (k : string) : option V :=
  match d with
  | [] => None
  | (k', v) :: d' => if String.eqb k' k then Some v else dict_get d' k
  end.

(** [d[k] = v] for a key that is present: the entry keeps its place. *)
Fixpoint dict_set {V : Type} (d : list (string * V)) (k : string) (v : V) : list (string * V) :=
  match d with
  | [] => []
  | (k', v') :: d' => if String.eqb k' k then (k', v) :: d' else (k', v') :: dict_set d' k v
  end.

(** [list(dict.fromkeys(l))]: duplicates removed, first occurrences kept. *)
Fixpoint dict_fromkeys (l : list string) : list string :=
  match l with
  | [] => []
  | x :: l' => x :: List.filter (fun y => negb (String.eqb x y)) (dict_fromkeys l')
  end.

Module Courses.
Record t : Type := mk {
  priority : list string;
  complementary : list string;
  advanced : list string
}.
End Courses.

Definition COURSE_MAPPING : list (string * Courses.t) :=
  [ ("critical_thinking",
     Courses.mk ["Critical Thinking Bootcamp"; "Problem Solving Workshops"]
                ["Decision Making for Engineers"]
                ["Advanced Systems Thinking"]);
    ("communication",
     Courses.mk ["Technical Writing Essentials"; "Presentation Skills"]
                ["Interpersonal Communication"]
                ["Professional Communication for Leaders"]);
    ("adaptability",
     Courses.mk ["Change Management Fundamentals"]
                ["Time & Priority Management"]
                ["Leadership Agility Program"]);
    ("basic_engineering",
     Courses.mk ["Engineering Fundamentals Refresher"]
                ["Materials & Manufacturing Basics"]
                ["Advanced Engineering Design"]);
    ("technical",
     Courses.mk ["Field-specific Technical Foundations"]
                ["Applied Technical Projects"]
                ["Specialization / Capstone Projects"]) ].

(** ** Models *)

Inductive level : Type := advanced | proficient | developing | emerging | novice.

Module CompetencyScore.
(** Modelled from the spec: the CompetencyScore model class is not in
    models.py.  Its fields are the keyword arguments of
    [CompetencyScore.objects.create] in [save_competency_breakdown]
    together with the primary key; [exam] is the foreign key. *)
Record t : Type := mk {
  pk : nat;
  exam : nat;
  competency_name : string;
  raw_score : float;
  max_score : Z;
  percentage : float;
  performance_level : level;
  is_strength : bool;
  is_weakness : bool
}.

Definition set_is_strength (b : bool) (c : t) : t :=
  mk (pk c) (exam c) (competency_name c) (raw_score c) (max_score c)
     (percentage c) (performance_level c) b (is_weakness c).

Definition set_is_weakness (b : bool) (c : t) : t :=
  mk (pk c) (exam c) (competency_name c) (raw_score c) (max_score c)
     (percentage c) (performance_level c) (is_strength c) b.

#[global] Instance inhabited : Inhabited t :=
  populate (mk 0 0 "" 0%float 0 0%float novice false false).
End CompetencyScore.

Module CheatingEvent.
(** [CheatingEvent] of models.py, with the fields the service reads. *)
Record t : Type := mk {
  pk : nat;
  student : option nat;
  event_type : option string;
  tab_switch_count : Z
}.
End CheatingEvent.

Module Exam.
(** [Exam] of models.py with the fields the service reads.
    Modelled from the spec: [total_score], [rank] and [percentile] are
    used by [calculate_ranking] and listed in the spec's data model, but
    missing from the class in models.py. *)
Record t : Type := mk {
  pk : nat;
  student : option nat;
  status : string;
  timestamp : Z;
  total_score : Z;
  rank : option Z;
  percentile : option float
}.

Definition set_ranking (r : Z) (p : float) (e : t) : t :=
  mk (pk e) (student e) (status e) (timestamp e) (total_score e) (Some r) (Some p).
End Exam.

Module Question.
(** A question as the question store supplies it; [competency_type] is read
    with [q.get] and may be absent. *)
Record t : Type := mk {
  id : Py.value;
  correct_answer : Py.value;
  competency_type : option string
}.
End Question.

Module Priority.
(** An entry of the list [compute_improvement_priorities] returns. *)
Record t : Type := mk {
  competency_name : string;
  percentage : float;
  priority_score : float;
  is_strength : bool;
  is_weakness : bool
}.
End Priority.

Module Recommendation.
(** The dictionary [recommend_courses] returns. *)
Record t : Type := mk {
  priority_courses : list string;
  complementary_courses : list string;
  advanced_courses : list string
}.
End Recommendation.

Module Plan.
(** The dictionary [generate_action_plan] returns, with its keys
    ['30_days'], ['90_days'] and ['6_12_months']. *)
Record t : Type := mk {
  days_30 : list string;
  days_90 : list string;
  months_6_12 : list string
}.
End Plan.

(** A reference to a [CompetencyScore] instance in memory. *)
Abbreviation ref := nat (only parsing).

(** The state the service works on: the instances in memory and the tables. *)
Record World : Type := mkWorld {
  objects : list CompetencyScore.t;
  competency_scores : list CompetencyScore.t;
  next_pk : nat;
  cheating_events : list CheatingEvent.t;
  exams : list Exam.t
}.

Definition with_objects (o : list CompetencyScore.t) (w : World) : World :=
  mkWorld o (competency_scores w) (next_pk w) (cheating_events w) (exams w).

Definition with_competency_scores (t : list CompetencyScore.t) (w : World) : World :=
  mkWorld (objects w) t (next_pk w) (cheating_events w) (exams w).

Definition with_exams (t : list Exam.t) (w : World) : World :=
  mkWorld (objects w) (competency_scores w) (next_pk w) (cheating_events w) t.

Definition M (A : Type) : Type := World -> result (A * World).

Definition ret {A : Type} (a : A) : M A := fun w => Ok (a, w).

Definition bind {A B : Type} (c : M A) (k : A -> M B) : M B :=
  fun w => match c w with
           | Ok (a, w') => k a w'
           | Raise e => Raise e
           end.

Definition raise {A : Type} (e : exn) : M A := fun _ => Raise e.

Definition lift {A : Type} (r : result A) : M A :=
  fun w => match r with Ok a => Ok (a, w) | Raise e => Raise e end.

Definition gets {A : Type} (f : World -> A) : M A := fun w => Ok (f w, w).

Definition modify (f : World -> World) : M unit := fun w => Ok (tt, f w).

Declare Scope M_scope.
Delimit Scope M_scope with M.
Notation "x <- c ;; k" := (bind c (fun x => k))
  (at level 100, c at next level, right associativity) : M_scope.
Notation "c ;; k" := (bind c (fun _ => k))
  (at level 100, right associativity) : M_scope.
Local Open Scope M_scope.

(** [for x in l: body]. *)
Fixpoint for_each {A : Type} (l : list A) (body : A -> M unit) : M unit :=
  match l with
  | [] => ret tt
  | x :: l' => body x ;; for_each l' body
  end.

(** ** Sorting

    [list.sort] and [sorted] are stable and compare keys with [<] only.
    They are modelled by stable insertion: [before y x] says that [y] has to
    come strictly before [x]; an element moves left past nothing it is not
    strictly before.  With [reverse=True] equal keys keep their original
    order as well.  The model is the stable sort whenever [<] orders the
    keys, that is when no key is NaN. *)

Section Sorting.
Context {A : Type} (before : A -> A -> bool).

Fixpoint insert_sorted (x : A) (l : list A) : list A :=
  match l with
  | [] => [x]
  | y :: l' => if before y x then y :: insert_sorted x l' else x :: y :: l'
  end.

Definition stable_sort (l : list A) : list A := foldr insert_sorted [] l.
End Sorting.

Definition sorted {A : Type} (l : list A) (key : A -> float) (reverse : bool) : list A :=
  stable_sort
    (fun y x => if reverse then (key x <? key y)%float else (key y <? key x)%float) l.

(** ** The Django calls on [CompetencyScore] *)

(** [CompetencyScore.objects.filter(exam=e).delete()] *)
Definition delete_scores (e : nat) : M unit :=
  modify (fun w =>
    with_competency_scores
      (List.filter (fun r => negb (CompetencyScore.exam r =? e)%nat) (competency_scores w)) w).

(** [CompetencyScore.objects.create(...)] with both flags [False]: the row
    gets the next primary key; the call returns a new instance. *)
Definition create_score (e : nat) (name : string) (raw : float) (mx : Z)
    (pct : float) (lvl : level) : M ref :=
  fun w =>
    let row := CompetencyScore.mk (next_pk w) e name raw mx pct lvl false false in
    Ok (length (objects w),
        mkWorld (objects w ++ [row]) (competency_scores w ++ [row])
                (S (next_pk w)) (cheating_events w) (exams w)).

(** [CompetencyScore.objects.filter(exam=e).update(is_strength=False, is_weakness=False)] *)
Definition reset_flags (e : nat) : M unit :=
  modify (fun w =>
    with_competency_scores
      (map (fun r => if (CompetencyScore.exam r =? e)%nat
                     then CompetencyScore.set_is_weakness false
                            (CompetencyScore.set_is_strength false r)
                     else r)
           (competency_scores w)) w).

(** [c.is_strength = b] and [c.is_weakness = b] on the instance [c]. *)
Definition setattr (f : CompetencyScore.t -> CompetencyScore.t) (c : ref) : M unit :=
  modify (fun w => with_objects (<[c := f (objects w !!! c)]> (objects w)) w).

(** [c.save(update_fields=[field])]: an UPDATE of that one column of the row
    with the instance's primary key; Django raises [DatabaseError] when no
    row was updated. *)
Definition save_field (copy : CompetencyScore.t -> CompetencyScore.t -> CompetencyScore.t)
    (c : ref) : M unit :=
  fun w =>
    let o := objects w !!! c in
    if existsb (fun r => (CompetencyScore.pk r =? CompetencyScore.pk o)%nat) (competency_scores w)
    then Ok (tt, with_competency_scores
                   (map (fun r => if (CompetencyScore.pk r =? CompetencyScore.pk o)%nat
                                  then copy o r else r)
                        (competency_scores w)) w)
    else Raise DatabaseError.

Definition copy_is_strength (o r : CompetencyScore.t) : CompetencyScore.t :=
  CompetencyScore.set_is_strength (CompetencyScore.is_strength o) r.

Definition copy_is_weakness (o r : CompetencyScore.t) : CompetencyScore.t :=
  CompetencyScore.set_is_weakness (CompetencyScore.is_weakness o) r.

(** [x.percentage] for the instance behind a reference. *)
Definition percentage_of (w : World) (c : ref) : float :=
  CompetencyScore.percentage (objects w !!! c).

(** ** SimpleScoringService *)

Section SimpleScoringService.

(** [self.exam], the instance the service was built with. *)
Variable self_exam : Exam.t.

(** [CompetencyScore.objects.filter(exam=self.exam)] *)
Definition scores_of_exam (w : World) : list CompetencyScore.t :=
  List.filter (fun r => (CompetencyScore.exam r =? Exam.pk self_exam)%nat) (competency_scores w).

(** *** Strengths and weaknesses *)

Definition mark_strength (c : ref) : M unit :=
  setattr (CompetencyScore.set_is_strength true) c ;;
  save_field copy_is_strength c.

Definition mark_weakness (c : ref) : M unit :=
  setattr (CompetencyScore.set_is_weakness true) c ;;
  save_field copy_is_weakness c.

(** The list is sorted in place; the result is the caller's list after
    the call. *)
Definition identify_strengths_weaknesses (comp_scores : list ref) : M (list ref) :=
  match comp_scores with
  | [] => ret []
  | _ =>
      comp_scores <- gets (fun w => sorted comp_scores (percentage_of w) true) ;;
      reset_flags (Exam.pk self_exam) ;;
      strengths <- gets (fun w =>
        List.filter (fun c => Py.ge (percentage_of w c) 75) comp_scores) ;;
      let strengths :=
        if (length strengths <? 2)%nat then take 2 comp_scores else strengths in
      for_each (take 2 strengths) mark_strength ;;
      bottom_sorted <- gets (fun w => sorted comp_scores (percentage_of w) false) ;;
      weaknesses <- gets (fun w =>
        List.filter (fun c => (percentage_of w c <? 60)%float) bottom_sorted) ;;
      let weaknesses :=
        if (length weaknesses <? 2)%nat then take 2 bottom_sorted else weaknesses in
      for_each (take 2 weaknesses) mark_weakness ;;
      ret comp_scores
  end.

(** *** Competency breakdown *)

Definition percentage_for (raw_score : float) (max_score : Z) : float :=
  let percentage :=
    if (0 <? max_score)%Z
    then (raw_score / Py.float_of_int max_score * 100)%float
    else 0%float in
  Py.max 0 (Py.min 100 percentage).

Definition level_for (percentage : float) : level :=
  if Py.ge percentage 85 then advanced
  else if Py.ge percentage 70 then proficient
  else if Py.ge percentage 50 then developing
  else if Py.ge percentage 30 then emerging
  else novice.

Fixpoint create_scores (items : list (string * float)) (created_scores : list ref)
    : M (list ref) :=
  match items with
  | [] => ret created_scores
  | (competency_name, raw_score) :: items' =>
      let max_score := default 0 (dict_get MAX_SCORES competency_name) in
      let percentage := percentage_for raw_score max_score in
      obj <- create_score (Exam.pk self_exam) competency_name raw_score max_score
               percentage (level_for percentage) ;;
      create_scores items' (created_scores ++ [obj])
  end.

Definition save_competency_breakdown (competency_scores : list (string * float)) : M unit :=
  delete_scores (Exam.pk self_exam) ;;
  created_scores <- create_scores competency_scores [] ;;
  identify_strengths_weaknesses created_scores ;;
  ret tt.

(** *** Improvement priorities *)

Definition compute_improvement_priorities (w : World) : list Priority.t :=
  let priorities :=
    map (fun c =>
           let gap := Py.max 0 (75 - CompetencyScore.percentage c)%float in
           let weight :=
             default 0%float (dict_get COMPETENCY_WEIGHTS (CompetencyScore.competency_name c)) in
           let priority_score := Py.round3 (gap * weight)%float in
           Priority.mk (CompetencyScore.competency_name c) (CompetencyScore.percentage c)
             priority_score (CompetencyScore.is_strength c) (CompetencyScore.is_weakness c))
        (scores_of_exam w) in
  sorted priorities Priority.priority_score true.

(** *** Course recommendation *)

(** The entries whose priority courses are recommended: [weak] after the
    fall-back, before the slice [weak[:2]]. *)
Definition weak_entries (pr : list Priority.t) : list Priority.t :=
  let weak := List.filter (fun p => (Priority.percentage p <? 60)%float) pr in
  match weak with
  | [] => drop (length pr - 2) pr
  | _ => weak
  end.

Definition courses_of (tier : Courses.t -> list string) (comp : string) : list string :=
  match dict_get COURSE_MAPPING comp with
  | Some c => tier c
  | None => []
  end.

Definition recommend_courses (w : World) : Recommendation.t :=
  let comp_scores := sorted (scores_of_exam w) CompetencyScore.percentage true in
  let pr := compute_improvement_priorities w in
  let weak := weak_entries pr in
  let priority :=
    flat_map (fun p => courses_of Courses.priority (Priority.competency_name p))
             (take 2 weak) in
  let complementary :=
    flat_map (fun c =>
                if ((50 <=? CompetencyScore.percentage c)
                    && (CompetencyScore.percentage c <? 75))%float
                then courses_of Courses.complementary (CompetencyScore.competency_name c)
                else [])
             comp_scores in
  let advanced :=
    flat_map (fun c =>
                if Py.ge (CompetencyScore.percentage c) 75
                then courses_of Courses.advanced (CompetencyScore.competency_name c)
                else [])
             comp_scores in
  Recommendation.mk (dict_fromkeys priority) (dict_fromkeys complementary)
    (dict_fromkeys advanced).

(** *** Action plan *)

(** [l or fallback] for lists. *)
Definition list_or {A : Type} (l fallback : list A) : list A :=
  match l with
  | [] => fallback
  | _ => l
  end.

(** The strengths are read from the table, in the order of the rows. *)
Definition generate_action_plan (w : World) : Plan.t :=
  let rec := recommend_courses w in
  let priority := take 2 (Recommendation.priority_courses rec) in
  let complementary := take 2 (Recommendation.complementary_courses rec) in
  let advanced := take 2 (Recommendation.advanced_courses rec) in
  let days_30 :=
    match priority with
    | c :: _ => ["Complete priority course: " +:+ c]
    | [] => ["Start with foundational skill-building tasks"]
    end in
  let days_30 := days_30 ++ ["Practice 30–60 mins daily on weakest competency"] in
  let days_90 :=
    list_or (map (fun c => "Complete: " +:+ c) complementary)
            ["Build a mini-project to reinforce skills"] in
  let months_6_12 :=
    list_or (map (fun c => "Take advanced course: " +:+ c) advanced)
            ["Start a specialization/capstone"] in
  let strengths := List.filter CompetencyScore.is_strength (scores_of_exam w) in
  let months_6_12 :=
    match strengths with
    | [] => months_6_12
    | _ =>
        let names :=
          Str.join ", "
            (map (fun s => Str.title (Str.replace "_"%char " "%char (CompetencyScore.competency_name s)))
                 strengths) in
        months_6_12 ++ ["Leverage strengths (" +:+ names +:+ ") for internships or projects."]
    end in
  Plan.mk days_30 days_90 months_6_12.

(** *** Proctoring violation deduction *)

Definition violation_weights : list (string * float) :=
  [ ("multiple_persons", 0x1.3333333333333p-2%float);  (* 0.30 *)
    ("object_detected", 0.25%float);
    ("audio_detected", 0x1.3333333333333p-3%float);    (* 0.15 *)
    ("gaze_detected", 0x1.999999999999ap-4%float) ].   (* 0.10 *)

Definition violation_weight (v : CheatingEvent.t) : float :=
  match CheatingEvent.event_type v with
  | Some t => default 0%float (dict_get violation_weights t)
  | None => 0%float
  end.

(** [CheatingEvent.objects.filter(student=self.exam.student)] *)
Definition violations_of_student (w : World) : list CheatingEvent.t :=
  List.filter
    (fun v => bool_decide (CheatingEvent.student v = Exam.student self_exam))
    (cheating_events w).

(** The events are summed in the order of the table; [violations.first()]
    on the unordered queryset is the event of lowest primary key, the head
    of that order, and [None] when there is no event.  [severity] starts as
    the int 0, which adds like the float 0.0. *)
Definition calculate_violation_deduction (w : World) : Z :=
  let violations := violations_of_student w in
  let severity := fold_left (fun severity v => (severity + violation_weight v)%float)
                            violations 0%float in
  let severity :=
    match violations with
    | first :: _ =>
        (severity
         + Py.min (Py.float_of_int (CheatingEvent.tab_switch_count first)
                   * 0x1.3333333333333p-3)   (* 0.15 *)
                  0.75)%float
    | [] => severity
    end in
  if Py.ge severity 1 then 2 else 0.

(** *** Total score *)

(** The grading loop of [calculate_total_score]: a missing answer is
    [None]; [competency_scores[comp] += self.MARKS[comp]] raises [KeyError]
    for a competency that is not a key of the dictionaries. *)
Fixpoint grade (questions : list Question.t) (user_answers : gmap string Py.value)
    (competency_scores : list (string * Z)) : result (list (string * Z)) :=
  match questions with
  | [] => Ok competency_scores
  | q :: questions' =>
      let qid := Question.id q in
      let comp := Question.competency_type q in
      if bool_decide (default Py.None (user_answers !! Py.str qid) = Question.correct_answer q)
      then
        match comp with
        | Some c =>
            match dict_get competency_scores c, dict_get MARKS c with
            | Some score, Some marks =>
                grade questions' user_answers (dict_set competency_scores c (score + marks))
            | _, _ => Raise (KeyError comp)
            end
        | None => Raise (KeyError comp)
        end
      else grade questions' user_answers competency_scores
  end.

(** The raw scores are ints; [save_competency_breakdown] divides them as
    floats. *)
Definition calculate_total_score (questions : list Question.t)
    (user_answers : gmap string Py.value) : M Z :=
  let competency_scores := map (fun '(c, _) => (c, 0)) MARKS in
  competency_scores <- lift (grade questions user_answers competency_scores) ;;
  save_competency_breakdown
    (map (fun '(c, score) => (c, Py.float_of_int score)) competency_scores) ;;
  let total := fold_left Z.add (map snd competency_scores) 0 in
  deduction <- gets calculate_violation_deduction ;;
  let total := total - deduction in
  let total := Z.max 0 total in
  ret total.

(** *** Ranking and percentile *)

(** [Exam.objects.filter(status="completed").order_by("-total_score", "-timestamp")];
    rows that tie on both columns stay in table order. *)
Definition completed_exams (w : World) : list Exam.t :=
  stable_sort
    (fun y x =>
       (Exam.total_score x <? Exam.total_score y)
       || ((Exam.total_score x =? Exam.total_score y)
           && (Exam.timestamp x <? Exam.timestamp y)))
    (List.filter (fun e => String.eqb (Exam.status e) "completed") (exams w)).

(** [exam.save()] for a row read from the table. *)
Definition save_exam (exam : Exam.t) : M unit :=
  modify (fun w =>
    with_exams (map (fun r => if (Exam.pk r =? Exam.pk exam)%nat then exam else r) (exams w)) w).

(** [for rank, exam in enumerate(all_exams, start=1)]: the loop sets rank
    and percentile on the instances its queryset produced and saves each. *)
Fixpoint rank_exams (total : Z) (rank : Z) (all_exams : list Exam.t) : M unit :=
  match all_exams with
  | [] => ret tt
  | exam :: all_exams' =>
      quotient <- lift (int_truediv (total - rank) total) ;;
      save_exam (Exam.set_ranking rank (quotient * 100)%float exam) ;;
      rank_exams total (rank + 1) all_exams'
  end.

(** The pair returned is read from [self.exam], the instance of the
    service, which is not one of the instances of the loop. *)
Definition calculate_ranking : M (option Z * option float) :=
  all_exams <- gets completed_exams ;;
  let total := Z.of_nat (length all_exams) in
  rank_exams total 1 all_exams ;;
  ret (Exam.rank self_exam, Exam.percentile self_exam).

End SimpleScoringService.

(** ** Vocabulary of the statements *)

(** The instances behind [refs] after [f] was applied to each of them. *)
Definition flag_objects (f : CompetencyScore.t -> CompetencyScore.t) (refs : list ref)
    (o : list CompetencyScore.t) : list CompetencyScore.t :=
  imap (fun i x => if bool_decide (i ∈ refs) then f x else x) o.

(** The table after [f] was applied to the rows with a primary key in [pks]. *)
Definition flag_rows (f : CompetencyScore.t -> CompetencyScore.t) (pks : list nat)
    (t : list CompetencyScore.t) : list CompetencyScore.t :=
  map (fun r => if bool_decide (CompetencyScore.pk r ∈ pks) then f r else r) t.

(** The rows of exam [e] after [update(is_strength=False, is_weakness=False)]. *)
Definition reset_rows (e : nat) (t : list CompetencyScore.t) : list CompetencyScore.t :=
  map (fun r => if (CompetencyScore.exam r =? e)%nat
                then CompetencyScore.set_is_weakness false
                       (CompetencyScore.set_is_strength false r)
                else r) t.

(** A row of the table after the reset for exam [e], then [is_strength]
    set on the rows with a key in [ps], then [is_weakness] set on the rows
    with a key in [pw]. *)
Definition final_row (e : nat) (ps pw : list nat) (r : CompetencyScore.t) : CompetencyScore.t :=
  let r := if (CompetencyScore.exam r =? e)%nat
           then CompetencyScore.set_is_weakness false (CompetencyScore.set_is_strength false r)
           else r in
  let r := if bool_decide (CompetencyScore.pk r ∈ ps)
           then CompetencyScore.set_is_strength true r else r in
  if bool_decide (CompetencyScore.pk r ∈ pw)
  then CompetencyScore.set_is_weakness true r else r.

(** The primary keys of the instances behind a list of references. *)
Definition pks_of (w : World) (refs : list ref) : list nat :=
  map (fun c => CompetencyScore.pk (objects w !!! c)) refs.

(** The instance is live and its row is in the table, so that
    [save(update_fields=...)] finds a row to update. *)
Definition saveable (w : World) (c : ref) : Prop :=
  (c < length (objects w))%nat
  /\ CompetencyScore.pk (objects w !!! c) ∈ map CompetencyScore.pk (competency_scores w).

(** The entries [identify_strengths_weaknesses] flags, as functions of the
    percentages alone. *)
Definition strength_selection (key : ref -> float) (comp_scores : list ref) : list ref :=
  let comp_scores := sorted comp_scores key true in
  let strengths := List.filter (fun c => Py.ge (key c) 75) comp_scores in
  take 2 (if (length strengths <? 2)%nat then take 2 comp_scores else strengths).

Definition weakness_selection (key : ref -> float) (comp_scores : list ref) : list ref :=
  let comp_scores := sorted comp_scores key true in
  let bottom_sorted := sorted comp_scores key false in
  let weaknesses := List.filter (fun c => (key c <? 60)%float) bottom_sorted in
  take 2 (if (length weaknesses <? 2)%nat then take 2 bottom_sorted else weaknesses).

(** The input of [identify_strengths_weaknesses] is a set of stored records
    of the exam: the references are live, the instances are those of
    different rows of the table, each a row of exam [e], and primary keys
    identify rows. *)
Definition stored_records (e : nat) (w : World) (comp_scores : list ref) : Prop :=
  NoDup (map CompetencyScore.pk (competency_scores w))
  /\ NoDup (pks_of w comp_scores)
  /\ Forall (fun c =>
               (c < length (objects w))%nat
               /\ exists r, r ∈ competency_scores w
                            /\ CompetencyScore.pk r = CompetencyScore.pk (objects w !!! c)
                            /\ CompetencyScore.exam r = e)
            comp_scores.

(** Two of the records have percentages strictly above those of two other
    records: the second-highest percentage is above the second-lowest. *)
Definition two_above_two (w : World) (comp_scores : list ref) : Prop :=
  exists a b c d,
    a ∈ comp_scores /\ b ∈ comp_scores /\ c ∈ comp_scores /\ d ∈ comp_scores
    /\ a <> b /\ c <> d
    /\ Forall (fun high =>
                 Forall (fun low => (percentage_of w low <? percentage_of w high)%float = true)
                        [c; d])
              [a; b].

(** Primary key and flags of a record, for reading off results. *)
Definition flags_of (r : CompetencyScore.t) : nat * bool * bool :=
  (CompetencyScore.pk r, CompetencyScore.is_strength r, CompetencyScore.is_weakness r).

(** The rows [save_competency_breakdown] creates for exam [e] from the
    entries of its argument, the first with primary key [pk]. *)
Fixpoint new_rows (self_exam : Exam.t) (pk : nat) (items : list (string * float))
    : list CompetencyScore.t :=
  match items with
  | [] => []
  | (competency_name, raw_score) :: items' =>
      let max_score := default 0 (dict_get MAX_SCORES competency_name) in
      let percentage := percentage_for raw_score max_score in
      CompetencyScore.mk pk (Exam.pk self_exam) competency_name raw_score max_score
        percentage (level_for percentage) false false
      :: new_rows self_exam (S pk) items'
  end.

(** [0 <= x <= 100] *)
Definition in_0_100 (x : float) : Prop :=
  (0 <=? x)%float = true /\ (x <=? 100)%float = true.

(** The weight of a violation event by its type, as the spec lists them:
    0.30, 0.25, 0.15, 0.10, and 0 for every other type; exact decimals. *)
Definition event_weight (event_type : option string) : Q :=
  match event_type with
  | Some t =>
      if String.eqb t "multiple_persons" then 0.30%Q
      else if String.eqb t "object_detected" then 0.25%Q
      else if String.eqb t "audio_detected" then 0.15%Q
      else if String.eqb t "gaze_detected" then 0.10%Q
      else 0%Q
  | Datatypes.None => 0%Q
  end.

(** The severity of a sequence of violation events as the spec defines
    it: the sum of the weights of all events plus
    [min(tab_switch_count * 0.15, 0.75)] for the first event. *)
Definition severity (events : list CheatingEvent.t) : Q :=
  let total :=
    foldr Qplus 0%Q (map (fun v => event_weight (CheatingEvent.event_type v)) events) in
  match events with
  | first :: _ =>
      let tabs := (inject_Z (CheatingEvent.tab_switch_count first) * 0.15)%Q in
      (total + (if Qle_bool tabs 0.75 then tabs else 0.75))%Q
  | [] => total
  end.

(** The deduction the spec prescribes for a student, given the table of
    events: 2 points if the severity of the student's events is at least
    1.0, else 0. *)
Definition deduction (student : option nat) (events : list CheatingEvent.t) : Z :=
  let violations :=
    List.filter (fun v => bool_decide (CheatingEvent.student v = student)) events in
  if Qle_bool 1 (severity violations) then 2 else 0.

(** [round(max(0, 75 - percentage) * importance_weight, 3)], the weight
    being 0 for a competency without a configured weight. *)
Definition priority_formula (percentage : float) (competency_name : string) : float :=
  Py.round3
    (Py.max 0 (75 - percentage)
     * default 0 (dict_get COMPETENCY_WEIGHTS competency_name))%float.

(** The entry of the priority list for a stored row. *)
Definition entry_of (c : CompetencyScore.t) : Priority.t :=
  Priority.mk (CompetencyScore.competency_name c) (CompetencyScore.percentage c)
    (priority_formula (CompetencyScore.percentage c) (CompetencyScore.competency_name c))
    (CompetencyScore.is_strength c) (CompetencyScore.is_weakness c).

(** Two score dictionaries with the same keys, the second nowhere below
    the first. *)
Definition dict_le (d d' : list (string * Z)) : Prop :=
  Forall2 (fun x y => x.1 = y.1 /\ x.2 <= y.2) d d'.

(** The question carries one of the competencies of [MARKS]. *)
Definition known_competency (q : Question.t) : Prop :=
  exists c, Question.competency_type q = Some c /\ is_Some (dict_get MARKS c).

(** The submitted answer to [q] equals its correct answer. *)
Definition answered_correctly (user_answers : gmap string Py.value) (q : Question.t) : Prop :=
  default Py.None (user_answers !! Py.str (Question.id q)) = Question.correct_answer q.

(** [(total - rank) / total * 100] *)
Definition percentile_of (total rank : Z) : float :=
  (Py.float_of_int (total - rank) / Py.float_of_int total * 100)%float.

(** [a] may stand before [b] in the ranking: a higher total score, or the
    same total score and a timestamp that is not earlier. *)
Definition ranks_before (a b : Exam.t) : Prop :=
  Exam.total_score b < Exam.total_score a
  \/ (Exam.total_score b = Exam.total_score a /\ Exam.timestamp b <= Exam.timestamp a).

(** The exam table after the rows of [all_exams] got the ranks from [rank]
    on, one [exam.save()] after the other. *)
Fixpoint ranked_table (total rank : Z) (all_exams t : list Exam.t) : list Exam.t :=
  match all_exams with
  | [] => t
  | exam :: all_exams' =>
      ranked_table total (rank + 1) all_exams'
        (map (fun r => if (Exam.pk r =? Exam.pk exam)%nat
                       then Exam.set_ranking rank (percentile_of total rank) exam
                       else r) t)
  end.

(** The position of the exam with primary key [pk] in a list of exams. *)
Fixpoint position (pk : nat) (l : list Exam.t) : option nat :=
  match l with
  | [] => Datatypes.None
  | e :: l' => if (Exam.pk e =? pk)%nat then Some 0%nat else S <$> position pk l'
  end.

(** A row of the exam table after the ranking pass over [all_exams] that
    counts ranks from [rank]: a row of the cohort gets the rank of its
    position and the percentile that goes with it. *)
Definition ranked_row (total rank : Z) (all_exams : list Exam.t) (r : Exam.t) : Exam.t :=
  match position (Exam.pk r) all_exams with
  | Some i =>
      Exam.set_ranking (rank + Z.of_nat i) (percentile_of total (rank + Z.of_nat i)) r
  | Datatypes.None => r
  end.

(** The CompetencyScore table is consistent: primary keys identify rows and
    the key the next created row gets is fresh. *)
Definition table_consistent (w : World) : Prop :=
  NoDup (map CompetencyScore.pk (competency_scores w))
  /\ Forall (fun r => (CompetencyScore.pk r < next_pk w)%nat) (competency_scores w).

(** The percentage [save_competency_breakdown] stores for an entry of its
    argument. *)
Definition item_percentage (item : string * float) : float :=
  percentage_for item.2 (default 0 (dict_get MAX_SCORES item.1)).

(** The row created for an entry, with given primary key and flags. *)
Definition created_row (self_exam : Exam.t) (pk : nat) (item : string * float)
    (is_strength is_weakness : bool) : CompetencyScore.t :=
  CompetencyScore.mk pk (Exam.pk self_exam) item.1 item.2
    (default 0 (dict_get MAX_SCORES item.1)) (item_percentage item)
    (level_for (item_percentage item)) is_strength is_weakness.

(** The rows of the exam after [save_competency_breakdown]: one per entry,
    in order, the first with primary key [pk]; the flags are selected among
    the positions of the entries by their percentages. *)
Definition breakdown_rows (self_exam : Exam.t) (pk : nat) (scores : list (string * float))
    : list CompetencyScore.t :=
  let key := fun i => item_percentage (nth i scores (EmptyString, 0%float)) in
  let entries := seq 0 (length scores) in
  let strengths := strength_selection key entries in
  let weaknesses := weakness_selection key entries in
  imap (fun i item =>
          created_row self_exam (pk + i) item
            (bool_decide (i ∈ strengths)) (bool_decide (i ∈ weaknesses)))
       scores.

(** A row without its two flags. *)
Definition unflagged (r : CompetencyScore.t)
    : nat * nat * string * float * Z * float * level :=
  (CompetencyScore.pk r, CompetencyScore.exam r, CompetencyScore.competency_name r,
   CompetencyScore.raw_score r, CompetencyScore.max_score r, CompetencyScore.percentage r,
   CompetencyScore.performance_level r).

(** A row without its primary key. *)
Definition fields_of (r : CompetencyScore.t)
    : nat * string * float * Z * float * level * bool * bool :=
  (CompetencyScore.exam r, CompetencyScore.competency_name r, CompetencyScore.raw_score r,
   CompetencyScore.max_score r, CompetencyScore.percentage r,
   CompetencyScore.performance_level r, CompetencyScore.is_strength r,
   CompetencyScore.is_weakness r).

(** The rows of the table that belong to other exams than [e]. *)
Definition scores_of_others (e : nat) (w : World) : list CompetencyScore.t :=
  List.filter (fun r => negb (CompetencyScore.exam r =? e)%nat) (competency_scores w).

(** The performance levels from lowest to highest. *)
Definition level_rank (l : level) : nat :=
  match l with
  | novice => 0
  | emerging => 1
  | developing => 2
  | proficient => 3
  | advanced => 4
  end.

(** Whether the submitted answer to [q] equals its correct answer. *)
Definition is_correct (user_answers : gmap string Py.value) (q : Question.t) : bool :=
  bool_decide
    (default Py.None (user_answers !! Py.str (Question.id q)) = Question.correct_answer q).

(** The marks a question is worth: those of its competency in [MARKS]; a
    question without a competency, or with one that is not a key of
    [MARKS], has none. *)
Definition marks_of (q : Question.t) : option Z :=
  match Question.competency_type q with
  | Some c => dict_get MARKS c
  | Datatypes.None => Datatypes.None
  end.

(** The first question that is answered correctly and has no marks. *)
Definition first_unmarked (user_answers : gmap string Py.value)
    (questions : list Question.t) : option Question.t :=
  List.find (fun q => is_correct user_answers q
                      && match marks_of q with Some _ => false | Datatypes.None => true end)
            questions.

(** The marks of the correctly answered questions, added up. *)
Definition earned (user_answers : gmap string Py.value) (questions : list Question.t) : Z :=
  foldr Z.add 0
    (map (fun q => default 0 (marks_of q)) (List.filter (is_correct user_answers) questions)).

(** The number of entries of a list that carry a flag. *)
Definition count {A : Type} (flag : A -> bool) (l : list A) : nat :=
  length (List.filter flag l).

(** The number of correctly answered questions of competency [c]. *)
Definition correct_count (user_answers : gmap string Py.value) (c : string)
    (questions : list Question.t) : nat :=
  count (fun q => is_correct user_answers q
                  && bool_decide (Question.competency_type q = Some c))
        questions.

(** * Properties *)

(** ** Order facts about binary64 comparison

    Python compares floats with the IEEE predicates; they are read off
    [SFcompare], which answers [None] exactly when an operand is NaN. *)

Module FloatOrder.

Lemma compare_cont_Eq (m n : positive) :
  PosDef.Pos.compare_cont Eq m n = Pos.compare m n.
Proof. reflexivity. Qed.

Ltac sf_cases :=
  repeat match goal with
  | s : bool |- _ => destruct s
  end;
  simpl in *; rewrite ?compare_cont_Eq in *;
  repeat match goal with
  | H : context [Z.compare ?a ?b] |- _ => destruct (Z.compare_spec a b); simpl in H
  | |- context [Z.compare ?a ?b] => destruct (Z.compare_spec a b); simpl
  | H : context [Pos.compare ?a ?b] |- _ => destruct (Pos.compare_spec a b); simpl in H
  | |- context [Pos.compare ?a ?b] => destruct (Pos.compare_spec a b); simpl
  end;
  try congruence; try lia.

Lemma SFcompare_opp x y c :
  SFcompare x y = Some c -> SFcompare y x = Some (CompOpp c).
Proof.
  destruct x, y; simpl; try discriminate; intros H; sf_cases;
    try (injection H as <-; reflexivity).
Qed.

Lemma SFcompare_trans x y z c :
  SFcompare x y = Some c -> SFcompare y z = Some c -> SFcompare x z = Some c.
Proof. destruct x, y, z; simpl; try discriminate; intros H1 H2; sf_cases. Qed.

Lemma SFcompare_eq_l x y z c :
  SFcompare x y = Some Eq -> SFcompare y z = Some c -> SFcompare x z = Some c.
Proof. destruct x, y, z; simpl; try discriminate; intros H1 H2; sf_cases. Qed.

Lemma SFcompare_eq_r x y z c :
  SFcompare x y = Some c -> SFcompare y z = Some Eq -> SFcompare x z = Some c.
Proof. destruct x, y, z; simpl; try discriminate; intros H1 H2; sf_cases. Qed.

Lemma SFcompare_total x y :
  SFcompare x x = Some Eq -> SFcompare y y = Some Eq ->
  exists c, SFcompare x y = Some c.
Proof. destruct x, y; simpl; try discriminate; eauto. Qed.

Lemma SFcompare_refl_l x y c : SFcompare x y = Some c -> SFcompare x x = Some Eq.
Proof. destruct x, y; simpl; try discriminate; intros; sf_cases. Qed.

Lemma ltb_cmp x y : (x <? y)%float = true <-> Py.cmp x y = Some Lt.
Proof.
  rewrite FloatAxioms.ltb_spec. unfold SFltb, Py.cmp.
  destruct (SFcompare _ _) as [[]|]; split; congruence.
Qed.

Lemma eqb_cmp x y : (x =? y)%float = true <-> Py.cmp x y = Some Eq.
Proof.
  rewrite FloatAxioms.eqb_spec. unfold SFeqb, Py.cmp.
  destruct (SFcompare _ _) as [[]|]; split; congruence.
Qed.

Lemma leb_cmp x y :
  (x <=? y)%float = true <-> Py.cmp x y = Some Lt \/ Py.cmp x y = Some Eq.
Proof.
  rewrite FloatAxioms.leb_spec. unfold SFleb, Py.cmp.
  destruct (SFcompare _ _) as [[]|]; split; intros; try tauto;
    try congruence; destruct H; congruence.
Qed.

Lemma cmp_opp x y c : Py.cmp x y = Some c -> Py.cmp y x = Some (CompOpp c).
Proof. apply SFcompare_opp. Qed.

Lemma cmp_total x y : Py.number x -> Py.number y -> exists c, Py.cmp x y = Some c.
Proof. unfold Py.number. rewrite !eqb_cmp. apply SFcompare_total. Qed.

Lemma cmp_number_l x y c : Py.cmp x y = Some c -> Py.number x.
Proof. unfold Py.number. rewrite eqb_cmp. apply SFcompare_refl_l. Qed.

Lemma cmp_number_r x y c : Py.cmp x y = Some c -> Py.number y.
Proof. intros H. apply cmp_opp in H. eapply cmp_number_l, H. Qed.

Lemma ltb_leb x y : (x <? y)%float = true -> (x <=? y)%float = true.
Proof. rewrite ltb_cmp, leb_cmp. auto. Qed.

Lemma ltb_asym x y : (x <? y)%float = true -> (y <? x)%float = false.
Proof.
  intros H. apply ltb_cmp, cmp_opp in H. simpl in H.
  destruct (y <? x)%float eqn:E; [|reflexivity].
  apply ltb_cmp in E. congruence.
Qed.

Lemma ltb_irrefl x : (x <? x)%float = false.
Proof.
  destruct (x <? x)%float eqn:E; [|reflexivity].
  pose proof (ltb_asym _ _ E). congruence.
Qed.

Lemma ltb_trans x y z :
  (x <? y)%float = true -> (y <? z)%float = true -> (x <? z)%float = true.
Proof. rewrite !ltb_cmp. apply SFcompare_trans. Qed.

Lemma leb_trans x y z :
  (x <=? y)%float = true -> (y <=? z)%float = true -> (x <=? z)%float = true.
Proof.
  rewrite !leb_cmp. unfold Py.cmp. intros [H1|H1] [H2|H2].
  - left. eapply SFcompare_trans; eauto.
  - left. eapply SFcompare_eq_r; eauto.
  - left. eapply SFcompare_eq_l; eauto.
  - right. eapply SFcompare_trans; eauto.
Qed.

Lemma ltb_leb_trans x y z :
  (x <? y)%float = true -> (y <=? z)%float = true -> (x <? z)%float = true.
Proof.
  rewrite !ltb_cmp, leb_cmp. unfold Py.cmp. intros H1 [H2|H2].
  - eapply SFcompare_trans; eauto.
  - eapply SFcompare_eq_r; eauto.
Qed.

Lemma leb_ltb_trans x y z :
  (x <=? y)%float = true -> (y <? z)%float = true -> (x <? z)%float = true.
Proof.
  rewrite !ltb_cmp, leb_cmp. unfold Py.cmp. intros [H1|H1] H2.
  - eapply SFcompare_trans; eauto.
  - eapply SFcompare_eq_l; eauto.
Qed.

(** On numbers, "not less" is "greater or equal". *)
Lemma not_ltb_leb x y :
  Py.number x -> Py.number y -> (x <? y)%float = false -> (y <=? x)%float = true.
Proof.
  intros Hx Hy H. destruct (cmp_total x y Hx Hy) as [c Hc].
  apply leb_cmp. pose proof (cmp_opp _ _ _ Hc) as Ho.
  destruct c; simpl in Ho; auto.
  apply ltb_cmp in Hc. congruence.
Qed.

Lemma leb_not_ltb x y : (x <=? y)%float = true -> (y <? x)%float = false.
Proof.
  rewrite leb_cmp. intros H. destruct (y <? x)%float eqn:E; [|reflexivity].
  apply ltb_cmp, cmp_opp in E. simpl in E. destruct H; congruence.
Qed.

Lemma eqb_number_l x y : (x =? y)%float = true -> Py.number x.
Proof. rewrite eqb_cmp. apply cmp_number_l. Qed.

Lemma eqb_sym x y : (x =? y)%float = true -> (y =? x)%float = true.
Proof. rewrite !eqb_cmp. intros H. apply cmp_opp in H. exact H. Qed.

Lemma eqb_trans x y z :
  (x =? y)%float = true -> (y =? z)%float = true -> (x =? z)%float = true.
Proof. rewrite !eqb_cmp. apply SFcompare_trans. Qed.

Lemma eqb_not_ltb x y : (x =? y)%float = true -> (x <? y)%float = false.
Proof.
  intros H. destruct (x <? y)%float eqn:E; [|reflexivity].
  apply eqb_cmp in H. apply ltb_cmp in E. congruence.
Qed.

Lemma ltb_number_l x y : (x <? y)%float = true -> Py.number x.
Proof. rewrite ltb_cmp. apply cmp_number_l. Qed.

Lemma ltb_number_r x y : (x <? y)%float = true -> Py.number y.
Proof. rewrite ltb_cmp. apply cmp_number_r. Qed.

End FloatOrder.

(** ** Sorting is a stable rearrangement *)

Section SortingFacts.
Context {A : Type} (before : A -> A -> bool).

Lemma insert_sorted_Permutation (x : A) (l : list A) :
  insert_sorted before x l ≡ₚ x :: l.
Proof.
  induction l as [|y l IH]; simpl; [reflexivity|].
  destruct (before y x); [|reflexivity].
  rewrite IH. apply Permutation_swap.
Qed.

Lemma stable_sort_Permutation (l : list A) : stable_sort before l ≡ₚ l.
Proof.
  induction l as [|x l IH]; simpl; [reflexivity|].
  rewrite insert_sorted_Permutation. by rewrite IH.
Qed.

Lemma stable_sort_length (l : list A) : length (stable_sort before l) = length l.
Proof. by rewrite stable_sort_Permutation. Qed.

Lemma stable_sort_NoDup (l : list A) : NoDup l -> NoDup (stable_sort before l).
Proof. by rewrite stable_sort_Permutation. Qed.

Lemma stable_sort_elem_of (x : A) (l : list A) : x ∈ stable_sort before l <-> x ∈ l.
Proof. by rewrite stable_sort_Permutation. Qed.

(** An element that every element of a list is strictly before goes to
    the end. *)
Lemma insert_sorted_last (x : A) (l : list A) :
  Forall (fun y => before y x = true) l -> insert_sorted before x l = l ++ [x].
Proof.
  induction 1 as [|y l Hy _ IH]; simpl; [reflexivity|].
  by rewrite Hy, IH.
Qed.

(** An element that is after nothing in the list stays in front. *)
Lemma insert_sorted_first (x : A) (l : list A) :
  Forall (fun y => before y x = false) l -> insert_sorted before x l = x :: l.
Proof. destruct 1 as [|y l Hy _]; simpl; [reflexivity|]. by rewrite Hy. Qed.
End SortingFacts.

Lemma stable_sort_ext {A : Type} (f g : A -> A -> bool) (l : list A) :
  (forall x y, f x y = g x y) -> stable_sort f l = stable_sort g l.
Proof.
  intros E. induction l as [|x l IH]; simpl; [reflexivity|].
  rewrite IH. generalize (stable_sort g l) as s.
  induction s as [|y s IHs]; simpl; [reflexivity|].
  by rewrite E, IHs.
Qed.

Lemma sorted_ext {A : Type} (l : list A) (k1 k2 : A -> float) (reverse : bool) :
  (forall x, k1 x = k2 x) -> sorted l k1 reverse = sorted l k2 reverse.
Proof. intros E. apply stable_sort_ext. intros x y. by rewrite !E. Qed.

(** ** Choosing the two flagged entries *)

Lemma filter_sublist {A : Type} (p : A -> bool) (l : list A) :
  List.filter p l `sublist_of` l.
Proof.
  induction l as [|x l IH]; simpl; [constructor|].
  destruct (p x); by constructor.
Qed.

(** [candidates[:2]] after the fall-back [if len(candidates) < 2: candidates =
    l[:2]] consists of two different entries of [l] when [l] has at least
    two entries, all different. *)
Lemma select_two {A : Type} (p : A -> bool) (l : list A) :
  NoDup l -> (2 <= length l)%nat ->
  exists a b,
    take 2 (if (length (List.filter p l) <? 2)%nat then take 2 l else List.filter p l)
      = [a; b]
    /\ a <> b /\ a ∈ l /\ b ∈ l.
Proof.
  intros ND Hlen.
  assert (forall k : list A, k `sublist_of` l -> (2 <= length k)%nat ->
            exists a b, take 2 k = [a; b] /\ a <> b /\ a ∈ l /\ b ∈ l) as Hsub.
  { intros k Hk Hk2. destruct k as [|a [|b k]]; simpl in Hk2; try lia.
    exists a, b. simpl. split; [reflexivity|].
    pose proof (sublist_NoDup _ _ ND Hk) as NDk.
    apply NoDup_cons in NDk as [Hab _].
    repeat split.
    - intros ->. apply Hab. left.
    - eapply elem_of_sublist; [|exact Hk]. left.
    - eapply elem_of_sublist; [|exact Hk]. right. left. }
  destruct (length (List.filter p l) <? 2)%nat eqn:E.
  - rewrite take_take. simpl. by apply Hsub.
  - apply Nat.ltb_ge in E. apply Hsub; [apply filter_sublist|exact E].
Qed.

(** ** Flagging instances and rows *)

Lemma map_fmap {A B : Type} (f : A -> B) (l : list A) : map f l = f <$> l.
Proof. reflexivity. Qed.

Section Flagging.
Context (f : CompetencyScore.t -> CompetencyScore.t).
Hypothesis f_idem : forall x, f (f x) = f x.
Hypothesis f_pk : forall x, CompetencyScore.pk (f x) = CompetencyScore.pk x.

Lemma flag_objects_length refs o : length (flag_objects f refs o) = length o.
Proof using Type. apply length_imap. Qed.

Lemma flag_objects_lookup refs o i :
  flag_objects f refs o !! i
  = (fun x => if bool_decide (i ∈ refs) then f x else x) <$> o !! i.
Proof using Type. apply list_lookup_imap. Qed.

Lemma flag_objects_lookup_total refs o i :
  (i < length o)%nat ->
  flag_objects f refs o !!! i = if bool_decide (i ∈ refs) then f (o !!! i) else o !!! i.
Proof using Type.
  clear f_idem f_pk.
  intros Hi. rewrite !list_lookup_total_alt, flag_objects_lookup.
  destruct (lookup_lt_is_Some_2 o i Hi) as [x ->]. simpl. by case_bool_decide.
Qed.

(** [c.flag = True] on top of earlier assignments. *)
Lemma flag_objects_insert refs o c :
  <[c := f (flag_objects f refs o !!! c)]> (flag_objects f refs o)
  = flag_objects f (refs ++ [c]) o.
Proof using f_idem.
  clear f_pk.
  apply list_eq. intros i.
  rewrite list_lookup_insert, !flag_objects_lookup, flag_objects_length.
  case_decide as Hn; [destruct Hn as [-> Hi]|].
  - rewrite flag_objects_lookup_total by done.
    destruct (lookup_lt_is_Some_2 o i Hi) as [x Hx].
    rewrite Hx, (list_lookup_total_correct _ _ _ Hx). simpl.
    rewrite (bool_decide_true (i ∈ refs ++ [i])) by set_solver.
    f_equal. case_bool_decide; [apply f_idem|done].
  - destruct (o !! i) as [x|] eqn:Hx; simpl; [|done].
    assert (c <> i) as Hci.
    { intros ->. apply Hn. split; [done|]. eapply lookup_lt_Some, Hx. }
    f_equal. repeat case_bool_decide; set_solver.
Qed.

Lemma flag_objects_nil o : flag_objects f [] o = o.
Proof using Type.
  clear f_idem f_pk.
  apply list_eq. intros i. rewrite flag_objects_lookup.
  destruct (o !! i); simpl; [|done]. repeat case_bool_decide; set_solver.
Qed.

(** Flagging keeps every field that [f] keeps. *)
Lemma flag_objects_proj {B : Type} (proj : CompetencyScore.t -> B) refs o i :
  (forall x, proj (f x) = proj x) ->
  proj (flag_objects f refs o !!! i) = proj (o !!! i).
Proof using Type.
  clear f_idem f_pk.
  intros Hp. destruct (decide (i < length o)%nat) as [Hi|Hi].
  - rewrite flag_objects_lookup_total by done. case_bool_decide; [apply Hp|done].
  - rewrite !list_lookup_total_alt.
    rewrite (lookup_ge_None_2 (flag_objects f refs o)) by (rewrite flag_objects_length; lia).
    by rewrite (lookup_ge_None_2 o) by lia.
Qed.

Lemma flag_rows_pks pks t :
  map CompetencyScore.pk (flag_rows f pks t) = map CompetencyScore.pk t.
Proof using f_pk.
  unfold flag_rows. rewrite map_map. apply map_ext. intros r.
  case_bool_decide; [apply f_pk|done].
Qed.

Lemma flag_rows_cons p pks t :
  flag_rows f pks (flag_rows f [p] t) = flag_rows f (p :: pks) t.
Proof using f_idem f_pk.
  unfold flag_rows. rewrite map_map. apply map_ext. intros r.
  destruct (decide (CompetencyScore.pk r = p)) as [E|E].
  - rewrite (bool_decide_true (_ ∈ [p])) by set_solver.
    rewrite f_pk, (bool_decide_true (_ ∈ p :: pks)) by set_solver.
    case_bool_decide; [apply f_idem|done].
  - rewrite (bool_decide_false (_ ∈ [p])) by set_solver.
    repeat case_bool_decide; set_solver.
Qed.

Lemma flag_rows_nil t : flag_rows f [] t = t.
Proof using Type.
  clear f_idem f_pk.
  unfold flag_rows. rewrite <- (map_id t) at 2. apply map_ext. intros r.
  case_bool_decide; set_solver.
Qed.

Lemma flag_objects_app refs1 refs2 o :
  flag_objects f refs2 (flag_objects f refs1 o) = flag_objects f (refs1 ++ refs2) o.
Proof using f_idem.
  clear f_pk.
  apply list_eq. intros i. rewrite !flag_objects_lookup.
  destruct (o !! i) as [x|]; simpl; [|done]. f_equal.
  repeat case_bool_decide; try done; try set_solver.
Qed.

Lemma pks_of_flag_objects refs refs' w w' :
  objects w' = flag_objects f refs' (objects w) -> pks_of w' refs = pks_of w refs.
Proof using f_pk.
  intros E. unfold pks_of. apply map_ext. intros c. rewrite E.
  by apply flag_objects_proj.
Qed.

End Flagging.

(** ** Running the Django calls *)

Lemma elem_of_pks_existsb (p : nat) (t : list CompetencyScore.t) :
  p ∈ map CompetencyScore.pk t ->
  existsb (fun r => (CompetencyScore.pk r =? p)%nat) t = true.
Proof.
  rewrite map_fmap, list_elem_of_fmap. intros (r & -> & Hr).
  apply existsb_exists. exists r. split; [by apply list_elem_of_In|].
  apply Nat.eqb_refl.
Qed.

Section Marking.
Context (f : CompetencyScore.t -> CompetencyScore.t)
        (copy : CompetencyScore.t -> CompetencyScore.t -> CompetencyScore.t).
Hypothesis f_idem : forall x, f (f x) = f x.
Hypothesis f_pk : forall x, CompetencyScore.pk (f x) = CompetencyScore.pk x.
Hypothesis copy_f : forall o r, copy (f o) r = f r.

Lemma mark_run (c : ref) (w : World) :
  saveable w c ->
  (setattr f c ;; save_field copy c) w
  = Ok (tt, mkWorld (flag_objects f [c] (objects w))
                    (flag_rows f [CompetencyScore.pk (objects w !!! c)] (competency_scores w))
                    (next_pk w) (cheating_events w) (exams w)).
Proof using f_idem f_pk copy_f.
  intros [Hc Hpk]. unfold bind, setattr, modify, save_field. simpl.
  rewrite list_lookup_total_insert_eq by done. rewrite f_pk.
  rewrite elem_of_pks_existsb by done.
  unfold with_competency_scores, with_objects. simpl. do 3 f_equal.
  - pose proof (flag_objects_insert f f_idem [] (objects w) c) as H.
    by rewrite flag_objects_nil in H.
  - unfold flag_rows. apply map_ext. intros r. rewrite copy_f.
    destruct (Nat.eqb_spec (CompetencyScore.pk r) (CompetencyScore.pk (objects w !!! c))).
    + by rewrite bool_decide_true by set_solver.
    + by rewrite bool_decide_false by set_solver.
Qed.

Lemma for_each_mark_run (mark : ref -> M unit) (refs : list ref) :
  (forall c w, mark c w = (setattr f c ;; save_field copy c) w) ->
  forall w, Forall (saveable w) refs ->
  for_each refs mark w
  = Ok (tt, mkWorld (flag_objects f refs (objects w))
                    (flag_rows f (pks_of w refs) (competency_scores w))
                    (next_pk w) (cheating_events w) (exams w)).
Proof using f_idem f_pk copy_f.
  intros Hmark. induction refs as [|c refs IH]; intros w Hall.
  - simpl. unfold ret. rewrite flag_objects_nil, flag_rows_nil. by destruct w.
  - apply Forall_cons in Hall as [Hc Hall]. simpl. unfold bind at 1.
    rewrite Hmark, mark_run by done.
    set (w1 := mkWorld _ _ _ _ _).
    assert (pks_of w1 refs = pks_of w refs) as Hpks
      by (by apply (pks_of_flag_objects f f_pk refs [c])).
    rewrite IH.
    + simpl. rewrite Hpks. do 3 f_equal.
      * by rewrite flag_objects_app.
      * by rewrite (flag_rows_cons f f_idem f_pk).
    + eapply Forall_impl; [exact Hall|]. intros c' [Hc' Hin]. subst w1. split; simpl.
      * by rewrite flag_objects_length.
      * rewrite (flag_rows_pks f f_pk).
        by rewrite (flag_objects_proj f CompetencyScore.pk [c] (objects w) c' f_pk).
Qed.

End Marking.

(** ** What [identify_strengths_weaknesses] leaves behind *)

Lemma set_is_strength_idem b x :
  CompetencyScore.set_is_strength b (CompetencyScore.set_is_strength b x)
  = CompetencyScore.set_is_strength b x.
Proof. reflexivity. Qed.

Lemma set_is_weakness_idem b x :
  CompetencyScore.set_is_weakness b (CompetencyScore.set_is_weakness b x)
  = CompetencyScore.set_is_weakness b x.
Proof. reflexivity. Qed.

Lemma reset_rows_pks e t :
  map CompetencyScore.pk (reset_rows e t) = map CompetencyScore.pk t.
Proof.
  unfold reset_rows. rewrite map_map. apply map_ext. intros r.
  by destruct (_ =? _)%nat.
Qed.

Lemma selection_subseteq {A : Type} (p : A -> bool) (l : list A) :
  take 2 (if (length (List.filter p l) <? 2)%nat then take 2 l else List.filter p l) ⊆ l.
Proof.
  destruct (_ <? _)%nat.
  - rewrite take_take. apply sublist_subseteq, sublist_take.
  - etrans; [apply sublist_subseteq, sublist_take|].
    apply sublist_subseteq, filter_sublist.
Qed.

Lemma sorted_subseteq {A : Type} (l : list A) key reverse : sorted l key reverse ⊆ l.
Proof. intros x. unfold sorted. by rewrite stable_sort_elem_of. Qed.

Lemma strength_selection_subseteq key l : strength_selection key l ⊆ l.
Proof.
  unfold strength_selection. etrans; [apply selection_subseteq|apply sorted_subseteq].
Qed.

Lemma weakness_selection_subseteq key l : weakness_selection key l ⊆ l.
Proof.
  unfold weakness_selection. etrans; [apply selection_subseteq|].
  etrans; apply sorted_subseteq.
Qed.

Lemma Forall_subseteq {A : Type} (P : A -> Prop) (k l : list A) :
  k ⊆ l -> Forall P l -> Forall P k.
Proof. rewrite !Forall_forall. intros Hkl Hl x Hx. apply Hl, Hkl, Hx. Qed.

Lemma filter_ext_keys {A : Type} (p q : A -> bool) (l : list A) :
  (forall x, p x = q x) -> List.filter p l = List.filter q l.
Proof. intros E. apply List.filter_ext. exact E. Qed.

Lemma identify_strengths_weaknesses_run (self_exam : Exam.t) (w : World)
    (comp_scores : list ref) :
  comp_scores <> [] ->
  Forall (saveable w) comp_scores ->
  identify_strengths_weaknesses self_exam comp_scores w
  = Ok (sorted comp_scores (percentage_of w) true,
        mkWorld
          (flag_objects (CompetencyScore.set_is_weakness true)
             (weakness_selection (percentage_of w) comp_scores)
             (flag_objects (CompetencyScore.set_is_strength true)
                (strength_selection (percentage_of w) comp_scores) (objects w)))
          (flag_rows (CompetencyScore.set_is_weakness true)
             (pks_of w (weakness_selection (percentage_of w) comp_scores))
             (flag_rows (CompetencyScore.set_is_strength true)
                (pks_of w (strength_selection (percentage_of w) comp_scores))
                (reset_rows (Exam.pk self_exam) (competency_scores w))))
          (next_pk w) (cheating_events w) (exams w)).
Proof.
  intros Hne Hall.
  assert (identify_strengths_weaknesses self_exam comp_scores w
          = (comp_scores' <- gets (fun w => sorted comp_scores (percentage_of w) true) ;;
             reset_flags (Exam.pk self_exam) ;;
             strengths <- gets (fun w =>
               List.filter (fun c => Py.ge (percentage_of w c) 75) comp_scores') ;;
             let strengths :=
               if (length strengths <? 2)%nat then take 2 comp_scores' else strengths in
             for_each (take 2 strengths) mark_strength ;;
             bottom_sorted <- gets (fun w => sorted comp_scores' (percentage_of w) false) ;;
             weaknesses <- gets (fun w =>
               List.filter (fun c => (percentage_of w c <? 60)%float) bottom_sorted) ;;
             let weaknesses :=
               if (length weaknesses <? 2)%nat then take 2 bottom_sorted else weaknesses in
             for_each (take 2 weaknesses) mark_weakness ;;
             ret comp_scores') w) as ->.
  { by destruct comp_scores. }
  unfold bind at 1 2 3. unfold gets at 1 2. unfold reset_flags, modify.
  cbv beta iota zeta.
  set (w1 := with_competency_scores _ w).
  change (percentage_of w1) with (percentage_of w).
  fold (strength_selection (percentage_of w) comp_scores).
  set (Ls := strength_selection (percentage_of w) comp_scores).
  set (Lw := weakness_selection (percentage_of w) comp_scores).
  assert (Forall (saveable w1) comp_scores) as Hall1.
  { eapply Forall_impl; [exact Hall|]. intros c [Hc Hin]. split; [exact Hc|].
    subst w1. simpl. fold (reset_rows (Exam.pk self_exam) (competency_scores w)).
    by rewrite reset_rows_pks. }
  unfold bind at 1.
  rewrite (for_each_mark_run (CompetencyScore.set_is_strength true) copy_is_strength
             (set_is_strength_idem true) (fun _ => eq_refl) (fun _ _ => eq_refl)
             mark_strength Ls (fun _ _ => eq_refl) w1)
    by (eapply Forall_subseteq; [apply strength_selection_subseteq|exact Hall1]).
  set (w2 := mkWorld _ _ _ _ _).
  assert (forall c, percentage_of w2 c = percentage_of w c) as Hkey.
  { intros c. unfold percentage_of. subst w2. simpl.
    by apply (flag_objects_proj (CompetencyScore.set_is_strength true)
                CompetencyScore.percentage). }
  unfold bind at 1 2. unfold gets. cbv beta iota zeta.
  rewrite (sorted_ext _ (percentage_of w2) (percentage_of w) false Hkey).
  rewrite (filter_ext_keys (fun c => (percentage_of w2 c <? 60)%float)
             (fun c => (percentage_of w c <? 60)%float))
    by (intros c; by rewrite Hkey).
  fold (weakness_selection (percentage_of w) comp_scores). fold Lw.
  assert (Forall (saveable w2) comp_scores) as Hall2.
  { eapply Forall_impl; [exact Hall1|]. intros c [Hc Hin]. subst w2. split; simpl.
    - by rewrite flag_objects_length.
    - rewrite (flag_rows_pks (CompetencyScore.set_is_strength true) (fun _ => eq_refl)).
      by rewrite (flag_objects_proj (CompetencyScore.set_is_strength true)
                    CompetencyScore.pk _ _ _ (fun _ => eq_refl)). }
  unfold bind.
  rewrite (for_each_mark_run (CompetencyScore.set_is_weakness true) copy_is_weakness
             (set_is_weakness_idem true) (fun _ => eq_refl) (fun _ _ => eq_refl)
             mark_weakness Lw (fun _ _ => eq_refl) w2)
    by (eapply Forall_subseteq; [apply weakness_selection_subseteq|exact Hall2]).
  unfold ret. do 3 f_equal. subst w2. simpl.
  erewrite (pks_of_flag_objects (CompetencyScore.set_is_strength true) (fun _ => eq_refl)
              Lw Ls w) by reflexivity.
  reflexivity.
Qed.

(** ** Counting flagged entries *)

Lemma selection_sublist {A : Type} (p : A -> bool) (l : list A) :
  take 2 (if (length (List.filter p l) <? 2)%nat then take 2 l else List.filter p l)
    `sublist_of` l.
Proof.
  destruct (_ <? _)%nat.
  - rewrite take_take. apply sublist_take.
  - etrans; [apply sublist_take|apply filter_sublist].
Qed.

(** Both selections have two entries, taken from different records. *)
Lemma selection_two (key : nat -> float) (comp_scores : list nat) (g : nat -> nat) :
  NoDup (map g comp_scores) -> (2 <= length comp_scores)%nat ->
  forall sel, sel = strength_selection key comp_scores
              \/ sel = weakness_selection key comp_scores ->
  length sel = 2%nat /\ NoDup sel /\ NoDup (map g sel) /\ sel ⊆ comp_scores.
Proof.
  intros NDg Hlen sel Hsel.
  assert (NoDup comp_scores) as ND by (rewrite map_fmap in NDg; by apply NoDup_fmap_1 in NDg).
  assert (forall l : list nat, l ≡ₚ comp_scores -> forall p,
            let s := take 2 (if (length (List.filter p l) <? 2)%nat
                             then take 2 l else List.filter p l) in
            length s = 2%nat /\ NoDup s /\ NoDup (map g s) /\ s ⊆ comp_scores) as Hgen.
  { intros l Hl p s.
    assert (NoDup l) as NDl by (by rewrite Hl).
    assert (2 <= length l)%nat as Hl2 by (by rewrite Hl).
    destruct (select_two p l NDl Hl2) as (a & b & E & Hab & Ha & Hb).
    pose proof (selection_sublist p l) as Hsub. fold s in E, Hsub.
    assert (NoDup (map g l)) as NDgl by (by rewrite Hl).
    repeat split.
    - by rewrite E.
    - eapply sublist_NoDup; [exact NDl|exact Hsub].
    - eapply sublist_NoDup; [exact NDgl|]. rewrite !map_fmap. by apply fmap_sublist.
    - intros x Hx. rewrite <- Hl. eapply elem_of_sublist; eauto. }
  destruct Hsel as [-> | ->].
  - apply Hgen. apply stable_sort_Permutation.
  - apply Hgen. unfold sorted. by rewrite !stable_sort_Permutation.
Qed.

(** In a table whose primary keys identify rows, the rows of exam [e] with
    a key in [pks] are as many as the keys, when each key is that of a row
    of the exam. *)
Lemma count_rows_by_pk (e : nat) (pks : list nat) (t : list CompetencyScore.t) :
  NoDup (map CompetencyScore.pk t) -> NoDup pks ->
  (forall p, p ∈ pks ->
     exists r, r ∈ t /\ CompetencyScore.pk r = p /\ CompetencyScore.exam r = e) ->
  count (fun r => (CompetencyScore.exam r =? e)%nat
                  && bool_decide (CompetencyScore.pk r ∈ pks)) t
  = length pks.
Proof.
  intros NDt NDp Hrows. unfold count.
  set (sel := List.filter _ t).
  rewrite <- (length_map CompetencyScore.pk sel).
  apply Permutation_length, NoDup_Permutation; [|exact NDp|].
  - eapply sublist_NoDup; [exact NDt|]. rewrite !map_fmap.
    apply fmap_sublist, filter_sublist.
  - intros p. rewrite map_fmap, list_elem_of_fmap. split.
    + intros (r & -> & Hr). apply list_elem_of_In, filter_In in Hr as [_ Hr].
      apply andb_true_iff in Hr as [_ Hr]. by apply bool_decide_eq_true in Hr.
    + intros Hp. destruct (Hrows p Hp) as (r & Hr & <- & He).
      exists r. split; [done|]. apply list_elem_of_In, filter_In.
      split; [by apply list_elem_of_In|].
      apply andb_true_iff. split; [by apply Nat.eqb_eq|by apply bool_decide_eq_true].
Qed.

(** Among different references, those in [sel] are as many as [sel]. *)
Lemma count_refs (sel l : list nat) :
  NoDup l -> NoDup sel -> sel ⊆ l ->
  count (fun c => bool_decide (c ∈ sel)) l = length sel.
Proof.
  intros NDl NDs Hsub. unfold count.
  apply Permutation_length, NoDup_Permutation; [|exact NDs|].
  - eapply sublist_NoDup; [exact NDl|apply filter_sublist].
  - intros c. rewrite list_elem_of_In, filter_In, <- list_elem_of_In, bool_decide_eq_true.
    split; [tauto|]. intros Hc. split; [by apply Hsub|done].
Qed.

Lemma count_ext {A : Type} (f g : A -> bool) (l : list A) :
  (forall x, x ∈ l -> f x = g x) -> count f l = count g l.
Proof.
  intros E. unfold count. f_equal. induction l as [|x l IH]; simpl; [done|].
  rewrite (E x) by left. rewrite IH; [done|]. intros y Hy. apply E. by right.
Qed.

Lemma count_map {A B : Type} (h : A -> B) (f : B -> bool) (l : list A) :
  count f (map h l) = count (fun x => f (h x)) l.
Proof.
  unfold count. induction l as [|x l IH]; simpl; [done|].
  destruct (f (h x)); simpl; by rewrite IH.
Qed.

Lemma filter_map_comm {A B : Type} (h : A -> B) (f : B -> bool) (l : list A) :
  List.filter f (map h l) = map h (List.filter (fun x => f (h x)) l).
Proof.
  induction l as [|x l IH]; simpl; [done|].
  destruct (f (h x)); simpl; by rewrite IH.
Qed.

(** The row [r] after the reset and the two rounds of flagging. *)
Lemma flagged_rows_map (e : nat) (ps pw : list nat) (t : list CompetencyScore.t) :
  flag_rows (CompetencyScore.set_is_weakness true) pw
    (flag_rows (CompetencyScore.set_is_strength true) ps (reset_rows e t))
  = map (final_row e ps pw) t.
Proof.
  unfold flag_rows, reset_rows. rewrite !map_map. apply map_ext. intros r.
  unfold final_row. destruct (CompetencyScore.exam r =? e)%nat; simpl;
    repeat case_bool_decide; simpl in *; try done.
Qed.

Lemma final_row_exam e ps pw r :
  CompetencyScore.exam (final_row e ps pw r) = CompetencyScore.exam r.
Proof.
  unfold final_row.
  destruct (CompetencyScore.exam r =? e)%nat; repeat case_bool_decide; done.
Qed.

Lemma final_row_is_strength e ps pw r :
  CompetencyScore.exam r = e ->
  CompetencyScore.is_strength (final_row e ps pw r)
  = bool_decide (CompetencyScore.pk r ∈ ps).
Proof.
  intros <-. unfold final_row. rewrite Nat.eqb_refl.
  repeat case_bool_decide; done.
Qed.

Lemma final_row_is_weakness e ps pw r :
  CompetencyScore.exam r = e ->
  CompetencyScore.is_weakness (final_row e ps pw r)
  = bool_decide (CompetencyScore.pk r ∈ pw).
Proof.
  intros <-. unfold final_row. rewrite Nat.eqb_refl.
  repeat case_bool_decide; done.
Qed.

Lemma count_filter {A : Type} (f g : A -> bool) (l : list A) :
  count f (List.filter g l) = count (fun x => g x && f x) l.
Proof.
  unfold count. induction l as [|x l IH]; simpl; [done|].
  destruct (g x); simpl; [|done]. destruct (f x); simpl; by rewrite IH.
Qed.

(** The rows of the exam that carry a flag after the call. *)
Lemma count_final_rows (e : nat) (ps pw : list nat) (t : list CompetencyScore.t) :
  let rows := List.filter (fun r => (CompetencyScore.exam r =? e)%nat)
                (map (final_row e ps pw) t) in
  count CompetencyScore.is_strength rows
  = count (fun r => (CompetencyScore.exam r =? e)%nat
                    && bool_decide (CompetencyScore.pk r ∈ ps)) t
  /\ count CompetencyScore.is_weakness rows
     = count (fun r => (CompetencyScore.exam r =? e)%nat
                       && bool_decide (CompetencyScore.pk r ∈ pw)) t.
Proof.
  simpl. rewrite !count_filter, !count_map. split; apply count_ext; intros r _;
    rewrite final_row_exam; destruct (Nat.eqb_spec (CompetencyScore.exam r) e);
    simpl; try done.
  - by apply final_row_is_strength.
  - by apply final_row_is_weakness.
Qed.

(** The flags of an instance after the call. *)
Lemma final_object_flags (ls lw : list nat) (o : list CompetencyScore.t) (c : nat) :
  (c < length o)%nat ->
  let o' := flag_objects (CompetencyScore.set_is_weakness true) lw
              (flag_objects (CompetencyScore.set_is_strength true) ls o) in
  CompetencyScore.is_strength (o' !!! c)
  = bool_decide (c ∈ ls) || CompetencyScore.is_strength (o !!! c)
  /\ CompetencyScore.is_weakness (o' !!! c)
     = bool_decide (c ∈ lw) || CompetencyScore.is_weakness (o !!! c).
Proof.
  intros Hc. simpl.
  rewrite !flag_objects_lookup_total by (rewrite ?flag_objects_length; done).
  repeat case_bool_decide; done.
Qed.

Lemma stored_records_saveable e w comp_scores :
  stored_records e w comp_scores -> Forall (saveable w) comp_scores.
Proof.
  intros (_ & _ & Hall). eapply Forall_impl; [exact Hall|].
  intros c (Hc & r & Hr & Hpk & _). split; [exact Hc|].
  rewrite <- Hpk, map_fmap. by apply list_elem_of_fmap_2.
Qed.

(** The counts of flagged rows and instances in the state the call leaves
    behind. *)
Lemma flagged_counts (e : nat) (w : World) (comp_scores : list nat) :
  stored_records e w comp_scores ->
  (2 <= length comp_scores)%nat ->
  let ls := strength_selection (percentage_of w) comp_scores in
  let lw := weakness_selection (percentage_of w) comp_scores in
  let rows :=
    List.filter (fun r => (CompetencyScore.exam r =? e)%nat)
      (flag_rows (CompetencyScore.set_is_weakness true) (pks_of w lw)
         (flag_rows (CompetencyScore.set_is_strength true) (pks_of w ls)
            (reset_rows e (competency_scores w)))) in
  let objects' :=
    flag_objects (CompetencyScore.set_is_weakness true) lw
      (flag_objects (CompetencyScore.set_is_strength true) ls (objects w)) in
  count CompetencyScore.is_strength rows = 2%nat
  /\ count CompetencyScore.is_weakness rows = 2%nat
  /\ (Forall (fun c => CompetencyScore.is_strength (objects w !!! c) = false
                       /\ CompetencyScore.is_weakness (objects w !!! c) = false)
             comp_scores ->
      count (fun c => CompetencyScore.is_strength (objects' !!! c)) comp_scores = 2%nat
      /\ count (fun c => CompetencyScore.is_weakness (objects' !!! c)) comp_scores = 2%nat).
Proof.
  intros (NDt & NDp & Hall) Hlen ls lw rows objects'.
  destruct (selection_two (percentage_of w) comp_scores
              (fun c => CompetencyScore.pk (objects w !!! c)) NDp Hlen ls (or_introl eq_refl))
    as (Hls2 & NDls & NDpls & Hlsub).
  destruct (selection_two (percentage_of w) comp_scores
              (fun c => CompetencyScore.pk (objects w !!! c)) NDp Hlen lw (or_intror eq_refl))
    as (Hlw2 & NDlw & NDplw & Hlwsub).
  assert (NoDup comp_scores) as ND
    by (unfold pks_of in NDp; rewrite map_fmap in NDp; by apply NoDup_fmap_1 in NDp).
  assert (forall sel, sel ⊆ comp_scores -> forall p, p ∈ pks_of w sel ->
            exists r, r ∈ competency_scores w /\ CompetencyScore.pk r = p
                      /\ CompetencyScore.exam r = e) as Hrows.
  { intros sel Hsel p Hp. unfold pks_of in Hp.
    rewrite map_fmap in Hp. apply list_elem_of_fmap in Hp as (c & -> & Hc).
    rewrite Forall_forall in Hall.
    destruct (Hall c (Hsel c Hc)) as (_ & r & Hr & Hpk & He). by exists r. }
  subst rows. rewrite flagged_rows_map.
  destruct (count_final_rows e (pks_of w ls) (pks_of w lw) (competency_scores w)) as [-> ->].
  rewrite !count_rows_by_pk by (try done; by apply Hrows).
  unfold pks_of. rewrite !length_map.
  split; [done|]. split; [done|]. intros Hun.
  rewrite Forall_forall in Hall, Hun. split.
  - rewrite (count_ext _ (fun c => bool_decide (c ∈ ls))).
    + by rewrite count_refs.
    + intros c Hc. destruct (Hall c Hc) as [Hv _]. destruct (Hun c Hc) as [Hs _].
      destruct (final_object_flags ls lw (objects w) c Hv) as [E _].
      unfold objects'. rewrite E, Hs. apply orb_false_r.
  - rewrite (count_ext _ (fun c => bool_decide (c ∈ lw))).
    + by rewrite count_refs.
    + intros c Hc. destruct (Hall c Hc) as [Hv _]. destruct (Hun c Hc) as [_ Hs].
      destruct (final_object_flags ls lw (objects w) c Hv) as [_ E].
      unfold objects'. rewrite E, Hs. apply orb_false_r.
Qed.

(** C1. For an input of at least two stored records of the exam,
    [identify_strengths_weaknesses] returns and leaves exactly two rows of
    the exam with [is_strength] set and exactly two with [is_weakness] set,
    whatever the percentages are; the same holds for the instances passed
    in when none of them carried a flag before the call. *)
Theorem identify_strengths_weaknesses_flags_two
    (self_exam : Exam.t) (w : World) (comp_scores : list nat) :
  stored_records (Exam.pk self_exam) w comp_scores ->
  (2 <= length comp_scores)%nat ->
  exists sorted_scores w',
    identify_strengths_weaknesses self_exam comp_scores w = Ok (sorted_scores, w')
    /\ count CompetencyScore.is_strength (scores_of_exam self_exam w') = 2%nat
    /\ count CompetencyScore.is_weakness (scores_of_exam self_exam w') = 2%nat
    /\ (Forall (fun c => CompetencyScore.is_strength (objects w !!! c) = false
                         /\ CompetencyScore.is_weakness (objects w !!! c) = false)
               comp_scores ->
        count (fun c => CompetencyScore.is_strength (objects w' !!! c)) comp_scores = 2%nat
        /\ count (fun c => CompetencyScore.is_weakness (objects w' !!! c)) comp_scores
           = 2%nat).
Proof.
  intros Hst Hlen.
  pose proof (stored_records_saveable _ _ _ Hst) as Hsave.
  assert (comp_scores <> []) as Hne by (intros ->; simpl in Hlen; lia).
  rewrite identify_strengths_weaknesses_run by done.
  eexists _, _. split; [reflexivity|].
  exact (flagged_counts (Exam.pk self_exam) w comp_scores Hst Hlen).
Qed.

(** Three stored records of exam 7 at 90%, 70% and 50%. *)
Lemma identify_strengths_weaknesses_flags_two_witness :
  let row p n pct := CompetencyScore.mk p 7 n 0 0 pct novice false false in
  let rows := [row 1%nat "critical_thinking" 90%float;
               row 2%nat "communication" 70%float;
               row 3%nat "adaptability" 50%float] in
  let w := mkWorld rows rows 4 [] [] in
  let self_exam := Exam.mk 7 (Some 1%nat) "completed" 0 0 Datatypes.None Datatypes.None in
  stored_records 7 w [0; 1; 2]%nat
  /\ exists sorted_scores w',
       identify_strengths_weaknesses self_exam [0; 1; 2]%nat w = Ok (sorted_scores, w')
       /\ count CompetencyScore.is_strength (scores_of_exam self_exam w') = 2%nat
       /\ count CompetencyScore.is_weakness (scores_of_exam self_exam w') = 2%nat
       /\ (Forall (fun c => CompetencyScore.is_strength (objects w !!! c) = false
                            /\ CompetencyScore.is_weakness (objects w !!! c) = false)
                  [0; 1; 2]%nat ->
           count (fun c => CompetencyScore.is_strength (objects w' !!! c)) [0; 1; 2]%nat
           = 2%nat
           /\ count (fun c => CompetencyScore.is_weakness (objects w' !!! c)) [0; 1; 2]%nat
              = 2%nat).
Proof.
  intros row rows w self_exam.
  assert (stored_records 7 w [0; 1; 2]%nat) as Hst.
  { repeat split.
    - simpl. repeat constructor; set_solver.
    - simpl. repeat constructor; set_solver.
    - repeat constructor; simpl; try lia.
      + exists (row 1%nat "critical_thinking" 90%float). repeat split. set_solver.
      + exists (row 2%nat "communication" 70%float). repeat split. set_solver.
      + exists (row 3%nat "adaptability" 50%float). repeat split. set_solver. }
  split; [exact Hst|].
  apply (identify_strengths_weaknesses_flags_two self_exam w [0; 1; 2]%nat Hst).
  simpl. lia.
Defined.

(** ** Sorting by a strict order *)

Section StrictSorting.
Context {A : Type} (before : A -> A -> bool).
Hypothesis before_trans :
  forall a b c, before a b = true -> before b c = true -> before a c = true.

Lemma insert_sorted_StronglySorted (x : A) (l : list A) :
  Forall (fun y => before y x = true \/ before x y = true) l ->
  StronglySorted (fun a b => before a b = true) l ->
  StronglySorted (fun a b => before a b = true) (insert_sorted before x l).
Proof using before_trans.
  induction l as [|y l IH]; intros Hcmp Hs; simpl.
  - repeat constructor.
  - apply Forall_cons in Hcmp as [Hy Hcmp].
    apply StronglySorted_inv in Hs as [Hs Hyl].
    destruct (before y x) eqn:E.
    + constructor; [by apply IH|].
      rewrite (insert_sorted_Permutation before x l). by constructor.
    + destruct Hy as [Hy|Hy]; [congruence|].
      constructor; [by constructor|]. constructor; [done|].
      eapply Forall_impl; [exact Hyl|]. intros z Hz. simpl in Hz. eauto.
Qed.

(** Entries that are pairwise strictly ordered come out strictly sorted. *)
Lemma stable_sort_StronglySorted (l : list A) :
  (forall a b, a ∈ l -> b ∈ l -> a <> b -> before a b = true \/ before b a = true) ->
  NoDup l ->
  StronglySorted (fun a b => before a b = true) (stable_sort before l).
Proof using before_trans.
  induction l as [|x l IH]; intros Hcmp ND; simpl; [constructor|].
  apply NoDup_cons in ND as [Hx ND].
  apply insert_sorted_StronglySorted.
  - rewrite Forall_forall. intros y Hy. apply stable_sort_elem_of in Hy.
    apply Hcmp; [by right|by left|]. intros ->. done.
  - apply IH; [|done]. intros a b Ha Hb. apply Hcmp; by right.
Qed.
End StrictSorting.

(** Sorting a list that is strictly sorted the other way round reverses it. *)
Lemma stable_sort_rev {A : Type} (before : A -> A -> bool) (l : list A) :
  StronglySorted (fun a b => before b a = true) l ->
  stable_sort before l = rev l.
Proof.
  induction 1 as [|x l Hs IH Hx]; simpl; [done|].
  rewrite IH. apply insert_sorted_last.
  rewrite Forall_forall in Hx. rewrite Forall_forall. intros y Hy.
  apply Hx. by apply list_elem_of_In, in_rev, list_elem_of_In.
Qed.

(** A test that holds for everything in front of an entry it holds for
    selects a prefix of a sorted list. *)
Lemma filter_sorted_prefix {A : Type} (R : A -> A -> Prop) (p : A -> bool) (l : list A) :
  (forall a b, R a b -> p b = true -> p a = true) ->
  StronglySorted R l ->
  List.filter p l = take (length (List.filter p l)) l.
Proof.
  intros Hup. induction 1 as [|x l Hs IH Hx]; simpl; [done|].
  destruct (p x) eqn:E; simpl; [by rewrite <- IH|].
  replace (List.filter p l) with (@nil A); [done|].
  symmetry. clear IH Hs. induction Hx as [|y l Hxy _ IHl]; simpl; [done|].
  destruct (p y) eqn:Ey; [|exact IHl].
  rewrite (Hup x y Hxy Ey) in E. discriminate.
Qed.

(** ** Records with both flags *)

Lemma NoDup_map_inj {A B : Type} (g : A -> B) (l : list A) (a b : A) :
  NoDup (map g l) -> a ∈ l -> b ∈ l -> g a = g b -> a = b.
Proof.
  induction l as [|x l IH]; simpl; intros ND Ha Hb E; [by apply elem_of_nil in Ha|].
  apply NoDup_cons in ND as [Hx ND].
  apply elem_of_cons in Ha as [->|Ha]; apply elem_of_cons in Hb as [->|Hb]; auto.
  - exfalso. apply Hx. rewrite E, map_fmap. by apply list_elem_of_fmap_2.
  - exfalso. apply Hx. rewrite <- E, map_fmap. by apply list_elem_of_fmap_2.
Qed.

(** C10, as stated, fails. Three stored records of exam 7 at 90%, 70% and
    50%: the record at 70% is among the top two and among the bottom two
    and ends with both flags, as a row and as an instance. *)
Lemma identify_strengths_weaknesses_both_flags :
  let row p n pct := CompetencyScore.mk p 7 n 0 0 pct novice false false in
  let rows := [row 1%nat "critical_thinking" 90%float;
               row 2%nat "communication" 70%float;
               row 3%nat "adaptability" 50%float] in
  let w := mkWorld rows rows 4 [] [] in
  let self_exam := Exam.mk 7 (Some 1%nat) "completed" 0 0 Datatypes.None Datatypes.None in
  length [0; 1; 2]%nat = 3%nat
  /\ exists sorted_scores w',
       identify_strengths_weaknesses self_exam [0; 1; 2]%nat w = Ok (sorted_scores, w')
       /\ map flags_of (scores_of_exam self_exam w')
          = [(1, true, false); (2, true, true); (3, false, true)]%nat
       /\ map flags_of (objects w')
          = [(1, true, false); (2, true, true); (3, false, true)]%nat.
Proof.
  intros row rows w self_exam. split; [reflexivity|].
  eexists _, _. split; [vm_compute; reflexivity|]. split; vm_compute; reflexivity.
Qed.

(** With tied percentages the flags overlap whatever the number of records:
    five records at 0%, the breakdown of an exam without a correct answer. *)
Example identify_strengths_weaknesses_ties :
  let row p n := CompetencyScore.mk p 7 n 0 0 0%float novice false false in
  let rows := [row 1%nat "critical_thinking"; row 2%nat "communication";
               row 3%nat "adaptability"; row 4%nat "basic_engineering";
               row 5%nat "technical"] in
  let w := mkWorld rows rows 6 [] [] in
  let self_exam := Exam.mk 7 (Some 1%nat) "completed" 0 0 Datatypes.None Datatypes.None in
  exists sorted_scores w',
    identify_strengths_weaknesses self_exam [0; 1; 2; 3; 4]%nat w = Ok (sorted_scores, w')
    /\ map flags_of (scores_of_exam self_exam w')
       = [(1, true, true); (2, true, true); (3, false, false); (4, false, false);
          (5, false, false)]%nat.
Proof.
  intros row rows w self_exam.
  eexists _, _. split; vm_compute; reflexivity.
Qed.

(** ** The competency breakdown *)

#[local] Arguments dict_get : simpl never.
#[local] Arguments percentage_for : simpl never.
#[local] Arguments level_for : simpl never.

(** The clamp [max(0, min(100, percentage))] lands in [0, 100] for every
    float, NaN and the infinities included. *)
Lemma clamp_in_0_100 (percentage : float) : in_0_100 (Py.max 0 (Py.min 100 percentage)).
Proof.
  unfold in_0_100, Py.max, Py.min.
  destruct (percentage <? 100)%float eqn:E100.
  - destruct (0 <? percentage)%float eqn:E0.
    + split; by apply FloatOrder.ltb_leb.
    + split; reflexivity.
  - split; reflexivity.
Qed.

Lemma percentage_for_in_0_100 (raw_score : float) (max_score : Z) :
  in_0_100 (percentage_for raw_score max_score).
Proof. apply clamp_in_0_100. Qed.

Lemma create_scores_run (self_exam : Exam.t) (items : list (string * float)) :
  forall (created_scores : list nat) (w : World),
    create_scores self_exam items created_scores w
    = Ok (created_scores ++ seq (length (objects w)) (length items),
          mkWorld (objects w ++ new_rows self_exam (next_pk w) items)
                  (competency_scores w ++ new_rows self_exam (next_pk w) items)
                  (next_pk w + length items)%nat (cheating_events w) (exams w)).
Proof.
  induction items as [|[name raw] items IH]; intros created w.
  - simpl. unfold ret. rewrite !app_nil_r, Nat.add_0_r. by destruct w.
  - simpl. unfold bind at 1. unfold create_score at 1. cbv beta iota zeta.
    rewrite IH. simpl. rewrite length_app. simpl.
    rewrite <- !app_assoc. simpl.
    rewrite ?Nat.add_1_r. do 3 f_equal. lia.
Qed.

Lemma new_rows_length self_exam pk items :
  length (new_rows self_exam pk items) = length items.
Proof.
  revert pk. induction items as [|[name raw] items IH]; intros pk; simpl; [done|].
  by rewrite IH.
Qed.

Lemma new_rows_exam self_exam pk items :
  Forall (fun r => CompetencyScore.exam r = Exam.pk self_exam) (new_rows self_exam pk items).
Proof.
  revert pk. induction items as [|[name raw] items IH]; intros pk; simpl; constructor;
    [done|apply IH].
Qed.

(** Each created row records its entry, with a percentage in [0, 100]. *)
Lemma new_rows_entries self_exam pk items :
  Forall2 (fun item r =>
             CompetencyScore.competency_name r = item.1
             /\ CompetencyScore.raw_score r = item.2
             /\ in_0_100 (CompetencyScore.percentage r))
          items (new_rows self_exam pk items).
Proof.
  revert pk. induction items as [|[name raw] items IH]; intros pk; simpl; constructor;
    [|apply IH].
  simpl. repeat split; apply percentage_for_in_0_100.
Qed.

Lemma final_row_fields e ps pw r :
  CompetencyScore.competency_name (final_row e ps pw r) = CompetencyScore.competency_name r
  /\ CompetencyScore.raw_score (final_row e ps pw r) = CompetencyScore.raw_score r
  /\ CompetencyScore.percentage (final_row e ps pw r) = CompetencyScore.percentage r.
Proof.
  unfold final_row.
  destruct (CompetencyScore.exam r =? e)%nat; repeat case_bool_decide; done.
Qed.

Lemma filter_app_nil_l {A : Type} (p : A -> bool) (l k : list A) :
  List.filter p l = [] -> Forall (fun x => p x = true) k -> List.filter p (l ++ k) = k.
Proof.
  intros El Hk. rewrite List.filter_app, El. simpl.
  induction Hk as [|x k Hx _ IH]; simpl; [done|]. by rewrite Hx, IH.
Qed.

Lemma filter_negb_filter {A : Type} (p : A -> bool) (l : list A) :
  List.filter p (List.filter (fun x => negb (p x)) l) = [].
Proof.
  induction l as [|x l IH]; simpl; [done|].
  destruct (p x) eqn:E; simpl; [done|]. by rewrite E.
Qed.

(** The instances [create_scores] returns can be saved. *)
Lemma created_saveable (objs t rows : list CompetencyScore.t) (n : nat)
    (ev : list CheatingEvent.t) (ex : list Exam.t) :
  Forall (saveable (mkWorld (objs ++ rows) (t ++ rows) n ev ex))
         (seq (length objs) (length rows)).
Proof.
  apply Forall_seq. intros c Hc. split; simpl.
  - rewrite length_app. lia.
  - rewrite lookup_total_app_r by lia.
    rewrite map_fmap, fmap_app. apply elem_of_app. right.
    apply list_elem_of_fmap_2, list_elem_of_lookup_total_2. lia.
Qed.

(** [save_competency_breakdown] always returns; it replaces the rows of the
    exam by rows created from the entries of its argument and leaves the
    other tables alone. *)
Lemma save_competency_breakdown_run
    (self_exam : Exam.t) (scores : list (string * float)) (w : World) :
  exists w',
    save_competency_breakdown self_exam scores w = Ok (tt, w')
    /\ cheating_events w' = cheating_events w
    /\ exams w' = exams w
    /\ Forall2 (fun item r =>
                  CompetencyScore.competency_name r = item.1
                  /\ CompetencyScore.raw_score r = item.2
                  /\ in_0_100 (CompetencyScore.percentage r))
               scores (scores_of_exam self_exam w').
Proof.
  unfold save_competency_breakdown, delete_scores, modify.
  unfold bind at 1. cbv beta iota zeta.
  set (w0 := with_competency_scores _ w).
  unfold bind at 1. rewrite create_scores_run. cbv beta iota zeta. simpl.
  set (rows := new_rows self_exam (next_pk w) scores).
  set (t0 := List.filter _ (competency_scores w)).
  assert (List.filter (fun r => (CompetencyScore.exam r =? Exam.pk self_exam)%nat) t0 = [])
    as Ht0 by apply (filter_negb_filter
                       (fun r => (CompetencyScore.exam r =? Exam.pk self_exam)%nat)).
  assert (Forall (fun r => (CompetencyScore.exam r =? Exam.pk self_exam)%nat = true) rows)
    as Hrows.
  { eapply Forall_impl; [apply new_rows_exam|]. intros r ->. apply Nat.eqb_refl. }
  assert (length rows = length scores) as Hlen by apply new_rows_length.
  rewrite <- Hlen.
  set (w2 := mkWorld _ _ _ _ _).
  assert (forall ps pw,
            Forall2 (fun item r =>
                       CompetencyScore.competency_name r = item.1
                       /\ CompetencyScore.raw_score r = item.2
                       /\ in_0_100 (CompetencyScore.percentage r))
              scores
              (List.filter (fun r => (CompetencyScore.exam r =? Exam.pk self_exam)%nat)
                 (map (final_row (Exam.pk self_exam) ps pw) (t0 ++ rows)))) as Hfinal.
  { intros ps pw. rewrite filter_map_comm.
    rewrite (List.filter_ext _ (fun r => (CompetencyScore.exam r =? Exam.pk self_exam)%nat))
      by (intros r; by rewrite final_row_exam).
    rewrite (filter_app_nil_l _ t0 rows Ht0 Hrows).
    rewrite map_fmap. apply Forall2_fmap_r.
    eapply Forall2_impl; [apply new_rows_entries|].
    intros item r (H1 & H2 & H3).
    destruct (final_row_fields (Exam.pk self_exam) ps pw r) as (E1 & E2 & E3).
    unfold compose. by rewrite E1, E2, E3. }
  destruct rows as [|row rows'] eqn:Erows.
  - simpl. eexists. split; [reflexivity|]. do 2 (split; [reflexivity|]).
    unfold scores_of_exam. simpl.
    specialize (Hfinal [] []).
    rewrite <- flagged_rows_map in Hfinal.
    rewrite !(flag_rows_nil) in Hfinal.
    unfold reset_rows in Hfinal. rewrite filter_map_comm in Hfinal.
    destruct scores; [|apply Forall2_length in Hfinal; simpl in Hlen; lia].
    rewrite app_nil_r, Ht0. constructor.
  - unfold bind. rewrite identify_strengths_weaknesses_run.
    + eexists. split; [reflexivity|]. do 2 (split; [reflexivity|]).
      unfold scores_of_exam. simpl. rewrite flagged_rows_map. apply Hfinal.
    + simpl. discriminate.
    + rewrite <- Erows. subst w2. rewrite <- Erows. apply created_saveable.
Qed.

(** C7. [save_competency_breakdown] returns for every argument and every
    state; afterwards the rows of the exam are those created from the
    entries of the argument, in order, and the percentage stored in each
    lies in [0, 100]: for a raw score above the maximum, a negative one, NaN
    or an infinity, and for a name without a configured maximum. *)
Theorem save_competency_breakdown_percentage_range
    (self_exam : Exam.t) (scores : list (string * float)) (w : World) :
  exists w',
    save_competency_breakdown self_exam scores w = Ok (tt, w')
    /\ Forall2 (fun item r =>
                  CompetencyScore.competency_name r = item.1
                  /\ CompetencyScore.raw_score r = item.2
                  /\ in_0_100 (CompetencyScore.percentage r))
               scores (scores_of_exam self_exam w').
Proof.
  destruct (save_competency_breakdown_run self_exam scores w) as (w' & Hrun & _ & _ & Hrows).
  exists w'. split; [exact Hrun|exact Hrows].
Qed.

(** ** The violation deduction *)

(** C5, a defect of the code.  The two scenarios of the claim come out as
    stated: one [multiple_persons] and one [object_detected] event give 2
    with 4 tab switches on the first event and 0 with none.  But the code
    adds the weights as binary64 floats, in the order of the events, and a
    severity that is exactly 1.0 can come out just below it.  For student
    1, a [multiple_persons] event with 3 tab switches, an [audio_detected]
    and a [gaze_detected] event have severity 0.30 + 0.15 + 0.10 + 0.45 =
    1.0, and so have ten [gaze_detected] events: the deduction should be
    2, the code returns 0.  Three [multiple_persons] events and one
    [gaze_detected] event have severity 1.0; the code returns 0 when the
    [gaze_detected] event comes last and 2 when it comes first.  The table
    also holds an event of student 2, which must not count. *)
Theorem calculate_violation_deduction_threshold :
  let event pk event_type tabs := CheatingEvent.mk pk (Some 1%nat) (Some event_type) tabs in
  let other := CheatingEvent.mk 9 (Some 2%nat) (Some "multiple_persons") 5 in
  let self_exam := Exam.mk 7 (Some 1%nat) "completed" 0 0 Datatypes.None Datatypes.None in
  let state events := mkWorld [] [] 1 (other :: events) [] in
  let code events := calculate_violation_deduction self_exam (state events) in
  let spec events := deduction (Exam.student self_exam) (cheating_events (state events)) in
  let scenario tabs := [event 1%nat "multiple_persons" tabs; event 2%nat "object_detected" 0] in
  let boundary := [event 1%nat "multiple_persons" 3; event 2%nat "audio_detected" 0;
                   event 3%nat "gaze_detected" 0] in
  let ten_gaze := map (fun pk => event pk "gaze_detected" 0) (seq 1 10) in
  let gaze_last := [event 1%nat "multiple_persons" 0; event 2%nat "multiple_persons" 0;
                    event 3%nat "multiple_persons" 0; event 4%nat "gaze_detected" 0] in
  let gaze_first := [event 1%nat "gaze_detected" 0; event 2%nat "multiple_persons" 0;
                     event 3%nat "multiple_persons" 0; event 4%nat "multiple_persons" 0] in
  (code (scenario 4) = 2 /\ spec (scenario 4) = 2)
  /\ (code (scenario 0) = 0 /\ spec (scenario 0) = 0)
  /\ (Qeq_bool (severity boundary) 1 = true /\ spec boundary = 2 /\ code boundary = 0)
  /\ (Qeq_bool (severity ten_gaze) 1 = true /\ spec ten_gaze = 2 /\ code ten_gaze = 0)
  /\ (Qeq_bool (severity gaze_last) 1 = true /\ spec gaze_last = 2 /\ code gaze_last = 0)
  /\ (Qeq_bool (severity gaze_first) 1 = true /\ spec gaze_first = 2
      /\ code gaze_first = 2).
Proof. repeat split; vm_compute; reflexivity. Qed.

(** ** The priority list *)

(** A stable sort keeps the order of the entries a test selects, when no
    selected entry is strictly before another. *)
Lemma stable_sort_filter {A : Type} (before : A -> A -> bool) (p : A -> bool) (l : list A) :
  (forall x y, before y x = true -> p x = true -> p y = true -> False) ->
  List.filter p (stable_sort before l) = List.filter p l.
Proof.
  intros Hp. induction l as [|x l IH]; simpl; [reflexivity|].
  rewrite <- IH. generalize (stable_sort before l) as s. clear IH.
  induction s as [|y s IHs]; simpl; [reflexivity|].
  destruct (before y x) eqn:E; simpl; [|reflexivity].
  rewrite IHs. simpl.
  destruct (p x) eqn:Ex, (p y) eqn:Ey; try reflexivity.
  exfalso. eauto.
Qed.

(** Sorting numbers with [reverse=True] gives a descending list. *)
Lemma sorted_reverse_descending {A : Type} (key : A -> float) (l : list A) :
  Forall (fun x => Py.number (key x)) l ->
  StronglySorted (fun a b => (key b <=? key a)%float = true) (sorted l key true).
Proof.
  unfold sorted. induction 1 as [|x l Hx Hl IH]; simpl; [constructor|].
  assert (Forall (fun y => Py.number (key y))
            (stable_sort (fun y x => (key x <? key y)%float) l)) as Hnum.
  { rewrite Forall_forall in Hl. rewrite Forall_forall. intros y Hy.
    apply Hl. by apply stable_sort_elem_of in Hy. }
  revert IH Hnum. generalize (stable_sort (fun y x => (key x <? key y)%float) l) as s.
  induction s as [|y s IHs]; intros Hs Hnum; simpl.
  - repeat constructor.
  - apply StronglySorted_inv in Hs as [Hs Hy].
    apply Forall_cons in Hnum as [Hny Hnum].
    destruct (key x <? key y)%float eqn:E.
    + constructor; [by apply IHs|].
      rewrite (insert_sorted_Permutation _ x s). constructor; [|done].
      by apply FloatOrder.ltb_leb.
    + assert ((key y <=? key x)%float = true) as Hyx by by apply FloatOrder.not_ltb_leb.
      constructor; [by constructor|]. constructor; [done|].
      eapply Forall_impl; [exact Hy|]. intros z Hz. simpl in Hz.
      eapply FloatOrder.leb_trans; eauto.
Qed.

Lemma compute_improvement_priorities_entries (self_exam : Exam.t) (w : World) :
  compute_improvement_priorities self_exam w
  = sorted (map entry_of (scores_of_exam self_exam w)) Priority.priority_score true.
Proof. reflexivity. Qed.

(** C6. Every entry of the list [compute_improvement_priorities] returns
    has [priority_score = round(max(0, 75 - percentage) * weight, 3)] for its
    competency; the list holds one entry per stored row of the exam; and,
    the priority scores being numbers, it is sorted descending by
    [priority_score] with entries of equal score in the order of the rows. *)
Theorem compute_improvement_priorities_sorted_stable (self_exam : Exam.t) (w : World) :
  let entries := map entry_of (scores_of_exam self_exam w) in
  let priorities := compute_improvement_priorities self_exam w in
  Forall (fun p => Py.number (Priority.priority_score p)) entries ->
  priorities ≡ₚ entries
  /\ Forall (fun p => Priority.priority_score p
                      = priority_formula (Priority.percentage p) (Priority.competency_name p))
            priorities
  /\ StronglySorted
       (fun a b => (Priority.priority_score b <=? Priority.priority_score a)%float = true)
       priorities
  /\ forall score : float,
       List.filter (fun p => (Priority.priority_score p =? score)%float) priorities
       = List.filter (fun p => (Priority.priority_score p =? score)%float) entries.
Proof.
  intros entries priorities Hnum.
  assert (priorities ≡ₚ entries) as Hperm.
  { unfold priorities. rewrite compute_improvement_priorities_entries.
    apply stable_sort_Permutation. }
  split; [exact Hperm|]. split; [|split].
  - rewrite Hperm. unfold entries. rewrite map_fmap. apply Forall_fmap.
    apply Forall_true. intros c. reflexivity.
  - unfold priorities. rewrite compute_improvement_priorities_entries.
    by apply sorted_reverse_descending.
  - intros score. unfold priorities. rewrite compute_improvement_priorities_entries.
    apply stable_sort_filter. intros x y Hlt Hx Hy.
    pose proof (FloatOrder.eqb_trans _ _ _ Hx (FloatOrder.eqb_sym _ _ Hy)) as Heq.
    apply FloatOrder.eqb_not_ltb in Heq. congruence.
Qed.

(** Five stored rows; [communication] and [adaptability] tie at priority
    1.0 and keep the order of the rows. *)
Lemma compute_improvement_priorities_sorted_stable_witness :
  let row p n pct := CompetencyScore.mk p 7 n 0 0 pct novice false false in
  let w := mkWorld [] [row 1%nat "critical_thinking" 100%float;
                       row 2%nat "communication" 70%float;
                       row 3%nat "adaptability" 65%float;
                       row 4%nat "basic_engineering" 60%float;
                       row 5%nat "technical" 40%float] 6 [] [] in
  let self_exam := Exam.mk 7 (Some 1%nat) "completed" 0 0 Datatypes.None Datatypes.None in
  let entries := map entry_of (scores_of_exam self_exam w) in
  let priorities := compute_improvement_priorities self_exam w in
  map (fun p => (Priority.competency_name p, Priority.priority_score p)) priorities
  = [("technical", 17.5%float); ("basic_engineering", 4.5%float);
     ("communication", 1%float); ("adaptability", 1%float);
     ("critical_thinking", 0%float)]
  /\ priorities ≡ₚ entries
  /\ Forall (fun p => Priority.priority_score p
                      = priority_formula (Priority.percentage p) (Priority.competency_name p))
            priorities
  /\ StronglySorted
       (fun a b => (Priority.priority_score b <=? Priority.priority_score a)%float = true)
       priorities
  /\ forall score : float,
       List.filter (fun p => (Priority.priority_score p =? score)%float) priorities
       = List.filter (fun p => (Priority.priority_score p =? score)%float) entries.
Proof.
  intros row w self_exam entries priorities.
  split; [vm_compute; reflexivity|].
  apply (compute_improvement_priorities_sorted_stable self_exam w).
  repeat constructor.
Defined.

(** ** Course recommendation: the fall-back of the weak set *)

(** When no entry is below 60%, the weak set is the tail of the priority
    list: its last two entries, those of lowest priority score. *)
Lemma weak_entries_fallback (pr : list Priority.t) :
  Forall (fun p => (Priority.percentage p <? 60)%float = false) pr ->
  weak_entries pr = drop (length pr - 2) pr.
Proof.
  intros H. unfold weak_entries.
  replace (List.filter _ pr) with (@nil Priority.t); [reflexivity|].
  symmetry. induction H as [|p pr Hp _ IH]; simpl; [reflexivity|]. by rewrite Hp.
Qed.

(** Three entries at 60%, 70% and 100%, in priority order. *)
Lemma weak_entries_fallback_witness :
  let pr := [Priority.mk "critical_thinking" 60 4.5 false false;
             Priority.mk "communication" 70 1 false false;
             Priority.mk "technical" 100 0 false false] in
  Forall (fun p => (Priority.percentage p <? 60)%float = false) pr
  /\ weak_entries pr = [Priority.mk "communication" 70 1 false false;
                        Priority.mk "technical" 100 0 false false].
Proof.
  intros pr.
  assert (Forall (fun p => (Priority.percentage p <? 60)%float = false) pr) as H
    by (repeat constructor).
  split; [exact H|]. exact (weak_entries_fallback pr H).
Defined.

(** C3 fails on the code. Rows at 60%, 70% and 100%, none below 60%: the
    two lowest percentages are those of [critical_thinking] and
    [communication], while the weak set is [communication] and
    [technical], the two entries of lowest priority score, so the priority
    courses include those of the competency at 100%. *)
Lemma recommend_courses_weak_set_fallback :
  let row p n pct := CompetencyScore.mk p 7 n 0 0 pct novice false false in
  let w := mkWorld [] [row 1%nat "critical_thinking" 60%float;
                       row 2%nat "communication" 70%float;
                       row 3%nat "technical" 100%float] 4 [] [] in
  let self_exam := Exam.mk 7 (Some 1%nat) "completed" 0 0 Datatypes.None Datatypes.None in
  let pr := compute_improvement_priorities self_exam w in
  List.filter (fun p => (Priority.percentage p <? 60)%float) pr = []
  /\ map Priority.competency_name (take 2 (sorted pr Priority.percentage false))
     = ["critical_thinking"; "communication"]
  /\ map Priority.competency_name (weak_entries pr) = ["communication"; "technical"]
  /\ Recommendation.priority_courses (recommend_courses self_exam w)
     = ["Technical Writing Essentials"; "Presentation Skills";
        "Field-specific Technical Foundations"].
Proof. repeat split; vm_compute; reflexivity. Qed.

(** ** Ranking *)

(** C2, amended. With no completed exam the loop body, and with it the
    division, never runs: [calculate_ranking] writes nothing and returns
    the rank and percentile that the instance [self.exam] holds. *)
Theorem calculate_ranking_empty_cohort (self_exam : Exam.t) (w : World) :
  List.filter (fun e => String.eqb (Exam.status e) "completed") (exams w) = [] ->
  calculate_ranking self_exam w = Ok ((Exam.rank self_exam, Exam.percentile self_exam), w).
Proof.
  intros Hempty. unfold calculate_ranking, bind, gets, completed_exams.
  rewrite Hempty. reflexivity.
Qed.

(** An exam table that holds one ongoing exam only. *)
Lemma calculate_ranking_empty_cohort_witness :
  let ongoing := Exam.mk 1 (Some 1%nat) "ongoing" 0 0 Datatypes.None Datatypes.None in
  let w := mkWorld [] [] 1 [] [ongoing] in
  List.filter (fun e => String.eqb (Exam.status e) "completed") (exams w) = []
  /\ calculate_ranking ongoing w = Ok ((Datatypes.None, Datatypes.None), w).
Proof.
  intros ongoing w. split; [reflexivity|].
  apply (calculate_ranking_empty_cohort ongoing w). reflexivity.
Defined.

(** C2, as stated, fails. On an empty exam table the call returns normally
    with what the instance holds; no [ZeroDivisionError] is raised. *)
Lemma calculate_ranking_empty_returns :
  let self_exam := Exam.mk 1 (Some 1%nat) "ongoing" 0 0 (Some 3) (Some 50%float) in
  let w := mkWorld [] [] 1 [] [] in
  completed_exams w = []
  /\ calculate_ranking self_exam w = Ok ((Some 3, Some 50%float), w)
  /\ calculate_ranking self_exam w <> Raise ZeroDivisionError.
Proof. repeat split; discriminate. Qed.

(** C4 fails on the code. One completed exam, and [self.exam] the instance
    of that row loaded before the call: the row gets rank 1 and percentile
    0.0, but the call returns the rank and percentile of the instance, which
    the loop, working on the instances of its own query, never touches. *)
Lemma calculate_ranking_returns_stale :
  let self_exam := Exam.mk 1 (Some 1%nat) "completed" 5 90 Datatypes.None Datatypes.None in
  let w := mkWorld [] [] 1 [] [self_exam] in
  calculate_ranking self_exam w
  = Ok ((Datatypes.None, Datatypes.None),
        mkWorld [] [] 1 [] [Exam.set_ranking 1 0%float self_exam]).
Proof. vm_compute. reflexivity. Qed.

(** ** Total score *)

(** C9 fails on the code. A correctly answered question whose competency
    is not in [MARKS] raises [KeyError]; the same question answered
    wrongly is passed over. *)
Lemma calculate_total_score_unknown_competency :
  let q := Question.mk (Py.Int 1) (Py.Str "A") (Some "leadership") in
  let self_exam := Exam.mk 7 (Some 1%nat) "completed" 0 0 Datatypes.None Datatypes.None in
  let w := mkWorld [] [] 1 [] [] in
  calculate_total_score self_exam [q] {[ "1" := Py.Str "A" ]} w
  = Raise (KeyError (Some "leadership"))
  /\ (exists w', calculate_total_score self_exam [q] {[ "1" := Py.Str "B" ]} w = Ok (0, w')).
Proof.
  split; [vm_compute; reflexivity|]. eexists. vm_compute. reflexivity.
Qed.

(** ** Monotonicity of the total score *)

Lemma dict_get_cons {V : Type} (k : string) (v : V) (d : list (string * V)) (c : string) :
  dict_get ((k, v) :: d) c = if String.eqb k c then Some v else dict_get d c.
Proof. reflexivity. Qed.

Lemma dict_le_refl d : dict_le d d.
Proof. unfold dict_le. induction d; constructor; [split; [done|lia]|done]. Qed.

Lemma dict_le_get d d' c v v' :
  dict_le d d' -> dict_get d c = Some v -> dict_get d' c = Some v' -> v <= v'.
Proof.
  induction 1 as [|[k x] [k' x'] d d' [Hk Hx] _ IH]; simpl in *; [discriminate|].
  subst k'. rewrite !dict_get_cons. destruct (String.eqb k c); [|exact IH]. congruence.
Qed.

Lemma dict_le_set d d' c x x' :
  dict_le d d' -> x <= x' -> dict_le (dict_set d c x) (dict_set d' c x').
Proof.
  intros H Hxx. induction H as [|[k y] [k' y'] d d' [Hk Hy] Hd IH]; simpl in *; [constructor|].
  subst k'. destruct (String.eqb k c); constructor; simpl; try done; split; done.
Qed.

Lemma dict_le_set_r d d' c v x :
  dict_le d d' -> dict_get d' c = Some v -> v <= x -> dict_le d (dict_set d' c x).
Proof.
  intros H. induction H as [|[k y] [k' y'] d d' [Hk Hy] Hd IH]; simpl in *; [constructor|].
  subst k'. rewrite dict_get_cons. intros Hget Hvx. destruct (String.eqb k c).
  - injection Hget as ->. constructor; [simpl; split; [done|lia]|done].
  - constructor; [simpl; split; [done|lia]|by apply IH].
Qed.

Lemma dict_le_sum d d' :
  dict_le d d' -> fold_left Z.add (map snd d) 0 <= fold_left Z.add (map snd d') 0.
Proof.
  assert (forall a a', a <= a' -> dict_le d d' ->
            fold_left Z.add (map snd d) a <= fold_left Z.add (map snd d') a') as H.
  { intros a a' Ha Hd. revert a a' Ha.
    induction Hd as [|x y d d' [_ Hxy] _ IH]; intros a a' Ha; simpl; [done|].
    apply IH. lia. }
  by apply H.
Qed.

Lemma MARKS_nonneg c m : dict_get MARKS c = Some m -> 0 <= m.
Proof.
  unfold MARKS. rewrite !dict_get_cons.
  repeat (destruct (String.eqb _ c); [intros [= <-]; lia|]). discriminate.
Qed.

(** Grading with answers that make at least the same questions correct,
    from scores that are nowhere lower, ends with scores that are nowhere
    lower. *)
Lemma grade_monotone (questions : list Question.t) (ua ua' : gmap string Py.value) :
  Forall (fun q => answered_correctly ua q -> answered_correctly ua' q) questions ->
  forall d d' r r',
    dict_le d d' ->
    grade questions ua d = Ok r -> grade questions ua' d' = Ok r' -> dict_le r r'.
Proof.
  unfold answered_correctly.
  induction 1 as [|q questions Hq _ IH]; intros d d' r r' Hd; simpl.
  - by intros [= <-] [= <-].
  - repeat case_bool_decide; try (exfalso; by auto).
    + destruct (Question.competency_type q) as [c|]; [|discriminate].
      destruct (dict_get d c) as [v|] eqn:Ev; [|discriminate].
      destruct (dict_get d' c) as [v'|] eqn:Ev'; [|discriminate].
      destruct (dict_get MARKS c) as [m|] eqn:Em; [|discriminate].
      apply IH. apply dict_le_set; [done|].
      pose proof (dict_le_get _ _ _ _ _ Hd Ev Ev'). lia.
    + destruct (Question.competency_type q) as [c|]; [|discriminate].
      destruct (dict_get d' c) as [v'|] eqn:Ev'; [|discriminate].
      destruct (dict_get MARKS c) as [m|] eqn:Em; [|discriminate].
      apply IH. eapply dict_le_set_r; [done|exact Ev'|].
      pose proof (MARKS_nonneg _ _ Em). lia.
    + by apply IH.
Qed.

Lemma dict_set_keys (d : list (string * Z)) c x : map fst (dict_set d c x) = map fst d.
Proof.
  induction d as [|[k y] d IH]; simpl; [done|].
  destruct (String.eqb k c); simpl; [done|]. by rewrite IH.
Qed.

Lemma dict_get_keys (d d' : list (string * Z)) c :
  map fst d = map fst d' -> is_Some (dict_get d' c) -> is_Some (dict_get d c).
Proof.
  revert d'. induction d as [|[k y] d IH]; intros [|[k' y'] d']; simpl; try done.
  intros [= -> Hk]. rewrite !dict_get_cons. destruct (String.eqb k' c); [eauto|]. by apply IH.
Qed.

(** Grading returns when every question carries a known competency. *)
Lemma grade_returns (questions : list Question.t) (ua : gmap string Py.value) :
  Forall known_competency questions ->
  forall d, map fst d = map fst MARKS -> exists r, grade questions ua d = Ok r.
Proof.
  induction 1 as [|q questions (c & Hc & Hm) _ IH]; intros d Hd; simpl; [eauto|].
  case_bool_decide; [|by apply IH].
  rewrite Hc. destruct Hm as [m Hm].
  destruct (dict_get_keys d MARKS c Hd (mk_is_Some _ _ Hm)) as [v Hv].
  rewrite Hv, Hm. apply IH. by rewrite dict_set_keys.
Qed.

(** [calculate_total_score] in terms of its grading loop. *)
Lemma calculate_total_score_run (self_exam : Exam.t) (questions : list Question.t)
    (ua : gmap string Py.value) (w : World) :
  let d0 := map (fun '(c, _) => (c, 0)) MARKS in
  match grade questions ua d0 with
  | Ok r =>
      exists w',
        calculate_total_score self_exam questions ua w
        = Ok (Z.max 0 (fold_left Z.add (map snd r) 0
                       - calculate_violation_deduction self_exam w), w')
  | Raise e => calculate_total_score self_exam questions ua w = Raise e
  end.
Proof.
  intros d0. unfold calculate_total_score. fold d0. unfold bind at 1. unfold lift.
  destruct (grade questions ua d0) as [r|e]; [|reflexivity].
  unfold bind at 1.
  destruct (save_competency_breakdown_run self_exam
              (map (fun '(c, score) => (c, Py.float_of_int score)) r) w)
    as (w' & -> & Hev & _ & _).
  exists w'. unfold bind, gets, ret.
  unfold calculate_violation_deduction, violations_of_student. by rewrite Hev.
Qed.

(** C8. For a question sequence with distinct ids and fixed violation
    events, turning the submitted answer to one question from incorrect to
    correct does not decrease the total: if both runs return, the second
    total is at least the first; and when every question carries one of the
    five competencies, both runs do return. *)
Theorem calculate_total_score_monotone (self_exam : Exam.t)
    (questions : list Question.t) (user_answers : gmap string Py.value)
    (q : Question.t) (w : World) :
  NoDup (map (fun q => Py.str (Question.id q)) questions) ->
  q ∈ questions ->
  ~ answered_correctly user_answers q ->
  let user_answers' :=
    <[Py.str (Question.id q) := Question.correct_answer q]> user_answers in
  answered_correctly user_answers' q
  /\ (forall total total' w1 w2,
        calculate_total_score self_exam questions user_answers w = Ok (total, w1) ->
        calculate_total_score self_exam questions user_answers' w = Ok (total', w2) ->
        total <= total')
  /\ (Forall known_competency questions ->
      exists total total' w1 w2,
        calculate_total_score self_exam questions user_answers w = Ok (total, w1)
        /\ calculate_total_score self_exam questions user_answers' w = Ok (total', w2)
        /\ total <= total').
Proof.
  intros ND Hq Hwrong user_answers'.
  assert (answered_correctly user_answers' q) as Hright.
  { unfold answered_correctly, user_answers'. by rewrite lookup_insert_eq. }
  assert (Forall (fun q' => answered_correctly user_answers q' ->
                            answered_correctly user_answers' q') questions) as Himp.
  { rewrite Forall_forall. intros q' Hq' Hc.
    destruct (decide (Py.str (Question.id q') = Py.str (Question.id q))) as [E|E].
    - assert (q' = q) as -> by
        (apply (NoDup_map_inj (fun q => Py.str (Question.id q)) questions); done).
      done.
    - unfold answered_correctly, user_answers'. by rewrite lookup_insert_ne. }
  set (d0 := map (fun '(c, _) => (c, 0)) MARKS).
  pose proof (calculate_total_score_run self_exam questions user_answers w) as H1.
  pose proof (calculate_total_score_run self_exam questions user_answers' w) as H2.
  cbv zeta in H1, H2. fold d0 in H1, H2.
  assert (forall r r', grade questions user_answers d0 = Ok r ->
                       grade questions user_answers' d0 = Ok r' ->
                       Z.max 0 (fold_left Z.add (map snd r) 0
                                - calculate_violation_deduction self_exam w)
                       <= Z.max 0 (fold_left Z.add (map snd r') 0
                                   - calculate_violation_deduction self_exam w)) as Hle.
  { intros r r' Hr Hr'.
    pose proof (dict_le_sum _ _ (grade_monotone questions user_answers user_answers' Himp
                                   d0 d0 r r' (dict_le_refl d0) Hr Hr')).
    lia. }
  split; [exact Hright|]. split.
  - intros total total' w1 w2 E1 E2.
    destruct (grade questions user_answers d0) as [r|e] eqn:Hr;
      [|rewrite H1 in E1; discriminate].
    destruct (grade questions user_answers' d0) as [r'|e'] eqn:Hr';
      [|rewrite H2 in E2; discriminate].
    destruct H1 as (w1' & H1). destruct H2 as (w2' & H2).
    rewrite H1 in E1. rewrite H2 in E2.
    injection E1 as <- _. injection E2 as <- _. by apply Hle.
  - intros Hknown.
    destruct (grade_returns questions user_answers Hknown d0) as [r Hr];
      [unfold d0; by rewrite map_map|].
    destruct (grade_returns questions user_answers' Hknown d0) as [r' Hr'];
      [unfold d0; by rewrite map_map|].
    rewrite Hr in H1. rewrite Hr' in H2.
    destruct H1 as (w1 & H1). destruct H2 as (w2 & H2).
    eexists _, _, w1, w2. split; [exact H1|]. split; [exact H2|]. by apply Hle.
Qed.

(** Two questions, the second answered correctly; the answer to the first
    is then set to its key: the total goes from 2 to 8. *)
Lemma calculate_total_score_monotone_witness :
  let q1 := Question.mk (Py.Int 1) (Py.Str "A") (Some "technical") in
  let q2 := Question.mk (Py.Int 2) (Py.Str "B") (Some "communication") in
  let user_answers : gmap string Py.value := {[ "2" := Py.Str "B" ]} in
  let user_answers' := <[Py.str (Question.id q1) := Question.correct_answer q1]> user_answers in
  let self_exam := Exam.mk 7 (Some 1%nat) "completed" 0 0 Datatypes.None Datatypes.None in
  let w := mkWorld [] [] 1 [] [] in
  NoDup (map (fun q => Py.str (Question.id q)) [q1; q2])
  /\ q1 ∈ [q1; q2]
  /\ ~ answered_correctly user_answers q1
  /\ (exists w1, calculate_total_score self_exam [q1; q2] user_answers w = Ok (2, w1))
  /\ (exists w2, calculate_total_score self_exam [q1; q2] user_answers' w = Ok (8, w2))
  /\ answered_correctly user_answers' q1
  /\ (forall total total' w1 w2,
        calculate_total_score self_exam [q1; q2] user_answers w = Ok (total, w1) ->
        calculate_total_score self_exam [q1; q2] user_answers' w = Ok (total', w2) ->
        total <= total')
  /\ (Forall known_competency [q1; q2] ->
      exists total total' w1 w2,
        calculate_total_score self_exam [q1; q2] user_answers w = Ok (total, w1)
        /\ calculate_total_score self_exam [q1; q2] user_answers' w = Ok (total', w2)
        /\ total <= total').
Proof.
  intros q1 q2 user_answers user_answers' self_exam w.
  assert (NoDup (map (fun q => Py.str (Question.id q)) [q1; q2])) as ND.
  { apply (bool_decide_unpack _). vm_compute. exact I. }
  assert (q1 ∈ [q1; q2]) as Hin by left.
  assert (~ answered_correctly user_answers q1) as Hwrong.
  { unfold answered_correctly. vm_compute. discriminate. }
  split; [exact ND|]. split; [exact Hin|]. split; [exact Hwrong|].
  split; [eexists; vm_compute; reflexivity|].
  split; [eexists; vm_compute; reflexivity|].
  exact (calculate_total_score_monotone self_exam [q1; q2] user_answers q1 w ND Hin Hwrong).
Defined.

(** ** What the ranking pass persists *)

(** A stable sort by a strict weak order leaves no entry strictly after a
    later one. *)
Lemma stable_sort_weakly_sorted {A : Type} (before : A -> A -> bool) (l : list A) :
  (forall a b, before a b = true -> before b a = false) ->
  (forall a b c, before b a = false -> before c b = false -> before c a = false) ->
  StronglySorted (fun a b => before b a = false) (stable_sort before l).
Proof.
  intros Hasym Htrans. induction l as [|x l IH]; simpl; [constructor|].
  revert IH. generalize (stable_sort before l) as s.
  induction s as [|y s IHs]; intros Hs; simpl; [repeat constructor|].
  apply StronglySorted_inv in Hs as [Hs Hy].
  destruct (before y x) eqn:E.
  - constructor; [by apply IHs|].
    rewrite (insert_sorted_Permutation before x s). constructor; [by apply Hasym|done].
  - constructor; [by constructor|]. constructor; [done|].
    eapply Forall_impl; [exact Hy|]. intros z Hz. simpl in Hz. eauto.
Qed.

Lemma StronglySorted_weaken {A : Type} (R R' : A -> A -> Prop) (l : list A) :
  (forall a b, R a b -> R' a b) -> StronglySorted R l -> StronglySorted R' l.
Proof.
  intros HR. induction 1 as [|x l Hs IH Hx]; constructor; [done|].
  eapply Forall_impl; [exact Hx|]. intros y. apply HR.
Qed.

Lemma completed_exams_sorted (w : World) :
  StronglySorted ranks_before (completed_exams w).
Proof.
  unfold completed_exams.
  eapply StronglySorted_weaken;
    [|apply stable_sort_weakly_sorted].
  - intros a b H. simpl in H. unfold ranks_before.
    apply orb_false_iff in H as [H1 H2]. apply Z.ltb_ge in H1.
    apply andb_false_iff in H2 as [H2|H2]; [apply Z.eqb_neq in H2|apply Z.ltb_ge in H2]; lia.
  - intros a b H. apply orb_true_iff in H as [H|H].
    + apply Z.ltb_lt in H. apply orb_false_iff. split; [apply Z.ltb_ge; lia|].
      apply andb_false_iff. left. apply Z.eqb_neq. lia.
    + apply andb_true_iff in H as [H1 H2]. apply Z.eqb_eq in H1. apply Z.ltb_lt in H2.
      apply orb_false_iff. split; [apply Z.ltb_ge; lia|].
      apply andb_false_iff. right. apply Z.ltb_ge. lia.
  - intros a b c H1 H2.
    apply orb_false_iff in H1 as [H1 H1']. apply Z.ltb_ge in H1.
    apply orb_false_iff in H2 as [H2 H2']. apply Z.ltb_ge in H2.
    apply orb_false_iff. split; [apply Z.ltb_ge; lia|].
    apply andb_false_iff.
    destruct (Z.eqb_spec (Exam.total_score a) (Exam.total_score c)) as [E|E];
      [right|by left].
    apply Z.ltb_ge.
    apply andb_false_iff in H1' as [H1'|H1']; [apply Z.eqb_neq in H1'; lia|].
    apply andb_false_iff in H2' as [H2'|H2']; [apply Z.eqb_neq in H2'; lia|].
    apply Z.ltb_ge in H1', H2'. lia.
Qed.

Lemma completed_exams_Permutation (w : World) :
  completed_exams w
  ≡ₚ List.filter (fun e => String.eqb (Exam.status e) "completed") (exams w).
Proof. apply stable_sort_Permutation. Qed.

Lemma rank_exams_run (total : Z) (all_exams : list Exam.t) :
  total <> 0 ->
  forall (rank : Z) (w : World),
    rank_exams total rank all_exams w
    = Ok (tt, with_exams (ranked_table total rank all_exams (exams w)) w).
Proof.
  intros Ht. induction all_exams as [|exam all_exams IH]; intros rank w; simpl.
  - unfold ret, with_exams. by destruct w.
  - unfold bind at 1. unfold lift, int_truediv.
    destruct (Z.eqb_spec total 0) as [|_]; [done|].
    unfold bind at 1. unfold save_exam, modify. rewrite IH. reflexivity.
Qed.

Lemma ranked_table_pks total rank all_exams t :
  map Exam.pk (ranked_table total rank all_exams t) = map Exam.pk t.
Proof.
  revert rank t. induction all_exams as [|exam all_exams IH]; intros rank t; simpl; [done|].
  rewrite IH, map_map. apply map_ext. intros r.
  by destruct (Nat.eqb_spec (Exam.pk r) (Exam.pk exam)).
Qed.

(** A row that is not in the cohort is left as it is. *)
Lemma ranked_table_keeps total rank all_exams t r :
  r ∈ t -> Exam.pk r ∉ map Exam.pk all_exams -> r ∈ ranked_table total rank all_exams t.
Proof.
  revert rank t. induction all_exams as [|exam all_exams IH]; intros rank t Hr Hpk; simpl;
    [done|].
  simpl in Hpk. apply not_elem_of_cons in Hpk as [Hne Hpk].
  apply IH; [|done]. rewrite map_fmap. apply list_elem_of_fmap. exists r. split; [|done].
  destruct (Nat.eqb_spec (Exam.pk r) (Exam.pk exam)); [done|reflexivity].
Qed.

(** The row of the exam at position [i] of the cohort gets rank [rank + i]
    and the percentile that goes with it. *)
Lemma ranked_table_ranks total all_exams :
  NoDup (map Exam.pk all_exams) ->
  forall rank t (i : nat) exam,
    all_exams !! i = Some exam -> Exam.pk exam ∈ map Exam.pk t ->
    Exam.set_ranking (rank + Z.of_nat i) (percentile_of total (rank + Z.of_nat i)) exam
    ∈ ranked_table total rank all_exams t.
Proof.
  induction all_exams as [|e all_exams IH]; intros ND rank t i exam Hi Hpk; [done|].
  simpl in ND. apply NoDup_cons in ND as [He ND]. simpl.
  destruct i as [|i]; simpl in Hi.
  - injection Hi as ->. rewrite Z.add_0_r.
    apply ranked_table_keeps; [|done].
    rewrite map_fmap in Hpk. apply list_elem_of_fmap in Hpk as (r & Hr & Hin).
    rewrite map_fmap. apply list_elem_of_fmap. exists r. split; [|done].
    by rewrite <- Hr, Nat.eqb_refl.
  - replace (rank + Z.of_nat (S i)) with (rank + 1 + Z.of_nat i) by lia.
    apply IH; [done|done|].
    replace (map Exam.pk _) with (map Exam.pk t); [done|].
    rewrite map_map. apply map_ext. intros r.
    by destruct (Nat.eqb_spec (Exam.pk r) (Exam.pk e)).
Qed.

(** In an exam table whose primary keys identify rows, [calculate_ranking]
    returns; the cohort of completed exams is taken in the order of total
    score descending, then timestamp descending; the row of the exam at
    (1-based) position [rank] of that order ends with that [rank] and with
    percentile [(total - rank) / total * 100]; rows of other exams are left
    alone; and the pair returned is the rank and percentile that the
    instance [self.exam] holds, whatever the pass assigned to its row. *)
Theorem calculate_ranking_persists (self_exam : Exam.t) (w : World) :
  NoDup (map Exam.pk (exams w)) ->
  let all_exams := completed_exams w in
  let total := Z.of_nat (length all_exams) in
  exists w',
    calculate_ranking self_exam w
    = Ok ((Exam.rank self_exam, Exam.percentile self_exam), w')
    /\ StronglySorted ranks_before all_exams
    /\ all_exams ≡ₚ List.filter (fun e => String.eqb (Exam.status e) "completed") (exams w)
    /\ map Exam.pk (exams w') = map Exam.pk (exams w)
    /\ (forall (i : nat) exam,
          all_exams !! i = Some exam ->
          Exam.set_ranking (1 + Z.of_nat i) (percentile_of total (1 + Z.of_nat i)) exam
          ∈ exams w')
    /\ (forall r, r ∈ exams w -> String.eqb (Exam.status r) "completed" = false ->
                  r ∈ exams w')
    /\ competency_scores w' = competency_scores w
    /\ cheating_events w' = cheating_events w.
Proof.
  intros ND all_exams total.
  pose proof (completed_exams_Permutation w) as Hperm. fold all_exams in Hperm.
  assert (forall e, e ∈ all_exams ->
            e ∈ exams w /\ String.eqb (Exam.status e) "completed" = true) as Hall.
  { intros e He. rewrite Hperm in He.
    apply list_elem_of_In, filter_In in He as [He Hs]. split; [by apply list_elem_of_In|done]. }
  assert (NoDup (map Exam.pk all_exams)) as NDall.
  { rewrite Hperm. eapply sublist_NoDup; [exact ND|].
    rewrite !map_fmap. apply fmap_sublist, filter_sublist. }
  assert (exists w', rank_exams total 1 all_exams w = Ok (tt, w')
                     /\ w' = with_exams (ranked_table total 1 all_exams (exams w)) w)
    as (w' & Hrun & Hw').
  { destruct all_exams as [|e l] eqn:E.
    - eexists. split; [reflexivity|]. unfold with_exams. by destruct w.
    - eexists. split; [|reflexivity]. apply rank_exams_run. unfold total. simpl. lia. }
  exists w'. split.
  { unfold calculate_ranking, bind, gets. fold all_exams. fold total. by rewrite Hrun. }
  split; [apply completed_exams_sorted|]. split; [exact Hperm|].
  subst w'. simpl. split; [apply ranked_table_pks|]. split; [|split].
  - intros i exam Hi. apply ranked_table_ranks; [done|done|].
    rewrite map_fmap. apply list_elem_of_fmap_2.
    by apply Hall, (list_elem_of_lookup_2 _ i).
  - intros r Hr Hs. apply ranked_table_keeps; [done|].
    intros Hpk. rewrite map_fmap in Hpk. apply list_elem_of_fmap in Hpk as (e & Hpk & He).
    destruct (Hall e He) as [Hin Hc].
    assert (r = e) as -> by (apply (NoDup_map_inj Exam.pk (exams w)); done).
    congruence.
  - done.
Qed.

(** Four completed exams with total scores 90, 80, 80 and 50, the second
    tie completed later; [self.exam] is the instance of the first tie. *)
Lemma calculate_ranking_persists_witness :
  let E p s t := Exam.mk p (Some p) "completed" t s Datatypes.None Datatypes.None in
  let ranked p s t r pct := Exam.mk p (Some p) "completed" t s (Some r) (Some pct) in
  let w := mkWorld [] [] 1 [] [E 1%nat 90 1; E 2%nat 80 2; E 3%nat 80 3; E 4%nat 50 4] in
  NoDup (map Exam.pk (exams w))
  /\ (exists w',
        calculate_ranking (E 2%nat 80 2) w = Ok ((Datatypes.None, Datatypes.None), w')
        /\ exams w' = [ranked 1%nat 90 1 1 75%float; ranked 2%nat 80 2 3 25%float;
                       ranked 3%nat 80 3 2 50%float; ranked 4%nat 50 4 4 0%float])
  /\ exists w',
       calculate_ranking (E 2%nat 80 2) w = Ok ((Datatypes.None, Datatypes.None), w')
       /\ StronglySorted ranks_before (completed_exams w)
       /\ completed_exams w
          ≡ₚ List.filter (fun e => String.eqb (Exam.status e) "completed") (exams w)
       /\ map Exam.pk (exams w') = map Exam.pk (exams w)
       /\ (forall (i : nat) exam,
             completed_exams w !! i = Some exam ->
             Exam.set_ranking (1 + Z.of_nat i)
               (percentile_of (Z.of_nat (length (completed_exams w))) (1 + Z.of_nat i)) exam
             ∈ exams w')
       /\ (forall r, r ∈ exams w -> String.eqb (Exam.status r) "completed" = false ->
                     r ∈ exams w')
       /\ competency_scores w' = competency_scores w
       /\ cheating_events w' = cheating_events w.
Proof.
  intros E ranked w.
  assert (NoDup (map Exam.pk (exams w))) as ND.
  { apply (bool_decide_unpack _). vm_compute. exact I. }
  split; [exact ND|]. split.
  - eexists. split; vm_compute; reflexivity.
  - exact (calculate_ranking_persists (E 2%nat 80 2) w ND).
Defined.

(** ** The breakdown as a whole *)

Lemma new_rows_pks self_exam pk items :
  map CompetencyScore.pk (new_rows self_exam pk items) = seq pk (length items).
Proof.
  revert pk. induction items as [|[name raw] items IH]; intros pk; simpl; [done|].
  by rewrite IH.
Qed.

Lemma pks_of_created (objs t rows : list CompetencyScore.t) (n : nat)
    (ev : list CheatingEvent.t) (ex : list Exam.t) :
  pks_of (mkWorld (objs ++ rows) t n ev ex) (seq (length objs) (length rows))
  = map CompetencyScore.pk rows.
Proof.
  unfold pks_of. simpl. apply list_eq. intros i.
  rewrite !map_fmap, !list_lookup_fmap.
  destruct (decide (i < length rows)%nat) as [Hi|Hi].
  - rewrite lookup_seq_lt by done. simpl.
    rewrite lookup_total_app_r by lia.
    replace (length objs + i - length objs)%nat with i by lia.
    destruct (lookup_lt_is_Some_2 rows i Hi) as [r Hr].
    by rewrite Hr, (list_lookup_total_correct _ _ _ Hr).
  - rewrite lookup_seq_ge by lia. by rewrite (lookup_ge_None_2 rows) by lia.
Qed.

(** After the rows of the exam were replaced, the created instances are
    stored records of the exam. *)
Lemma created_stored_records (self_exam : Exam.t) (w : World)
    (items : list (string * float)) :
  table_consistent w ->
  let rows := new_rows self_exam (next_pk w) items in
  let t0 := List.filter (fun r => negb (CompetencyScore.exam r =? Exam.pk self_exam)%nat)
              (competency_scores w) in
  stored_records (Exam.pk self_exam)
    (mkWorld (objects w ++ rows) (t0 ++ rows) (next_pk w + length items)
             (cheating_events w) (exams w))
    (seq (length (objects w)) (length rows)).
Proof.
  intros [ND Hfresh] rows t0.
  assert (map CompetencyScore.pk rows = seq (next_pk w) (length items)) as Hpks
    by apply new_rows_pks.
  repeat split.
  - simpl. rewrite map_app, Hpks. apply NoDup_app. repeat split.
    + eapply sublist_NoDup; [exact ND|]. rewrite !map_fmap.
      apply fmap_sublist, filter_sublist.
    + intros p Hp Hq. apply elem_of_seq in Hq as [Hq _].
      rewrite map_fmap in Hp. apply list_elem_of_fmap in Hp as (r & -> & Hr).
      apply list_elem_of_In, filter_In in Hr as [Hr _].
      rewrite Forall_forall in Hfresh. apply list_elem_of_In, Hfresh in Hr. lia.
    + apply NoDup_seq.
  - rewrite pks_of_created, Hpks. apply NoDup_seq.
  - apply Forall_seq. intros c Hc. split; simpl.
    + rewrite length_app. lia.
    + rewrite lookup_total_app_r by lia.
      set (i := (c - length (objects w))%nat).
      assert (i < length rows)%nat as Hi by (unfold i; lia).
      exists (rows !!! i). split; [|split; [done|]].
      * apply elem_of_app. right. by apply list_elem_of_lookup_total_2.
      * pose proof (new_rows_exam self_exam (next_pk w) items) as He.
        rewrite Forall_forall in He. apply He. by apply list_elem_of_lookup_total_2.
Qed.

(** On a consistent table, [save_competency_breakdown] for at least two
    competencies returns and leaves exactly two rows of the exam flagged as
    strength and exactly two flagged as weakness. *)
Theorem save_competency_breakdown_flags_two
    (self_exam : Exam.t) (scores : list (string * float)) (w : World) :
  table_consistent w ->
  (2 <= length scores)%nat ->
  exists w',
    save_competency_breakdown self_exam scores w = Ok (tt, w')
    /\ count CompetencyScore.is_strength (scores_of_exam self_exam w') = 2%nat
    /\ count CompetencyScore.is_weakness (scores_of_exam self_exam w') = 2%nat.
Proof.
  intros Hcons Hlen.
  pose proof (created_stored_records self_exam w scores Hcons) as Hst. cbv zeta in Hst.
  unfold save_competency_breakdown, delete_scores, modify.
  unfold bind at 1. cbv beta iota zeta.
  unfold bind at 1. rewrite create_scores_run. cbv beta iota zeta. simpl.
  set (rows := new_rows self_exam (next_pk w) scores) in *.
  set (t0 := List.filter _ (competency_scores w)) in *.
  assert (length rows = length scores) as Hrows by apply new_rows_length.
  rewrite <- Hrows. rewrite <- Hrows in Hlen.
  set (w2 := mkWorld _ _ _ _ _) in *.
  set (refs := seq (length (objects w)) (length rows)) in *.
  assert (2 <= length refs)%nat as Hrefs by (unfold refs; by rewrite length_seq).
  assert (refs <> []) as Hne by (intros E; rewrite E in Hrefs; simpl in Hrefs; lia).
  unfold bind.
  rewrite identify_strengths_weaknesses_run
    by (try done; by apply (stored_records_saveable (Exam.pk self_exam))).
  eexists. split; [reflexivity|].
  destruct (flagged_counts (Exam.pk self_exam) w2 refs Hst Hrefs) as (Hs & Hw & _).
  split; [exact Hs|exact Hw].
Qed.

(** Five competencies scored on an empty table. *)
Lemma save_competency_breakdown_flags_two_witness :
  let scores := [("critical_thinking", 12%float); ("communication", 8%float);
                 ("adaptability", 1%float); ("basic_engineering", 25%float);
                 ("technical", 48%float)] in
  let self_exam := Exam.mk 7 (Some 1%nat) "completed" 0 0 Datatypes.None Datatypes.None in
  let w := mkWorld [] [] 1 [] [] in
  table_consistent w
  /\ exists w',
       save_competency_breakdown self_exam scores w = Ok (tt, w')
       /\ count CompetencyScore.is_strength (scores_of_exam self_exam w') = 2%nat
       /\ count CompetencyScore.is_weakness (scores_of_exam self_exam w') = 2%nat.
Proof.
  intros scores self_exam w.
  assert (table_consistent w) as Hc by (split; simpl; constructor).
  split; [exact Hc|].
  apply (save_competency_breakdown_flags_two self_exam scores w Hc). simpl. lia.
Defined.

(** ** The recommended course lists *)

Lemma dict_fromkeys_NoDup (l : list string) : NoDup (dict_fromkeys l).
Proof.
  induction l as [|x l IH]; simpl; constructor.
  - intros Hx. apply list_elem_of_In, filter_In in Hx as [_ Hx].
    by rewrite String.eqb_refl in Hx.
  - eapply sublist_NoDup; [exact IH|apply filter_sublist].
Qed.

Lemma dict_fromkeys_elem_of (l : list string) (x : string) :
  x ∈ dict_fromkeys l <-> x ∈ l.
Proof.
  revert x. induction l as [|y l IH]; intros x; simpl; [done|].
  rewrite !elem_of_cons, list_elem_of_In, filter_In, <- list_elem_of_In, IH.
  destruct (String.eqb_spec y x) as [->|Hne]; simpl; [tauto|].
  split; [tauto|]. intros [->|Hx]; [done|]. right. done.
Qed.

(** No list of [recommend_courses] holds a course twice. *)
Theorem recommend_courses_no_duplicates (self_exam : Exam.t) (w : World) :
  NoDup (Recommendation.priority_courses (recommend_courses self_exam w))
  /\ NoDup (Recommendation.complementary_courses (recommend_courses self_exam w))
  /\ NoDup (Recommendation.advanced_courses (recommend_courses self_exam w)).
Proof. unfold recommend_courses. simpl. repeat split; apply dict_fromkeys_NoDup. Qed.

(** ** The flagged entries are the extremes *)

(** Sorting numbers without [reverse] gives an ascending list. *)
Lemma sorted_ascending {A : Type} (key : A -> float) (l : list A) :
  Forall (fun x => Py.number (key x)) l ->
  StronglySorted (fun a b => (key a <=? key b)%float = true) (sorted l key false).
Proof.
  unfold sorted. induction 1 as [|x l Hx Hl IH]; simpl; [constructor|].
  assert (Forall (fun y => Py.number (key y))
            (stable_sort (fun y x => (key y <? key x)%float) l)) as Hnum.
  { rewrite Forall_forall in Hl. rewrite Forall_forall. intros y Hy.
    apply Hl. by apply stable_sort_elem_of in Hy. }
  revert IH Hnum. generalize (stable_sort (fun y x => (key y <? key x)%float) l) as s.
  induction s as [|y s IHs]; intros Hs Hnum; simpl.
  - repeat constructor.
  - apply StronglySorted_inv in Hs as [Hs Hy].
    apply Forall_cons in Hnum as [Hny Hnum].
    destruct (key y <? key x)%float eqn:E.
    + constructor; [by apply IHs|].
      rewrite (insert_sorted_Permutation _ x s). constructor; [|done].
      by apply FloatOrder.ltb_leb.
    + assert ((key x <=? key y)%float = true) as Hyx by by apply FloatOrder.not_ltb_leb.
      constructor; [by constructor|]. constructor; [done|].
      eapply Forall_impl; [exact Hy|]. intros z Hz. simpl in Hz.
      eapply FloatOrder.leb_trans; eauto.
Qed.

Lemma StronglySorted_take_drop {A : Type} (R : A -> A -> Prop) (l : list A) (n : nat) :
  StronglySorted R l -> forall a b, a ∈ take n l -> b ∈ drop n l -> R a b.
Proof.
  intros Hl. revert n. induction Hl as [|x l Hl IH Hx]; intros n a b Ha Hb.
  - rewrite take_nil in Ha. by apply elem_of_nil in Ha.
  - destruct n as [|n]; simpl in *; [by apply elem_of_nil in Ha|].
    apply elem_of_cons in Ha as [->|Ha]; [|by eapply IH].
    rewrite Forall_forall in Hx. apply Hx.
    eapply elem_of_sublist; [exact Hb|apply sublist_drop].
Qed.

(** When no percentage is NaN, the strengths are the first two entries of
    the descending order and the weaknesses the first two of the ascending
    order, whatever the thresholds select. *)
Lemma number_selections (key : nat -> float) (comp_scores : list nat) :
  Forall (fun c => Py.number (key c)) comp_scores ->
  strength_selection key comp_scores = take 2 (sorted comp_scores key true)
  /\ weakness_selection key comp_scores
     = take 2 (sorted (sorted comp_scores key true) key false).
Proof.
  intros Hnum.
  assert (forall (R : nat -> nat -> Prop) p l,
            (forall a b, R a b -> p b = true -> p a = true) -> StronglySorted R l ->
            take 2 (if (length (List.filter p l) <? 2)%nat then take 2 l else List.filter p l)
            = take 2 l) as Hsel.
  { intros R p l Hup Hl. destruct (length (List.filter p l) <? 2)%nat eqn:E.
    - rewrite take_take. done.
    - apply Nat.ltb_ge in E. rewrite (filter_sorted_prefix R p l Hup Hl), take_take.
      f_equal. lia. }
  split.
  - unfold strength_selection.
    apply (Hsel (fun a b => (key b <=? key a)%float = true));
      [|by apply sorted_reverse_descending].
    intros a b Hab Hb. unfold Py.ge in *. eapply FloatOrder.leb_trans; eauto.
  - unfold weakness_selection.
    apply (Hsel (fun a b => (key a <=? key b)%float = true)).
    + intros a b Hab Hb. eapply FloatOrder.leb_ltb_trans; eauto.
    + apply sorted_ascending. rewrite Forall_forall in Hnum. rewrite Forall_forall.
      intros c Hc. apply Hnum. by apply (sorted_subseteq comp_scores key true).
Qed.

(** The flagged entries are extreme: no entry that is not selected as a
    strength has a higher percentage than a selected one, and none that is
    not selected as a weakness has a lower one. *)
Lemma selections_extreme (key : nat -> float) (comp_scores : list nat) :
  Forall (fun c => Py.number (key c)) comp_scores ->
  forall c c', c' ∈ comp_scores ->
    (c ∈ strength_selection key comp_scores ->
     c' ∉ strength_selection key comp_scores -> (key c' <=? key c)%float = true)
    /\ (c ∈ weakness_selection key comp_scores ->
        c' ∉ weakness_selection key comp_scores -> (key c <=? key c')%float = true).
Proof.
  intros Hnum c c' Hc'.
  destruct (number_selections key comp_scores Hnum) as [-> ->].
  assert (forall l : list nat, c' ∈ l -> c' ∉ take 2 l -> c' ∈ drop 2 l) as Hdrop.
  { intros l Hl Hn. rewrite <- (take_drop 2 l) in Hl. apply elem_of_app in Hl as [|]; done. }
  assert (Forall (fun c => Py.number (key c)) (sorted comp_scores key true)) as Hnum'.
  { rewrite Forall_forall in Hnum. rewrite Forall_forall.
    intros x Hx. apply Hnum. by apply (sorted_subseteq comp_scores key true). }
  split; intros Hc Hn.
  - eapply (StronglySorted_take_drop (fun a b => (key b <=? key a)%float = true));
      [apply sorted_reverse_descending, Hnum|exact Hc|].
    apply Hdrop; [|done]. by apply stable_sort_elem_of.
  - eapply (StronglySorted_take_drop (fun a b => (key a <=? key b)%float = true));
      [apply sorted_ascending, Hnum'|exact Hc|].
    apply Hdrop; [|done]. unfold sorted. by rewrite !stable_sort_elem_of.
Qed.

(** ** The table after [save_competency_breakdown] *)

Lemma stable_sort_ext_in {A : Type} (f g : A -> A -> bool) (l : list A) :
  (forall x y, x ∈ l -> y ∈ l -> f x y = g x y) -> stable_sort f l = stable_sort g l.
Proof.
  induction l as [|x l IH]; intros E; simpl; [reflexivity|].
  rewrite IH by (intros; apply E; set_solver).
  assert (forall y, y ∈ stable_sort g l -> f y x = g y x) as E'.
  { intros y Hy. apply E; [|set_solver]. apply stable_sort_elem_of in Hy. set_solver. }
  revert E'. generalize (stable_sort g l) as s.
  induction s as [|y s IHs]; intros E'; simpl; [reflexivity|].
  rewrite E' by set_solver. rewrite IHs by (intros; apply E'; set_solver). done.
Qed.

Lemma filter_ext_in {A : Type} (p q : A -> bool) (l : list A) :
  (forall x, x ∈ l -> p x = q x) -> List.filter p l = List.filter q l.
Proof.
  induction l as [|x l IH]; intros E; simpl; [done|].
  rewrite E by set_solver. rewrite IH by (intros; apply E; set_solver). done.
Qed.

(** The selections read the percentages of the entries only. *)
Lemma selections_ext_in (k1 k2 : nat -> float) (l : list nat) :
  (forall c, c ∈ l -> k1 c = k2 c) ->
  strength_selection k1 l = strength_selection k2 l
  /\ weakness_selection k1 l = weakness_selection k2 l.
Proof.
  intros E.
  assert (forall reverse (m : list nat), m ⊆ l -> sorted m k1 reverse = sorted m k2 reverse)
    as Hs.
  { intros reverse m Hm. apply stable_sort_ext_in. intros x y Hx Hy.
    rewrite !E by (by apply Hm). done. }
  assert (sorted l k2 true ⊆ l) as Hsub by apply sorted_subseteq.
  unfold strength_selection, weakness_selection.
  rewrite !Hs by done.
  rewrite (filter_ext_in (fun c => Py.ge (k1 c) 75) (fun c => Py.ge (k2 c) 75))
    by (intros c Hc; rewrite E; [done|by apply Hsub]).
  rewrite (filter_ext_in (fun c => (k1 c <? 60)%float) (fun c => (k2 c <? 60)%float)); [done|].
  intros c Hc. rewrite E; [done|]. apply Hsub. by apply (sorted_subseteq _ k2 false).
Qed.

Lemma stable_sort_map {A B : Type} (g : A -> B) (before : B -> B -> bool) (l : list A) :
  stable_sort before (map g l) = map g (stable_sort (fun y x => before (g y) (g x)) l).
Proof.
  induction l as [|x l IH]; simpl; [done|]. rewrite IH.
  generalize (stable_sort (fun y x => before (g y) (g x)) l) as s.
  induction s as [|y s IHs]; simpl; [done|].
  destruct (before (g y) (g x)); simpl; [by rewrite IHs|done].
Qed.

(** The selections commute with a renaming of the entries. *)
Lemma selections_map (g : nat -> nat) (key : nat -> float) (l : list nat) :
  strength_selection key (map g l) = map g (strength_selection (fun c => key (g c)) l)
  /\ weakness_selection key (map g l) = map g (weakness_selection (fun c => key (g c)) l).
Proof.
  assert (forall reverse (m : list nat),
            sorted (map g m) key reverse = map g (sorted m (fun c => key (g c)) reverse)) as Hs.
  { intros reverse m. unfold sorted. by rewrite stable_sort_map. }
  assert (forall (p : nat -> bool) (m : list nat),
            take 2 (if (length (List.filter p (map g m)) <? 2)%nat
                    then take 2 (map g m) else List.filter p (map g m))
            = map g (take 2 (if (length (List.filter (fun c => p (g c)) m) <? 2)%nat
                             then take 2 m else List.filter (fun c => p (g c)) m))) as Ht.
  { intros p m. rewrite filter_map_comm, length_map, !map_fmap.
    destruct (_ <? _)%nat; by rewrite <- ?fmap_take. }
  unfold strength_selection, weakness_selection. rewrite !Hs. split; apply Ht.
Qed.

Lemma new_rows_imap (self_exam : Exam.t) (pk : nat) (items : list (string * float)) :
  new_rows self_exam pk items
  = imap (fun i item => created_row self_exam (pk + i) item false false) items.
Proof.
  revert pk. induction items as [|[name raw] items IH]; intros pk; simpl; [done|].
  unfold created_row at 1, item_percentage. simpl. rewrite Nat.add_0_r. f_equal.
  rewrite IH. apply imap_ext. intros i x _. simpl. f_equal. lia.
Qed.

Lemma final_row_other e ps pw r :
  CompetencyScore.exam r <> e -> CompetencyScore.pk r ∉ ps -> CompetencyScore.pk r ∉ pw ->
  final_row e ps pw r = r.
Proof.
  intros He Hs Hw. unfold final_row.
  destruct (Nat.eqb_spec (CompetencyScore.exam r) e); [done|].
  rewrite (bool_decide_eq_false_2 _ Hs). by rewrite (bool_decide_eq_false_2 _ Hw).
Qed.

Lemma save_competency_breakdown_world
    (self_exam : Exam.t) (scores : list (string * float)) (w : World) :
  let rows := new_rows self_exam (next_pk w) scores in
  let t0 := List.filter (fun r => negb (CompetencyScore.exam r =? Exam.pk self_exam)%nat)
              (competency_scores w) in
  let refs := seq (length (objects w)) (length scores) in
  let w2 := mkWorld (objects w ++ rows) (t0 ++ rows) (next_pk w + length scores)
              (cheating_events w) (exams w) in
  let ls := strength_selection (percentage_of w2) refs in
  let lw := weakness_selection (percentage_of w2) refs in
  save_competency_breakdown self_exam scores w
  = Ok (tt, mkWorld
              (flag_objects (CompetencyScore.set_is_weakness true) lw
                 (flag_objects (CompetencyScore.set_is_strength true) ls (objects w2)))
              (map (final_row (Exam.pk self_exam) (pks_of w2 ls) (pks_of w2 lw)) (t0 ++ rows))
              (next_pk w + length scores) (cheating_events w) (exams w)).
Proof.
  intros rows t0 refs w2 ls lw.
  unfold save_competency_breakdown, delete_scores, modify.
  unfold bind at 1. cbv beta iota zeta.
  unfold bind at 1. rewrite create_scores_run. cbv beta iota zeta. simpl.
  fold rows t0 refs w2.
  assert (length rows = length scores) as Hlen by apply new_rows_length.
  destruct scores as [|item scores'].
  - simpl in *. subst ls lw refs. simpl.
    unfold strength_selection, weakness_selection, pks_of. simpl.
    rewrite !flag_objects_nil. unfold bind, ret. do 3 f_equal.
    subst w2 rows. simpl. rewrite !app_nil_r. f_equal.
    symmetry. erewrite map_ext_in; [apply map_id|].
    intros r Hr. apply final_row_other; [|apply not_elem_of_nil..].
    apply filter_In in Hr as [_ Hr]. apply negb_true_iff in Hr.
    by apply Nat.eqb_neq in Hr.
  - unfold bind.
    rewrite identify_strengths_weaknesses_run.
    + unfold ret. rewrite flagged_rows_map. reflexivity.
    + unfold refs. simpl. discriminate.
    + unfold refs, w2. rewrite <- Hlen. apply created_saveable.
Qed.

Lemma new_rows_lookup_total (self_exam : Exam.t) (pk : nat) (items : list (string * float))
    (i : nat) :
  (i < length items)%nat ->
  new_rows self_exam pk items !!! i
  = created_row self_exam (pk + i) (nth i items (EmptyString, 0%float)) false false.
Proof.
  intros Hi. apply list_lookup_total_correct.
  rewrite new_rows_imap, list_lookup_imap, nth_lookup.
  destruct (lookup_lt_is_Some_2 items i Hi) as [item ->]. done.
Qed.

(** On a consistent table, [save_competency_breakdown] returns and leaves
    the rows of the other exams followed by the rows of the breakdown. *)
Lemma save_competency_breakdown_table
    (self_exam : Exam.t) (scores : list (string * float)) (w : World) :
  table_consistent w ->
  exists w',
    save_competency_breakdown self_exam scores w = Ok (tt, w')
    /\ competency_scores w'
       = List.filter (fun r => negb (CompetencyScore.exam r =? Exam.pk self_exam)%nat)
           (competency_scores w)
         ++ breakdown_rows self_exam (next_pk w) scores
    /\ next_pk w' = (next_pk w + length scores)%nat
    /\ cheating_events w' = cheating_events w
    /\ exams w' = exams w.
Proof.
  intros [ND Hfresh].
  rewrite save_competency_breakdown_world. eexists. split; [reflexivity|]. simpl.
  split; [|done].
  set (rows := new_rows self_exam (next_pk w) scores).
  set (t0 := List.filter _ (competency_scores w)).
  set (n0 := length (objects w)). set (n := length scores).
  set (w2 := mkWorld _ _ _ _ _).
  set (key := fun i => item_percentage (nth i scores (EmptyString, 0%float))).
  assert (length rows = n) as Hlen by apply new_rows_length.
  assert (forall i, (objects w2 !!! (n0 + i)%nat) = rows !!! i) as Hobj.
  { intros i. subst w2. simpl. rewrite lookup_total_app_r by (unfold n0; lia).
    f_equal. unfold n0. lia. }
  assert (forall i, i ∈ seq 0 n -> percentage_of w2 (n0 + i)%nat = key i) as Hkey.
  { intros i Hi. apply elem_of_seq in Hi. unfold percentage_of. rewrite Hobj.
    unfold rows. rewrite new_rows_lookup_total by (fold n; lia). done. }
  assert (seq n0 n = map (Nat.add n0) (seq 0 n)) as Hrefs.
  { rewrite map_fmap, fmap_add_seq. f_equal. lia. }
  rewrite Hrefs.
  destruct (selections_map (Nat.add n0) (percentage_of w2) (seq 0 n)) as [-> ->].
  destruct (selections_ext_in (fun c => percentage_of w2 (n0 + c)%nat) key (seq 0 n) Hkey)
    as [-> ->].
  set (ls := strength_selection key (seq 0 n)).
  set (lw := weakness_selection key (seq 0 n)).
  assert (forall sel, sel ⊆ seq 0 n ->
            pks_of w2 (map (Nat.add n0) sel) = map (Nat.add (next_pk w)) sel) as Hpks.
  { intros sel Hsel. unfold pks_of. rewrite map_map. apply map_ext_in.
    intros i Hi. apply list_elem_of_In, Hsel, elem_of_seq in Hi.
    rewrite Hobj. unfold rows. rewrite new_rows_lookup_total by (fold n; lia). done. }
  rewrite !Hpks by (apply strength_selection_subseteq || apply weakness_selection_subseteq).
  assert (forall sel i, (next_pk w + i)%nat ∈ map (Nat.add (next_pk w)) sel <-> i ∈ sel)
    as Hin.
  { intros sel i. rewrite map_fmap, list_elem_of_fmap. split.
    - intros (j & E & Hj). by replace i with j by lia.
    - intros Hi. by exists i. }
  rewrite map_app. f_equal.
  - erewrite map_ext_in; [apply map_id|].
    intros r Hr. apply filter_In in Hr as [Hr He].
    rewrite Forall_forall in Hfresh. apply list_elem_of_In, Hfresh in Hr.
    apply negb_true_iff, Nat.eqb_neq in He.
    apply final_row_other; [done|..]; rewrite map_fmap, list_elem_of_fmap;
      intros (j & E & _); lia.
  - unfold rows, breakdown_rows. rewrite new_rows_imap, map_fmap, fmap_imap.
    apply imap_ext. intros i item _. unfold compose, final_row. simpl.
    rewrite Nat.eqb_refl. simpl. fold n key ls lw.
    rewrite (bool_decide_ext _ _ (Hin ls i)).
    destruct (bool_decide (i ∈ ls)); simpl;
      rewrite (bool_decide_ext _ _ (Hin lw i)); by destruct (bool_decide (i ∈ lw)).
Qed.

(** ** What [save_competency_breakdown] leaves in the table *)

Lemma in_0_100_number (x : float) : in_0_100 x -> Py.number x.
Proof.
  intros [H _]. apply FloatOrder.leb_cmp in H as [H|H]; by apply FloatOrder.cmp_number_r in H.
Qed.

Lemma item_percentage_number (item : string * float) : Py.number (item_percentage item).
Proof. apply in_0_100_number, percentage_for_in_0_100. Qed.

Lemma breakdown_rows_elem_of self_exam pk scores r :
  r ∈ breakdown_rows self_exam pk scores ->
  let key := fun i => item_percentage (nth i scores (EmptyString, 0%float)) in
  let entries := seq 0 (length scores) in
  exists i, i ∈ entries
    /\ r = created_row self_exam (pk + i) (nth i scores (EmptyString, 0%float))
             (bool_decide (i ∈ strength_selection key entries))
             (bool_decide (i ∈ weakness_selection key entries)).
Proof.
  unfold breakdown_rows. intros Hr. apply elem_of_lookup_imap in Hr as (i & item & -> & Hi).
  exists i. split.
  - apply elem_of_seq. apply lookup_lt_Some in Hi. lia.
  - by rewrite nth_lookup, Hi.
Qed.

Lemma breakdown_rows_lookup self_exam pk scores i :
  (i < length scores)%nat ->
  let key := fun i => item_percentage (nth i scores (EmptyString, 0%float)) in
  let entries := seq 0 (length scores) in
  created_row self_exam (pk + i) (nth i scores (EmptyString, 0%float))
    (bool_decide (i ∈ strength_selection key entries))
    (bool_decide (i ∈ weakness_selection key entries))
  ∈ breakdown_rows self_exam pk scores.
Proof.
  intros Hi. simpl. unfold breakdown_rows. apply elem_of_lookup_imap.
  destruct (lookup_lt_is_Some_2 scores i Hi) as [item Hitem].
  exists i, item. split; [|done]. by rewrite nth_lookup, Hitem.
Qed.

Lemma breakdown_rows_pks self_exam pk scores :
  map CompetencyScore.pk (breakdown_rows self_exam pk scores) = seq pk (length scores).
Proof.
  unfold breakdown_rows. rewrite map_fmap, fmap_imap. unfold compose. simpl.
  apply list_eq. intros i. rewrite list_lookup_imap.
  destruct (scores !! i) as [item|] eqn:E; simpl.
  - rewrite lookup_seq_lt; [done|]. by apply lookup_lt_Some in E.
  - rewrite lookup_seq_ge; [done|]. by apply lookup_ge_None in E.
Qed.

Lemma breakdown_rows_fields self_exam pk pk' scores :
  map fields_of (breakdown_rows self_exam pk scores)
  = map fields_of (breakdown_rows self_exam pk' scores).
Proof.
  unfold breakdown_rows. rewrite !map_fmap, !fmap_imap. by apply imap_ext.
Qed.

Lemma breakdown_rows_exam self_exam pk scores :
  Forall (fun r => (CompetencyScore.exam r =? Exam.pk self_exam)%nat = true)
         (breakdown_rows self_exam pk scores).
Proof.
  rewrite Forall_forall. intros r Hr.
  apply breakdown_rows_elem_of in Hr as (i & _ & ->). simpl. apply Nat.eqb_refl.
Qed.

Lemma filter_none {A : Type} (p : A -> bool) (l : list A) :
  Forall (fun x => p x = false) l -> List.filter p l = [].
Proof. induction 1 as [|x l Hx _ IH]; simpl; [done|]. by rewrite Hx. Qed.

Lemma filter_all {A : Type} (p : A -> bool) (l : list A) :
  Forall (fun x => p x = true) l -> List.filter p l = l.
Proof. induction 1 as [|x l Hx _ IH]; simpl; [done|]. by rewrite Hx, IH. Qed.

(** The two halves of the table after the call. *)
Lemma breakdown_table_split (self_exam : Exam.t) (pk : nat) (scores : list (string * float))
    (t : list CompetencyScore.t) (w' : World) :
  competency_scores w'
  = List.filter (fun r => negb (CompetencyScore.exam r =? Exam.pk self_exam)%nat) t
    ++ breakdown_rows self_exam pk scores ->
  scores_of_exam self_exam w' = breakdown_rows self_exam pk scores
  /\ scores_of_others (Exam.pk self_exam) w'
     = List.filter (fun r => negb (CompetencyScore.exam r =? Exam.pk self_exam)%nat) t.
Proof.
  intros E. unfold scores_of_exam, scores_of_others. rewrite E, !List.filter_app.
  pose proof (breakdown_rows_exam self_exam pk scores) as Hb.
  split.
  - rewrite (filter_negb_filter
               (fun r => (CompetencyScore.exam r =? Exam.pk self_exam)%nat)).
    simpl. by apply filter_all.
  - rewrite (filter_none _ (breakdown_rows self_exam pk scores)), app_nil_r.
    + apply filter_all. rewrite Forall_forall. intros r Hr.
      by apply list_elem_of_In, filter_In in Hr as [_ Hr].
    + eapply Forall_impl; [exact Hb|]. by intros r ->.
Qed.

(** The table stays consistent. *)
Lemma breakdown_table_consistent
    (self_exam : Exam.t) (scores : list (string * float)) (w w' : World) :
  table_consistent w ->
  competency_scores w'
  = List.filter (fun r => negb (CompetencyScore.exam r =? Exam.pk self_exam)%nat)
      (competency_scores w)
    ++ breakdown_rows self_exam (next_pk w) scores ->
  next_pk w' = (next_pk w + length scores)%nat ->
  table_consistent w'.
Proof.
  intros [ND Hfresh] Ht Hpk. unfold table_consistent. rewrite Ht, Hpk.
  assert (Forall (fun r => (CompetencyScore.pk r < next_pk w)%nat)
            (List.filter (fun r => negb (CompetencyScore.exam r =? Exam.pk self_exam)%nat)
               (competency_scores w))) as Hold.
  { rewrite Forall_forall in Hfresh. rewrite Forall_forall. intros r Hr.
    apply Hfresh. by apply list_elem_of_In, filter_In in Hr as [Hr%list_elem_of_In _]. }
  split.
  - rewrite map_app, breakdown_rows_pks. apply NoDup_app. repeat split.
    + eapply sublist_NoDup; [exact ND|]. rewrite !map_fmap.
      apply fmap_sublist, filter_sublist.
    + intros p Hp Hq. apply elem_of_seq in Hq as [Hq _].
      rewrite map_fmap in Hp. apply list_elem_of_fmap in Hp as (r & -> & Hr).
      rewrite Forall_forall in Hold. apply Hold in Hr. lia.
    + apply NoDup_seq.
  - apply Forall_app. split.
    + eapply Forall_impl; [exact Hold|]. simpl. intros r Hr. lia.
    + rewrite Forall_forall. intros r Hr.
      assert (CompetencyScore.pk r ∈ seq (next_pk w) (length scores)) as Hin.
      { rewrite <- (breakdown_rows_pks self_exam). rewrite map_fmap.
        by apply list_elem_of_fmap_2. }
      apply elem_of_seq in Hin. lia.
Qed.

(** On a consistent table, [save_competency_breakdown] returns, leaves
    the rows of every other exam as they were, gives the rows of the exam
    fresh consecutive primary keys, and leaves the table consistent. *)
Theorem save_competency_breakdown_frame
    (self_exam : Exam.t) (scores : list (string * float)) (w : World) :
  table_consistent w ->
  exists w',
    save_competency_breakdown self_exam scores w = Ok (tt, w')
    /\ scores_of_others (Exam.pk self_exam) w' = scores_of_others (Exam.pk self_exam) w
    /\ map CompetencyScore.pk (scores_of_exam self_exam w')
       = seq (next_pk w) (length scores)
    /\ table_consistent w'.
Proof.
  intros Hcons.
  destruct (save_competency_breakdown_table self_exam scores w Hcons)
    as (w' & Hrun & Ht & Hpk & _).
  destruct (breakdown_table_split _ _ _ _ _ Ht) as [He Ho].
  exists w'. split; [exact Hrun|]. split; [exact Ho|].
  split; [by rewrite He, breakdown_rows_pks|].
  by apply (breakdown_table_consistent self_exam scores w).
Qed.

(** A table with a row of another exam. *)
Lemma save_competency_breakdown_frame_witness :
  let e := Exam.mk 1 (Some 7%nat) "completed" 0 0 Datatypes.None Datatypes.None in
  let w := mkWorld []
             [CompetencyScore.mk 0 2 "technical" 6%float 48 12.5%float novice true true]
             1 [] [] in
  table_consistent w
  /\ exists w',
       save_competency_breakdown e [("technical", 24%float); ("communication", 8%float)] w
       = Ok (tt, w')
       /\ scores_of_others (Exam.pk e) w' = scores_of_others (Exam.pk e) w
       /\ map CompetencyScore.pk (scores_of_exam e w') = seq (next_pk w) 2
       /\ table_consistent w'.
Proof.
  intros e w.
  assert (table_consistent w) as H.
  { split; simpl.
    - apply NoDup_singleton.
    - repeat constructor. }
  split; [exact H|].
  exact (save_competency_breakdown_frame e
           [("technical", 24%float); ("communication", 8%float)] w H).
Defined.

(** After [save_competency_breakdown] the strengths are the rows of the
    exam with the highest percentages and the weaknesses those with the
    lowest: no row of the exam that is not flagged as strength has a higher
    percentage than a row flagged as strength, and no row that is not
    flagged as weakness has a lower percentage than a row flagged as
    weakness. *)
Theorem save_competency_breakdown_flags_extremes
    (self_exam : Exam.t) (scores : list (string * float)) (w : World) :
  table_consistent w ->
  exists w',
    save_competency_breakdown self_exam scores w = Ok (tt, w')
    /\ forall r r', r ∈ scores_of_exam self_exam w' -> r' ∈ scores_of_exam self_exam w' ->
         (CompetencyScore.is_strength r = true -> CompetencyScore.is_strength r' = false ->
          (CompetencyScore.percentage r' <=? CompetencyScore.percentage r)%float = true)
         /\ (CompetencyScore.is_weakness r = true -> CompetencyScore.is_weakness r' = false ->
             (CompetencyScore.percentage r <=? CompetencyScore.percentage r')%float = true).
Proof.
  intros Hcons.
  destruct (save_competency_breakdown_table self_exam scores w Hcons)
    as (w' & Hrun & Ht & _).
  destruct (breakdown_table_split _ _ _ _ _ Ht) as [He _].
  exists w'. split; [exact Hrun|]. rewrite He. intros r r' Hr Hr'.
  apply breakdown_rows_elem_of in Hr as (i & Hi & ->).
  apply breakdown_rows_elem_of in Hr' as (j & Hj & ->).
  set (key := fun i => item_percentage (nth i scores (EmptyString, 0%float))).
  assert (Forall (fun c => Py.number (key c)) (seq 0 (length scores))) as Hnum.
  { rewrite Forall_forall. intros c _. apply item_percentage_number. }
  destruct (selections_extreme key _ Hnum i j Hj) as [Hs Hw].
  simpl. split; intros H1 H2.
  - apply Hs; [by apply bool_decide_eq_true in H1|by apply bool_decide_eq_false in H2].
  - apply Hw; [by apply bool_decide_eq_true in H1|by apply bool_decide_eq_false in H2].
Qed.

Lemma save_competency_breakdown_flags_extremes_witness :
  let e := Exam.mk 1 (Some 7%nat) "completed" 0 0 Datatypes.None Datatypes.None in
  let w := mkWorld [] [] 0 [] [] in
  table_consistent w
  /\ exists w',
       save_competency_breakdown e
         [("technical", 24%float); ("communication", 8%float); ("adaptability", 2%float)] w
       = Ok (tt, w')
       /\ forall r r', r ∈ scores_of_exam e w' -> r' ∈ scores_of_exam e w' ->
            (CompetencyScore.is_strength r = true -> CompetencyScore.is_strength r' = false ->
             (CompetencyScore.percentage r' <=? CompetencyScore.percentage r)%float = true)
            /\ (CompetencyScore.is_weakness r = true ->
                CompetencyScore.is_weakness r' = false ->
                (CompetencyScore.percentage r <=? CompetencyScore.percentage r')%float = true).
Proof.
  intros e w.
  assert (table_consistent w) as H by (split; simpl; constructor).
  split; [exact H|].
  exact (save_competency_breakdown_flags_extremes e
           [("technical", 24%float); ("communication", 8%float); ("adaptability", 2%float)]
           w H).
Defined.

Lemma selection_one (key : nat -> float) (c : nat) :
  strength_selection key [c] = [c] /\ weakness_selection key [c] = [c].
Proof.
  unfold strength_selection, weakness_selection, sorted. simpl.
  destruct (Py.ge (key c) 75), (key c <? 60)%float; done.
Qed.

(** With one, two or three entries, [save_competency_breakdown] leaves a
    row of the exam that is flagged both as strength and as weakness. *)
Theorem save_competency_breakdown_small_overlap
    (self_exam : Exam.t) (scores : list (string * float)) (w : World) :
  table_consistent w ->
  (1 <= length scores <= 3)%nat ->
  exists w',
    save_competency_breakdown self_exam scores w = Ok (tt, w')
    /\ exists r, r ∈ scores_of_exam self_exam w'
                 /\ CompetencyScore.is_strength r = true
                 /\ CompetencyScore.is_weakness r = true.
Proof.
  intros Hcons Hlen.
  destruct (save_competency_breakdown_table self_exam scores w Hcons)
    as (w' & Hrun & Ht & _).
  destruct (breakdown_table_split _ _ _ _ _ Ht) as [He _].
  exists w'. split; [exact Hrun|]. rewrite He.
  set (key := fun i => item_percentage (nth i scores (EmptyString, 0%float))).
  set (entries := seq 0 (length scores)).
  assert (exists i, (i < length scores)%nat
                    /\ i ∈ strength_selection key entries
                    /\ i ∈ weakness_selection key entries) as (i & Hi & Hs & Hw).
  { destruct (decide (length scores = 1%nat)) as [E|E].
    - unfold entries. rewrite E. simpl.
      destruct (selection_one key 0) as [-> ->]. exists 0%nat. set_solver by lia.
    - assert (NoDup (map id entries)) as ND by (rewrite map_id; apply NoDup_seq).
      assert (2 <= length entries)%nat as H2 by (unfold entries; rewrite length_seq; lia).
      destruct (selection_two key entries id ND H2 (strength_selection key entries))
        as (Ls & NDs & _ & Hs); [by left|].
      destruct (selection_two key entries id ND H2 (weakness_selection key entries))
        as (Lw & NDw & _ & Hw); [by right|].
      destruct (strength_selection key entries) as [|a [|b [|]]]; simpl in Ls; try lia.
      destruct (weakness_selection key entries) as [|c [|d [|]]]; simpl in Lw; try lia.
      assert (a <> b) as Hab by (apply NoDup_cons in NDs as [Ha _]; set_solver).
      assert (c <> d) as Hcd by (apply NoDup_cons in NDw as [Hc _]; set_solver).
      assert (forall x, x ∈ entries -> (x < length scores)%nat) as Hlt.
      { intros x Hx. apply elem_of_seq in Hx. lia. }
      assert (a < length scores)%nat by (apply Hlt, Hs; set_solver).
      assert (b < length scores)%nat by (apply Hlt, Hs; set_solver).
      assert (c < length scores)%nat by (apply Hlt, Hw; set_solver).
      assert (d < length scores)%nat by (apply Hlt, Hw; set_solver).
      assert (a = c \/ a = d \/ b = c \/ b = d) as [-> | [-> | [-> | ->]]] by lia.
      + exists c. set_solver.
      + exists d. set_solver.
      + exists c. set_solver.
      + exists d. set_solver. }
  eexists. split; [apply (breakdown_rows_lookup self_exam (next_pk w) scores i Hi)|].
  simpl. fold key entries. split; by apply bool_decide_eq_true.
Qed.

Lemma save_competency_breakdown_small_overlap_witness :
  let e := Exam.mk 1 (Some 7%nat) "completed" 0 0 Datatypes.None Datatypes.None in
  let w := mkWorld [] [] 0 [] [] in
  let scores := [("technical", 24%float); ("communication", 8%float);
                 ("adaptability", 2%float)] in
  table_consistent w /\ (1 <= length scores <= 3)%nat
  /\ exists w',
       save_competency_breakdown e scores w = Ok (tt, w')
       /\ exists r, r ∈ scores_of_exam e w'
                    /\ CompetencyScore.is_strength r = true
                    /\ CompetencyScore.is_weakness r = true.
Proof.
  intros e w scores.
  assert (table_consistent w) as H by (split; simpl; constructor).
  assert (1 <= length scores <= 3)%nat as L by (simpl; lia).
  split; [exact H|]. split; [exact L|].
  exact (save_competency_breakdown_small_overlap e scores w H L).
Defined.

(** Scoring the same breakdown again, right after the first time, replaces
    the rows of the exam by rows that differ in their primary keys only:
    the keys of the first run are not used again, the rows of the other
    exams stay as they were. *)
Theorem save_competency_breakdown_again
    (self_exam : Exam.t) (scores : list (string * float)) (w : World) :
  table_consistent w ->
  exists w1 w2,
    save_competency_breakdown self_exam scores w = Ok (tt, w1)
    /\ save_competency_breakdown self_exam scores w1 = Ok (tt, w2)
    /\ map fields_of (scores_of_exam self_exam w2) = map fields_of (scores_of_exam self_exam w1)
    /\ map CompetencyScore.pk (scores_of_exam self_exam w1)
       = seq (next_pk w) (length scores)
    /\ map CompetencyScore.pk (scores_of_exam self_exam w2)
       = seq (next_pk w + length scores) (length scores)
    /\ scores_of_others (Exam.pk self_exam) w2 = scores_of_others (Exam.pk self_exam) w.
Proof.
  intros Hcons.
  destruct (save_competency_breakdown_table self_exam scores w Hcons)
    as (w1 & Hrun1 & Ht1 & Hpk1 & _).
  assert (table_consistent w1) as Hcons1
    by (by apply (breakdown_table_consistent self_exam scores w)).
  destruct (save_competency_breakdown_table self_exam scores w1 Hcons1)
    as (w2 & Hrun2 & Ht2 & _).
  destruct (breakdown_table_split _ _ _ _ _ Ht1) as [He1 Ho1].
  destruct (breakdown_table_split _ _ _ _ _ Ht2) as [He2 Ho2].
  exists w1, w2. split; [exact Hrun1|]. split; [exact Hrun2|].
  rewrite He1, He2, !breakdown_rows_pks, Hpk1.
  split; [apply breakdown_rows_fields|]. do 2 (split; [done|]).
  rewrite Ho2. fold (scores_of_others (Exam.pk self_exam) w1). by rewrite Ho1.
Qed.

Lemma save_competency_breakdown_again_witness :
  let e := Exam.mk 1 (Some 7%nat) "completed" 0 0 Datatypes.None Datatypes.None in
  let w := mkWorld [] [] 0 [] [] in
  let scores := [("technical", 24%float); ("communication", 8%float)] in
  table_consistent w
  /\ exists w1 w2,
       save_competency_breakdown e scores w = Ok (tt, w1)
       /\ save_competency_breakdown e scores w1 = Ok (tt, w2)
       /\ map fields_of (scores_of_exam e w2) = map fields_of (scores_of_exam e w1)
       /\ map CompetencyScore.pk (scores_of_exam e w1) = seq (next_pk w) (length scores)
       /\ map CompetencyScore.pk (scores_of_exam e w2)
          = seq (next_pk w + length scores) (length scores)
       /\ scores_of_others (Exam.pk e) w2 = scores_of_others (Exam.pk e) w.
Proof.
  intros e w scores.
  assert (table_consistent w) as H by (split; simpl; constructor).
  split; [exact H|].
  exact (save_competency_breakdown_again e scores w H).
Defined.

(** ** Performance levels *)

(** The performance level follows the percentage: a percentage that is not
    lower gets a level that is not lower.  The thresholds 85, 70, 50 and 30
    therefore cut the percentages into five bands. *)
Theorem level_for_monotone (p q : float) :
  (p <=? q)%float = true ->
  (level_rank (level_for p) <= level_rank (level_for q))%nat.
Proof.
  intros Hpq. unfold level_for, Py.ge.
  assert (forall t, (t <=? p)%float = true -> (t <=? q)%float = true) as Hup.
  { intros t Ht. eapply FloatOrder.leb_trans; eauto. }
  destruct (85 <=? p)%float eqn:E1; [by rewrite (Hup _ E1)|].
  destruct (70 <=? p)%float eqn:E2;
    [rewrite (Hup _ E2); destruct (85 <=? q)%float; simpl; lia|].
  destruct (50 <=? p)%float eqn:E3;
    [rewrite (Hup _ E3); destruct (85 <=? q)%float, (70 <=? q)%float; simpl; lia|].
  destruct (30 <=? p)%float eqn:E4;
    [rewrite (Hup _ E4);
     destruct (85 <=? q)%float, (70 <=? q)%float, (50 <=? q)%float; simpl; lia|].
  simpl. lia.
Qed.

Lemma level_for_monotone_witness :
  (69.5 <=? 70)%float = true
  /\ (level_rank (level_for 69.5) <= level_rank (level_for 70))%nat.
Proof.
  assert ((69.5 <=? 70)%float = true) as H by reflexivity.
  split; [exact H|]. exact (level_for_monotone 69.5 70 H).
Defined.

(** ** The outcome of [calculate_total_score] *)

Lemma dict_get_set_eq (d : list (string * Z)) c v x :
  dict_get d c = Some v -> dict_get (dict_set d c x) c = Some x.
Proof.
  induction d as [|[k y] d IH]; simpl; [done|]. rewrite dict_get_cons.
  destruct (String.eqb k c) eqn:E; rewrite dict_get_cons, E; [done|exact IH].
Qed.

Lemma dict_get_set_ne (d : list (string * Z)) c c' x :
  c <> c' -> dict_get (dict_set d c x) c' = dict_get d c'.
Proof.
  intros Hne. induction d as [|[k y] d IH]; simpl; [done|].
  destruct (String.eqb k c) eqn:E; rewrite !dict_get_cons; [|by rewrite IH].
  apply String.eqb_eq in E as ->.
  by rewrite (proj2 (String.eqb_neq c c') Hne).
Qed.

Lemma fold_left_add (l : list Z) (a : Z) : fold_left Z.add l a = a + foldr Z.add 0 l.
Proof. revert a. induction l as [|x l IH]; intros a; simpl; [lia|]. rewrite IH. lia. Qed.

Lemma dict_set_sum (d : list (string * Z)) c v x :
  dict_get d c = Some v ->
  foldr Z.add 0 (map snd (dict_set d c x)) = foldr Z.add 0 (map snd d) - v + x.
Proof.
  induction d as [|[k y] d IH]; simpl; [done|]. rewrite dict_get_cons.
  destruct (String.eqb k c); simpl.
  - intros [= ->]. lia.
  - intros H. rewrite (IH H). lia.
Qed.

Lemma grade_cons (q : Question.t) (questions : list Question.t)
    (ua : gmap string Py.value) (d : list (string * Z)) :
  grade (q :: questions) ua d
  = if is_correct ua q
    then match Question.competency_type q with
         | Some c =>
             match dict_get d c, dict_get MARKS c with
             | Some score, Some marks => grade questions ua (dict_set d c (score + marks))
             | _, _ => Raise (KeyError (Question.competency_type q))
             end
         | Datatypes.None => Raise (KeyError (Question.competency_type q))
         end
    else grade questions ua d.
Proof. reflexivity. Qed.

#[local] Arguments is_correct : simpl never.

(** The grading loop stops at the first correctly answered question
    without marks and returns otherwise. *)
Lemma grade_outcome (questions : list Question.t) (ua : gmap string Py.value) :
  forall d, map fst d = map fst MARKS ->
    match first_unmarked ua questions with
    | Some q => grade questions ua d = Raise (KeyError (Question.competency_type q))
    | Datatypes.None => exists r, grade questions ua d = Ok r
    end.
Proof.
  induction questions as [|q questions IH]; intros d Hd; [simpl; eauto|].
  rewrite grade_cons. unfold first_unmarked. simpl. fold (first_unmarked ua questions).
  destruct (is_correct ua q); simpl; [|by apply IH].
  unfold marks_of.
  destruct (Question.competency_type q) as [c|] eqn:Hc; [|by rewrite Hc].
  destruct (dict_get MARKS c) as [m|] eqn:Hm.
  - destruct (dict_get_keys d MARKS c Hd (mk_is_Some _ _ Hm)) as [v ->].
    apply IH. by rewrite dict_set_keys.
  - rewrite Hc. by destruct (dict_get d c).
Qed.

(** What the grading loop adds to each competency and to the sum. *)
Lemma grade_scores (questions : list Question.t) (ua : gmap string Py.value) :
  forall d r, grade questions ua d = Ok r ->
    map fst r = map fst d
    /\ foldr Z.add 0 (map snd r) = foldr Z.add 0 (map snd d) + earned ua questions
    /\ forall c v, dict_get d c = Some v ->
         dict_get r c
         = Some (v + default 0 (dict_get MARKS c) * Z.of_nat (correct_count ua c questions)).
Proof.
  unfold earned, correct_count, count.
  induction questions as [|q questions IH]; intros d r.
  - simpl. intros [= <-]. split; [done|]. split; [lia|]. intros c v ->. f_equal. lia.
  - rewrite grade_cons. simpl.
    destruct (is_correct ua q); simpl; [|apply IH].
    destruct (Question.competency_type q) as [c0|] eqn:Hc; [|done].
    destruct (dict_get d c0) as [s|] eqn:Hs; [|done].
    destruct (dict_get MARKS c0) as [m|] eqn:Hm; [|done].
    intros Hg. destruct (IH _ _ Hg) as (Hk & Hsum & Hget).
    split; [by rewrite Hk, dict_set_keys|]. split.
    + rewrite Hsum, (dict_set_sum d c0 s) by done.
      assert (marks_of q = Some m) as -> by (unfold marks_of; by rewrite Hc).
      simpl. lia.
    + intros c v Hv. case_bool_decide as Hcc; simpl.
      * injection Hcc as <-. rewrite Hs in Hv. injection Hv as <-.
        rewrite (Hget c0 (s + m)) by (by eapply dict_get_set_eq).
        rewrite Hm. simpl. f_equal. lia.
      * rewrite (Hget c v); [done|]. rewrite dict_get_set_ne; [done|congruence].
Qed.

(** [calculate_total_score] raises [KeyError] at the first correctly
    answered question whose competency is missing or not one of the five
    of [MARKS], with that competency as the key; otherwise it returns the
    marks of the correctly answered questions added up, less the violation
    deduction (the call does not change the events it is computed from),
    and not less than 0. *)
Theorem calculate_total_score_outcome (self_exam : Exam.t) (questions : list Question.t)
    (user_answers : gmap string Py.value) (w : World) :
  match first_unmarked user_answers questions with
  | Some q =>
      calculate_total_score self_exam questions user_answers w
      = Raise (KeyError (Question.competency_type q))
  | Datatypes.None =>
      exists w',
        calculate_total_score self_exam questions user_answers w
        = Ok (Z.max 0 (earned user_answers questions
                       - calculate_violation_deduction self_exam w), w')
  end.
Proof.
  pose proof (calculate_total_score_run self_exam questions user_answers w) as Hrun.
  cbv zeta in Hrun.
  pose proof (grade_outcome questions user_answers (map (fun '(c, _) => (c, 0)) MARKS)
                eq_refl) as Hout.
  destruct (first_unmarked user_answers questions) as [q|].
  - by rewrite Hout in Hrun.
  - destruct Hout as [r Hr]. rewrite Hr in Hrun. destruct Hrun as [w' Hw'].
    exists w'. rewrite Hw'. do 3 f_equal.
    apply grade_scores in Hr as (_ & Hsum & _).
    rewrite fold_left_add, Hsum. reflexivity.
Qed.

Lemma dict_of_gets (r : list (string * Z)) (f : string -> Z) :
  NoDup (map fst r) ->
  (forall c, c ∈ map fst r -> dict_get r c = Some (f c)) ->
  r = map (fun c => (c, f c)) (map fst r).
Proof.
  induction r as [|[k v] r IH]; simpl; intros ND Hget; [done|].
  apply NoDup_cons in ND as [Hk ND].
  pose proof (Hget k ltac:(set_solver)) as Hv.
  rewrite dict_get_cons, String.eqb_refl in Hv. injection Hv as ->.
  f_equal. apply IH; [done|]. intros c Hc.
  rewrite <- (Hget c) by set_solver. rewrite dict_get_cons.
  destruct (String.eqb_spec k c) as [->|]; [by destruct Hk|done].
Qed.

(** [calculate_total_score] leaves the state [save_competency_breakdown]
    leaves for the graded scores. *)
Lemma calculate_total_score_world (self_exam : Exam.t) (questions : list Question.t)
    (ua : gmap string Py.value) (w w' : World) (r : list (string * Z)) :
  grade questions ua (map (fun '(c, _) => (c, 0)) MARKS) = Ok r ->
  save_competency_breakdown self_exam
    (map (fun '(c, score) => (c, Py.float_of_int score)) r) w = Ok (tt, w') ->
  calculate_total_score self_exam questions ua w
  = Ok (Z.max 0 (fold_left Z.add (map snd r) 0
                 - calculate_violation_deduction self_exam w'), w').
Proof.
  intros Hg Hs. unfold calculate_total_score. unfold bind at 1. unfold lift. rewrite Hg.
  unfold bind at 1. rewrite Hs. reflexivity.
Qed.

(** The scores the grading loop hands to [save_competency_breakdown]. *)
Lemma grade_breakdown (questions : list Question.t) (ua : gmap string Py.value)
    (r : list (string * Z)) :
  grade questions ua (map (fun '(c, _) => (c, 0)) MARKS) = Ok r ->
  r = map (fun '(c, m) => (c, m * Z.of_nat (correct_count ua c questions))) MARKS.
Proof.
  intros Hg. apply grade_scores in Hg as (Hk & _ & Hget).
  assert (map fst r = map fst MARKS) as Hk' by (rewrite Hk; reflexivity).
  rewrite (dict_of_gets r
             (fun c => default 0 (dict_get MARKS c)
                       * Z.of_nat (correct_count ua c questions))).
  - rewrite Hk'. reflexivity.
  - rewrite Hk'. vm_compute. repeat constructor; set_solver.
  - rewrite Hk'. intros c Hc.
    assert (dict_get (map (fun '(c, _) => (c, 0)) MARKS) c = Some 0) as H0.
    { simpl in Hc. repeat (apply elem_of_cons in Hc as [->|Hc]; [reflexivity|]).
      by apply elem_of_nil in Hc. }
    by rewrite (Hget c 0 H0).
Qed.

(** When [calculate_total_score] returns, the exam has one row for each of
    the five competencies of [MARKS], in that order; the raw score of a
    row is the marks of its competency times the number of correctly
    answered questions of that competency, and its percentage lies in
    [0, 100].  The exam table is not written: the total is returned, not
    stored. *)
Theorem calculate_total_score_breakdown (self_exam : Exam.t) (questions : list Question.t)
    (user_answers : gmap string Py.value) (w : World) :
  first_unmarked user_answers questions = Datatypes.None ->
  exists total w',
    calculate_total_score self_exam questions user_answers w = Ok (total, w')
    /\ map (fun r => (CompetencyScore.competency_name r, CompetencyScore.raw_score r))
           (scores_of_exam self_exam w')
       = map (fun '(c, m) =>
                (c, Py.float_of_int (m * Z.of_nat (correct_count user_answers c questions))))
             MARKS
    /\ Forall (fun r => in_0_100 (CompetencyScore.percentage r)) (scores_of_exam self_exam w')
    /\ exams w' = exams w
    /\ cheating_events w' = cheating_events w.
Proof.
  intros Hnone.
  pose proof (grade_outcome questions user_answers (map (fun '(c, _) => (c, 0)) MARKS)
                eq_refl) as Hout.
  rewrite Hnone in Hout. destruct Hout as [r Hr].
  destruct (save_competency_breakdown_run self_exam
              (map (fun '(c, score) => (c, Py.float_of_int score)) r) w)
    as (w' & Hs & Hev & Hex & Hrows).
  eexists _, w'. split; [by apply (calculate_total_score_world _ _ _ _ _ r)|].
  rewrite (grade_breakdown _ _ _ Hr), map_map in Hrows.
  split; [|split; [|done]].
  - apply Forall2_length in Hrows as Hlen.
    revert Hrows. generalize (scores_of_exam self_exam w').
    generalize MARKS. induction l as [|[c m] l IH]; intros l' H;
      inversion H as [|? x ? ? (H1 & H2 & _) H3]; subst; simpl; [done|].
    simpl in H1, H2. rewrite H1, H2. f_equal. by apply IH.
  - eapply Forall2_Forall_r; [exact Hrows|]. apply Forall_true. tauto.
Qed.

Lemma calculate_total_score_breakdown_witness :
  let e := Exam.mk 1 (Some 7%nat) "completed" 0 0 Datatypes.None Datatypes.None in
  let w := mkWorld [] [] 0 [] [] in
  let questions := [Question.mk (Py.Int 1) (Py.Str "b") (Some "technical");
                    Question.mk (Py.Int 2) (Py.Str "a") (Some "soft_skills")] in
  let user_answers : gmap string Py.value := {["1" := Py.Str "b"]} in
  first_unmarked user_answers questions = Datatypes.None
  /\ exists total w',
       calculate_total_score e questions user_answers w = Ok (total, w')
       /\ map (fun r => (CompetencyScore.competency_name r, CompetencyScore.raw_score r))
              (scores_of_exam e w')
          = map (fun '(c, m) =>
                   (c, Py.float_of_int
                         (m * Z.of_nat (correct_count user_answers c questions))))
                MARKS
       /\ Forall (fun r => in_0_100 (CompetencyScore.percentage r)) (scores_of_exam e w')
       /\ exams w' = exams w
       /\ cheating_events w' = cheating_events w.
Proof.
  intros e w questions user_answers.
  assert (first_unmarked user_answers questions = Datatypes.None) as H by (by vm_compute).
  split; [exact H|].
  exact (calculate_total_score_breakdown e questions user_answers w H).
Defined.

(** ** Course recommendation and action plan *)

Lemma elem_of_flat_map {A B : Type} (f : A -> list B) (l : list A) (y : B) :
  y ∈ flat_map f l <-> exists x, x ∈ l /\ y ∈ f x.
Proof.
  rewrite list_elem_of_In, in_flat_map. split; intros (x & Hx & Hy); exists x;
    by rewrite ?list_elem_of_In in *.
Qed.

(** The complementary courses recommended are exactly those the catalog
    lists for the competencies of the exam with a percentage from 50 up to,
    but not including, 75; the advanced courses exactly those for the
    competencies with a percentage of at least 75; every priority course is
    a priority course of the catalog for a competency of the exam. *)
Theorem recommend_courses_sources (self_exam : Exam.t) (w : World) (course : string) :
  let rec := recommend_courses self_exam w in
  (course ∈ Recommendation.complementary_courses rec
   <-> exists r, r ∈ scores_of_exam self_exam w
                 /\ (50 <=? CompetencyScore.percentage r)%float = true
                 /\ (CompetencyScore.percentage r <? 75)%float = true
                 /\ course ∈ courses_of Courses.complementary
                               (CompetencyScore.competency_name r))
  /\ (course ∈ Recommendation.advanced_courses rec
      <-> exists r, r ∈ scores_of_exam self_exam w
                    /\ (75 <=? CompetencyScore.percentage r)%float = true
                    /\ course ∈ courses_of Courses.advanced
                                  (CompetencyScore.competency_name r))
  /\ (course ∈ Recommendation.priority_courses rec
      -> exists r, r ∈ scores_of_exam self_exam w
                   /\ course ∈ courses_of Courses.priority
                                 (CompetencyScore.competency_name r)).
Proof.
  unfold recommend_courses. simpl. rewrite !dict_fromkeys_elem_of, !elem_of_flat_map.
  split; [|split].
  - split.
    + intros (r & Hr & Hc). apply stable_sort_elem_of in Hr. exists r.
      destruct (50 <=? _)%float, (_ <? 75)%float; simpl in Hc;
        try (by apply elem_of_nil in Hc). done.
    + intros (r & Hr & H1 & H2 & Hc). exists r. split; [by apply stable_sort_elem_of|].
      by rewrite H1, H2.
  - unfold Py.ge. split.
    + intros (r & Hr & Hc). apply stable_sort_elem_of in Hr. exists r.
      destruct (75 <=? _)%float; [done|by apply elem_of_nil in Hc].
    + intros (r & Hr & H1 & Hc). exists r. split; [by apply stable_sort_elem_of|].
      by rewrite H1.
  - intros (p & Hp & Hc).
    assert (p ∈ compute_improvement_priorities self_exam w) as Hin.
    { apply (elem_of_sublist _ _ _ Hp). etrans; [apply sublist_take|].
      unfold weak_entries. destruct (List.filter _ _) eqn:E.
      - apply sublist_drop.
      - rewrite <- E. apply filter_sublist. }
    rewrite compute_improvement_priorities_entries in Hin.
    apply stable_sort_elem_of in Hin. rewrite map_fmap in Hin.
    apply list_elem_of_fmap in Hin as (r & -> & Hr). by exists r.
Qed.

(** All courses of the catalog, tier by tier. *)
Lemma catalog_courses_distinct :
  NoDup (flat_map (fun '(_, c) => Courses.priority c) COURSE_MAPPING
         ++ flat_map (fun '(_, c) => Courses.complementary c) COURSE_MAPPING
         ++ flat_map (fun '(_, c) => Courses.advanced c) COURSE_MAPPING).
Proof. apply (bool_decide_unpack _). by vm_compute. Qed.

Lemma courses_of_catalog (tier : Courses.t -> list string) (comp course : string) :
  course ∈ courses_of tier comp ->
  course ∈ flat_map (fun '(_, c) => tier c) COURSE_MAPPING.
Proof.
  unfold courses_of. generalize COURSE_MAPPING. intros d.
  induction d as [|[k c] d IH]; simpl; [by intros H%elem_of_nil|].
  rewrite dict_get_cons. destruct (String.eqb k comp); set_solver.
Qed.

(** Every recommended course is a course of the catalog, in the tier of
    its list. *)
Lemma recommend_courses_in_catalog (self_exam : Exam.t) (w : World) (course : string) :
  let rec := recommend_courses self_exam w in
  (course ∈ Recommendation.priority_courses rec ->
   course ∈ flat_map (fun '(_, c) => Courses.priority c) COURSE_MAPPING)
  /\ (course ∈ Recommendation.complementary_courses rec ->
      course ∈ flat_map (fun '(_, c) => Courses.complementary c) COURSE_MAPPING)
  /\ (course ∈ Recommendation.advanced_courses rec ->
      course ∈ flat_map (fun '(_, c) => Courses.advanced c) COURSE_MAPPING).
Proof.
  unfold recommend_courses. simpl. rewrite !dict_fromkeys_elem_of, !elem_of_flat_map.
  split; [|split].
  - intros (p & _ & H). exact (courses_of_catalog Courses.priority _ _ H).
  - intros (r & _ & H).
    destruct (_ && _); [exact (courses_of_catalog Courses.complementary _ _ H)|].
    by apply elem_of_nil in H.
  - intros (r & _ & H).
    destruct (Py.ge _ _); [exact (courses_of_catalog Courses.advanced _ _ H)|].
    by apply elem_of_nil in H.
Qed.

(** No course is recommended in two tiers at once. *)
Theorem recommend_courses_tiers_disjoint (self_exam : Exam.t) (w : World) (course : string) :
  let rec := recommend_courses self_exam w in
  (course ∈ Recommendation.priority_courses rec ->
   course ∉ Recommendation.complementary_courses rec
   /\ course ∉ Recommendation.advanced_courses rec)
  /\ (course ∈ Recommendation.complementary_courses rec ->
      course ∉ Recommendation.advanced_courses rec).
Proof.
  intros rec.
  destruct (recommend_courses_in_catalog self_exam w course) as (Hp & Hc & Ha).
  fold rec in Hp, Hc, Ha.
  pose proof catalog_courses_distinct as ND.
  apply NoDup_app in ND as (_ & Hpc & ND). apply NoDup_app in ND as (_ & Hca & _).
  split.
  - intros H%Hp. specialize (Hpc _ H). set_solver.
  - intros H%Hc. specialize (Hca _ H). set_solver.
Qed.

Lemma catalog_priority_nonempty (comp : string) (c : Courses.t) :
  dict_get COURSE_MAPPING comp = Some c -> exists x l, Courses.priority c = x :: l.
Proof.
  unfold COURSE_MAPPING.
  repeat (rewrite dict_get_cons; destruct (String.eqb _ comp);
          [intros [= <-]; simpl; eauto|]).
  discriminate.
Qed.

Lemma weak_entries_nonempty (pr : list Priority.t) :
  pr <> [] -> exists p l, take 2 (weak_entries pr) = p :: l /\ p ∈ pr.
Proof.
  intros Hne. unfold weak_entries.
  destruct (List.filter _ pr) as [|p l] eqn:E.
  - assert (0 < length pr)%nat as Hlen by (destruct pr; [done|simpl; lia]).
    destruct (drop (length pr - 2) pr) as [|p l] eqn:Ed.
    + apply (f_equal length) in Ed. rewrite length_drop in Ed. simpl in Ed. lia.
    + exists p, (take 1 l). split; [done|].
      eapply elem_of_sublist; [|apply (sublist_drop pr (length pr - 2)%nat)]. rewrite Ed. left.
  - exists p, (take 1 l). split; [done|].
    assert (p ∈ p :: l) as Hin by left. rewrite <- E in Hin.
    eapply elem_of_sublist; [exact Hin|apply filter_sublist].
Qed.

(** When the exam has stored rows and the catalog knows their
    competencies, [recommend_courses] recommends at least one priority
    course, whatever the percentages are. *)
Theorem recommend_courses_priority_nonempty (self_exam : Exam.t) (w : World) :
  (0 < length (scores_of_exam self_exam w))%nat ->
  Forall (fun r => is_Some (dict_get COURSE_MAPPING (CompetencyScore.competency_name r)))
         (scores_of_exam self_exam w) ->
  exists course rest,
    Recommendation.priority_courses (recommend_courses self_exam w) = course :: rest.
Proof.
  intros Hlen Hknown.
  set (pr := compute_improvement_priorities self_exam w).
  assert (pr ≡ₚ map entry_of (scores_of_exam self_exam w)) as Hperm.
  { unfold pr. rewrite compute_improvement_priorities_entries.
    apply stable_sort_Permutation. }
  assert (pr <> []) as Hne.
  { intros E. apply Permutation_length in Hperm. rewrite E, length_map in Hperm.
    simpl in Hperm. lia. }
  destruct (weak_entries_nonempty pr Hne) as (p & l & Ht & Hp).
  rewrite Hperm, map_fmap in Hp. apply list_elem_of_fmap in Hp as (r & -> & Hr).
  rewrite Forall_forall in Hknown. destruct (Hknown r Hr) as [c Hc].
  destruct (catalog_priority_nonempty _ _ Hc) as (x & xs & Hx).
  unfold recommend_courses. simpl. fold pr. rewrite Ht. simpl.
  unfold courses_of at 1. rewrite Hc, Hx. simpl. eauto.
Qed.

Lemma recommend_courses_priority_nonempty_witness :
  let e := Exam.mk 1 (Some 7%nat) "completed" 0 0 Datatypes.None Datatypes.None in
  let w := mkWorld []
             [CompetencyScore.mk 0 1 "technical" 48%float 48 100%float advanced true true]
             1 [] [] in
  (0 < length (scores_of_exam e w))%nat
  /\ Forall (fun r => is_Some (dict_get COURSE_MAPPING (CompetencyScore.competency_name r)))
            (scores_of_exam e w)
  /\ exists course rest,
       Recommendation.priority_courses (recommend_courses e w) = course :: rest.
Proof.
  intros e w.
  assert (0 < length (scores_of_exam e w))%nat as H1 by (vm_compute; lia).
  assert (Forall (fun r => is_Some (dict_get COURSE_MAPPING
                                      (CompetencyScore.competency_name r)))
                 (scores_of_exam e w)) as H2.
  { vm_compute. repeat constructor. eauto. }
  split; [exact H1|]. split; [exact H2|].
  exact (recommend_courses_priority_nonempty e w H1 H2).
Defined.

Lemma list_or_length {A : Type} (l : list A) (x : A) :
  (1 <= length (list_or (take 2 l) [x]) <= 2)%nat.
Proof. destruct l as [|a [|b l]]; simpl; lia. Qed.

(** The plan of [generate_action_plan] has two entries for the first 30
    days, the second being the daily practice; one or two entries for the
    first 90 days; and one to three entries for the months 6 to 12. *)
Theorem generate_action_plan_shape (self_exam : Exam.t) (w : World) :
  let plan := generate_action_plan self_exam w in
  (exists first,
     Plan.days_30 plan = [first; "Practice 30–60 mins daily on weakest competency"])
  /\ (1 <= length (Plan.days_90 plan) <= 2)%nat
  /\ (1 <= length (Plan.months_6_12 plan) <= 3)%nat.
Proof.
  unfold generate_action_plan. simpl. split; [|split].
  - destruct (take 2 _); simpl; eauto.
  - rewrite map_fmap, fmap_take, <- map_fmap. apply list_or_length.
  - pose proof (list_or_length
                  (map (fun c => "Take advanced course: " +:+ c)
                       (Recommendation.advanced_courses (recommend_courses self_exam w)))
                  "Start a specialization/capstone") as H.
    rewrite !map_fmap, <- fmap_take in H. rewrite !map_fmap.
    unfold recommend_courses in H. simpl in H.
    destruct (List.filter _ _); [lia|]. rewrite length_app. simpl. lia.
Qed.

(** The last entry for the months 6 to 12 names the strengths exactly when
    a row of the exam is flagged as strength; the names are those of the
    flagged rows in table order, underscores replaced by spaces, in title
    case, separated by commas. *)
Theorem generate_action_plan_strengths (self_exam : Exam.t) (w : World) :
  let plan := generate_action_plan self_exam w in
  let strengths := List.filter CompetencyScore.is_strength (scores_of_exam self_exam w) in
  let names :=
    Str.join ", "
      (map (fun s => Str.title (Str.replace "_" " " (CompetencyScore.competency_name s)))
           strengths) in
  ((exists r, r ∈ scores_of_exam self_exam w /\ CompetencyScore.is_strength r = true)
   -> last (Plan.months_6_12 plan)
      = Some ("Leverage strengths (" +:+ names +:+ ") for internships or projects."))
  /\ ((forall r, r ∈ scores_of_exam self_exam w -> CompetencyScore.is_strength r = false)
      -> exists text, last (Plan.months_6_12 plan) = Some text
                      /\ (text = "Start a specialization/capstone"
                          \/ exists c, text = "Take advanced course: " +:+ c)).
Proof.
  unfold generate_action_plan. simpl. split.
  - intros (r & Hr & Hs).
    destruct (List.filter CompetencyScore.is_strength _) as [|s l] eqn:E.
    + assert (r ∈ List.filter CompetencyScore.is_strength (scores_of_exam self_exam w)) as Hin
        by (apply list_elem_of_In, filter_In; split; [by apply list_elem_of_In|done]).
      rewrite E in Hin. by apply elem_of_nil in Hin.
    + by rewrite last_snoc.
  - intros Hnone. rewrite filter_none by (by rewrite Forall_forall).
    set (adv := take 2 _).
    assert (length adv <= 2)%nat as Hlen by (unfold adv; rewrite length_take; lia).
    destruct adv as [|a [|b [|c l]]]; simpl in *; [eauto..|lia].
Qed.

Lemma imap_seq_nth {A B : Type} (f : nat -> A -> B) (l : list A) (d : A) :
  imap f l = map (fun i => f i (nth i l d)) (seq 0 (length l)).
Proof.
  apply list_eq. intros i. rewrite list_lookup_imap, map_fmap, list_lookup_fmap.
  destruct (l !! i) as [x|] eqn:E; simpl.
  - rewrite lookup_seq_lt by (by apply lookup_lt_Some in E). simpl.
    by rewrite nth_lookup, E.
  - rewrite lookup_seq_ge; [done|]. by apply lookup_ge_None in E.
Qed.

(** The rows of a breakdown of at least two entries: two are flagged as
    strength and two as weakness. *)
Lemma breakdown_rows_counts (self_exam : Exam.t) (pk : nat) (scores : list (string * float)) :
  (2 <= length scores)%nat ->
  count CompetencyScore.is_strength (breakdown_rows self_exam pk scores) = 2%nat
  /\ count CompetencyScore.is_weakness (breakdown_rows self_exam pk scores) = 2%nat.
Proof.
  intros Hlen. unfold breakdown_rows.
  set (key := fun i => item_percentage (nth i scores (EmptyString, 0%float))).
  set (entries := seq 0 (length scores)).
  rewrite (imap_seq_nth _ scores (EmptyString, 0%float)). fold entries.
  rewrite !count_map. simpl.
  assert (NoDup entries) as ND by apply NoDup_seq.
  assert (NoDup (map id entries)) as ND' by (by rewrite map_id).
  assert (2 <= length entries)%nat as H2 by (unfold entries; by rewrite length_seq).
  destruct (selection_two key entries id ND' H2 (strength_selection key entries))
    as (Ls & NDs & _ & Hs); [by left|].
  destruct (selection_two key entries id ND' H2 (weakness_selection key entries))
    as (Lw & NDw & _ & Hw); [by right|].
  by rewrite !count_refs.
Qed.

(** Right after [save_competency_breakdown] for at least two competencies
    on a consistent table, the action plan ends with the entry that names
    the two rows flagged as strength. *)
Theorem generate_action_plan_after_breakdown
    (self_exam : Exam.t) (scores : list (string * float)) (w : World) :
  table_consistent w ->
  (2 <= length scores)%nat ->
  let name := fun s => Str.title (Str.replace "_" " " (CompetencyScore.competency_name s)) in
  exists w' s1 s2,
    save_competency_breakdown self_exam scores w = Ok (tt, w')
    /\ List.filter CompetencyScore.is_strength (scores_of_exam self_exam w') = [s1; s2]
    /\ last (Plan.months_6_12 (generate_action_plan self_exam w'))
       = Some ("Leverage strengths (" +:+ (name s1 +:+ ", " +:+ name s2)
               +:+ ") for internships or projects.").
Proof.
  intros Hcons Hlen name.
  destruct (save_competency_breakdown_table self_exam scores w Hcons)
    as (w' & Hrun & Ht & _).
  destruct (breakdown_table_split _ _ _ _ _ Ht) as [He _].
  destruct (breakdown_rows_counts self_exam (next_pk w) scores Hlen) as [Hs _].
  unfold count in Hs. rewrite <- He in Hs.
  destruct (List.filter CompetencyScore.is_strength (scores_of_exam self_exam w'))
    as [|s1 [|s2 [|]]] eqn:E; simpl in Hs; try lia.
  exists w', s1, s2. split; [exact Hrun|]. split; [done|].
  unfold generate_action_plan. simpl. rewrite E. by rewrite last_snoc.
Qed.

Lemma generate_action_plan_after_breakdown_witness :
  let e := Exam.mk 1 (Some 7%nat) "completed" 0 0 Datatypes.None Datatypes.None in
  let w := mkWorld [] [] 0 [] [] in
  let scores := [("critical_thinking", 12%float); ("communication", 8%float);
                 ("adaptability", 1%float); ("basic_engineering", 25%float);
                 ("technical", 12%float)] in
  let name := fun s => Str.title (Str.replace "_" " " (CompetencyScore.competency_name s)) in
  table_consistent w /\ (2 <= length scores)%nat
  /\ exists w' s1 s2,
       save_competency_breakdown e scores w = Ok (tt, w')
       /\ List.filter CompetencyScore.is_strength (scores_of_exam e w') = [s1; s2]
       /\ last (Plan.months_6_12 (generate_action_plan e w'))
          = Some ("Leverage strengths (" +:+ (name s1 +:+ ", " +:+ name s2)
                  +:+ ") for internships or projects.").
Proof.
  intros e w scores name.
  assert (table_consistent w) as H by (split; simpl; constructor).
  assert (2 <= length scores)%nat as L by (simpl; lia).
  split; [exact H|]. split; [exact L|].
  exact (generate_action_plan_after_breakdown e scores w H L).
Defined.

(** ** Ranking twice *)

Lemma position_None (pk : nat) (l : list Exam.t) :
  pk ∉ map Exam.pk l -> position pk l = Datatypes.None.
Proof.
  induction l as [|e l IH]; simpl; [done|]. intros [Hne Hl]%not_elem_of_cons.
  destruct (Nat.eqb_spec (Exam.pk e) pk); [done|]. by rewrite IH.
Qed.

Lemma position_map (g : Exam.t -> Exam.t) (pk : nat) (l : list Exam.t) :
  (forall r, Exam.pk (g r) = Exam.pk r) -> position pk (map g l) = position pk l.
Proof. intros Hg. induction l as [|e l IH]; simpl; [done|]. by rewrite Hg, IH. Qed.

(** The table after the ranking pass, row by row. *)
Lemma ranked_table_map (total : Z) (all_exams : list Exam.t) :
  forall rank t,
    NoDup (map Exam.pk t) -> NoDup (map Exam.pk all_exams) -> all_exams ⊆ t ->
    ranked_table total rank all_exams t = map (ranked_row total rank all_exams) t.
Proof.
  induction all_exams as [|exam all_exams IH]; intros rank t NDt ND Hsub; simpl.
  - unfold ranked_row. simpl. by rewrite map_id.
  - apply NoDup_cons in ND as [Hexam ND].
    set (t1 := map _ t).
    assert (t1 = map (fun r => if (Exam.pk r =? Exam.pk exam)%nat
                               then Exam.set_ranking rank (percentile_of total rank) r
                               else r) t) as Et1.
    { unfold t1. apply map_ext_in. intros r Hr%list_elem_of_In.
      destruct (Nat.eqb_spec (Exam.pk r) (Exam.pk exam)) as [E|]; [|done].
      assert (r = exam) as -> by (apply (NoDup_map_inj Exam.pk t); set_solver). done. }
    assert (map Exam.pk t1 = map Exam.pk t) as Hpks.
    { rewrite Et1, (map_map _ _ t). apply map_ext. intros r.
      by destruct (Exam.pk r =? Exam.pk exam)%nat. }
    clearbody t1. subst t1.
    rewrite IH; [|by rewrite Hpks|done|].
    + rewrite (map_map _ _ t). apply map_ext. intros r. unfold ranked_row. simpl.
      rewrite (Nat.eqb_sym (Exam.pk exam)).
      destruct (Nat.eqb_spec (Exam.pk r) (Exam.pk exam)) as [E|E]; simpl.
      * rewrite position_None by (by rewrite E). by rewrite Z.add_0_r.
      * destruct (position (Exam.pk r) all_exams) as [i|]; simpl; [|done].
        by replace (rank + 1 + Z.of_nat i) with (rank + Z.of_nat (S i)) by lia.
    + intros x Hx. rewrite map_fmap. apply list_elem_of_fmap. exists x.
      split; [|set_solver].
      destruct (Nat.eqb_spec (Exam.pk x) (Exam.pk exam)) as [E|]; [|done].
      destruct Hexam. rewrite <- E. apply (list_elem_of_fmap_2 Exam.pk). set_solver.
Qed.

Lemma ranked_row_fields total rank all_exams r :
  Exam.pk (ranked_row total rank all_exams r) = Exam.pk r
  /\ Exam.status (ranked_row total rank all_exams r) = Exam.status r
  /\ Exam.total_score (ranked_row total rank all_exams r) = Exam.total_score r
  /\ Exam.timestamp (ranked_row total rank all_exams r) = Exam.timestamp r.
Proof. unfold ranked_row. by destruct (position _ _). Qed.

(** [calculate_ranking] in terms of the rows of the table. *)
Lemma calculate_ranking_run (self_exam : Exam.t) (w : World) :
  NoDup (map Exam.pk (exams w)) ->
  let all_exams := completed_exams w in
  calculate_ranking self_exam w
  = Ok ((Exam.rank self_exam, Exam.percentile self_exam),
        with_exams (map (ranked_row (Z.of_nat (length all_exams)) 1 all_exams) (exams w)) w).
Proof.
  intros ND all_exams.
  pose proof (completed_exams_Permutation w) as Hperm. fold all_exams in Hperm.
  unfold calculate_ranking, bind, gets. fold all_exams.
  destruct all_exams as [|e l] eqn:E.
  - simpl. unfold ret, with_exams, ranked_row. simpl. rewrite map_id. by destruct w.
  - rewrite rank_exams_run by (simpl; lia). unfold ret. do 3 f_equal.
    apply ranked_table_map; [done| |].
    + rewrite Hperm. eapply sublist_NoDup; [exact ND|].
      rewrite !map_fmap. apply fmap_sublist, filter_sublist.
    + intros x Hx. rewrite Hperm in Hx.
      by apply list_elem_of_In, filter_In in Hx as [Hx%list_elem_of_In _].
Qed.

(** Ranking a second time changes nothing: on an exam table whose primary
    keys identify rows, a second call of [calculate_ranking] right after
    the first returns the same pair and leaves the state of the first. *)
Theorem calculate_ranking_again (self_exam : Exam.t) (w : World) :
  NoDup (map Exam.pk (exams w)) ->
  exists result w',
    calculate_ranking self_exam w = Ok (result, w')
    /\ calculate_ranking self_exam w' = Ok (result, w').
Proof.
  intros ND.
  set (all_exams := completed_exams w).
  set (total := Z.of_nat (length all_exams)).
  set (g := ranked_row total 1 all_exams).
  assert (forall r, Exam.pk (g r) = Exam.pk r) as Hpk by (intros; apply ranked_row_fields).
  eexists _, _. split; [by apply calculate_ranking_run|].
  fold all_exams total g.
  set (w' := with_exams (map g (exams w)) w).
  assert (NoDup (map Exam.pk (exams w'))) as ND'.
  { simpl. rewrite map_map. erewrite map_ext; [exact ND|]. done. }
  rewrite (calculate_ranking_run self_exam w' ND'). do 2 f_equal.
  assert (completed_exams w' = map g all_exams) as Hall.
  { unfold completed_exams, all_exams. simpl. rewrite filter_map_comm.
    erewrite (List.filter_ext (fun x => String.eqb (Exam.status (g x)) "completed"));
      [|intros r; unfold g; by destruct (ranked_row_fields total 1 all_exams r) as (_ & -> & _)].
    rewrite stable_sort_map. f_equal. apply stable_sort_ext. intros x y. unfold g.
    destruct (ranked_row_fields total 1 all_exams x) as (_ & _ & -> & ->).
    by destruct (ranked_row_fields total 1 all_exams y) as (_ & _ & -> & ->). }
  rewrite Hall, length_map. fold total.
  unfold w', with_exams. simpl. f_equal.
  rewrite map_map. apply map_ext. intros r.
  unfold ranked_row at 1. rewrite position_map, Hpk by done.
  unfold g, ranked_row. by destruct (position (Exam.pk r) all_exams).
Qed.

Lemma calculate_ranking_again_witness :
  let e1 := Exam.mk 1 (Some 7%nat) "completed" 10 40 Datatypes.None Datatypes.None in
  let e2 := Exam.mk 2 (Some 8%nat) "completed" 20 55 Datatypes.None Datatypes.None in
  let e3 := Exam.mk 3 (Some 9%nat) "ongoing" 30 0 Datatypes.None Datatypes.None in
  let w := mkWorld [] [] 0 [] [e1; e2; e3] in
  NoDup (map Exam.pk (exams w))
  /\ exists result w',
       calculate_ranking e1 w = Ok (result, w')
       /\ calculate_ranking e1 w' = Ok (result, w').
Proof.
  intros e1 e2 e3 w.
  assert (NoDup (map Exam.pk (exams w))) as H.
  { apply (bool_decide_unpack _). vm_compute. exact I. }
  split; [exact H|]. exact (calculate_ranking_again e1 w H).
Defined.

(** ** What [identify_strengths_weaknesses] leaves alone *)

Lemma final_row_unflagged e ps pw r : unflagged (final_row e ps pw r) = unflagged r.
Proof.
  unfold final_row.
  destruct (CompetencyScore.exam r =? e)%nat; repeat case_bool_decide; done.
Qed.

(** The keys of stored records of exam [e] are not keys of rows of other
    exams. *)
Lemma stored_records_other (e : nat) (w : World) (comp_scores sel : list nat)
    (r : CompetencyScore.t) :
  stored_records e w comp_scores -> sel ⊆ comp_scores ->
  r ∈ competency_scores w -> CompetencyScore.exam r <> e ->
  CompetencyScore.pk r ∉ pks_of w sel.
Proof.
  intros (ND & _ & Hall) Hsel Hr He Hin.
  unfold pks_of in Hin. rewrite map_fmap in Hin.
  apply list_elem_of_fmap in Hin as (c & Hpk & Hc).
  rewrite Forall_forall in Hall. destruct (Hall c (Hsel c Hc)) as (_ & r' & Hr' & Hpk' & He').
  assert (r = r') as -> by (apply (NoDup_map_inj CompetencyScore.pk (competency_scores w));
                            [done..|congruence]).
  done.
Qed.

(** For stored records of the exam, [identify_strengths_weaknesses]
    returns its argument reordered; in the table it changes the two flags
    of rows of the exam and nothing else: every row keeps its other fields,
    the rows of the other exams stay as they were, and no row is added or
    removed. *)
Theorem identify_strengths_weaknesses_frame (self_exam : Exam.t) (w : World)
    (comp_scores : list ref) :
  stored_records (Exam.pk self_exam) w comp_scores ->
  exists sorted_scores w',
    identify_strengths_weaknesses self_exam comp_scores w = Ok (sorted_scores, w')
    /\ sorted_scores ≡ₚ comp_scores
    /\ map unflagged (competency_scores w') = map unflagged (competency_scores w)
    /\ scores_of_others (Exam.pk self_exam) w' = scores_of_others (Exam.pk self_exam) w
    /\ next_pk w' = next_pk w
    /\ cheating_events w' = cheating_events w
    /\ exams w' = exams w.
Proof.
  intros Hst.
  destruct comp_scores as [|c0 cs] eqn:Ecs.
  { exists [], w. by repeat split. }
  rewrite <- Ecs in *.
  rewrite identify_strengths_weaknesses_run;
    [|by rewrite Ecs|by apply (stored_records_saveable (Exam.pk self_exam))].
  eexists _, _. split; [reflexivity|]. simpl.
  split; [apply stable_sort_Permutation|]. rewrite flagged_rows_map.
  split; [|split; [|done]].
  - rewrite map_map. apply map_ext. intros r. apply final_row_unflagged.
  - unfold scores_of_others. simpl. rewrite filter_map_comm.
    rewrite (List.filter_ext _
               (fun r => negb (CompetencyScore.exam r =? Exam.pk self_exam)%nat))
      by (intros r; by rewrite final_row_exam).
    erewrite map_ext_in; [apply map_id|].
    intros r [Hr He]%filter_In. apply list_elem_of_In in Hr.
    apply negb_true_iff, Nat.eqb_neq in He.
    apply final_row_other; [done|..];
      apply (stored_records_other (Exam.pk self_exam) w comp_scores); try done.
    + apply strength_selection_subseteq.
    + apply weakness_selection_subseteq.
Qed.

Lemma identify_strengths_weaknesses_frame_witness :
  let row e p n pct := CompetencyScore.mk p e n 0 0 pct novice true true in
  let rows := [row 7%nat 1%nat "critical_thinking" 90%float;
               row 7%nat 2%nat "communication" 70%float;
               row 8%nat 3%nat "adaptability" 50%float] in
  let w := mkWorld rows rows 4 [] [] in
  let self_exam := Exam.mk 7 (Some 1%nat) "completed" 0 0 Datatypes.None Datatypes.None in
  stored_records 7 w [0; 1]%nat
  /\ exists sorted_scores w',
       identify_strengths_weaknesses self_exam [0; 1]%nat w = Ok (sorted_scores, w')
       /\ sorted_scores ≡ₚ [0; 1]%nat
       /\ map unflagged (competency_scores w') = map unflagged (competency_scores w)
       /\ scores_of_others (Exam.pk self_exam) w' = scores_of_others (Exam.pk self_exam) w
       /\ next_pk w' = next_pk w
       /\ cheating_events w' = cheating_events w
       /\ exams w' = exams w.
Proof.
  intros row rows w self_exam.
  assert (stored_records 7 w [0; 1]%nat) as Hst.
  { repeat split.
    - simpl. repeat constructor; set_solver.
    - simpl. repeat constructor; set_solver.
    - repeat constructor; simpl; try lia.
      + exists (row 7%nat 1%nat "critical_thinking" 90%float). repeat split. set_solver.
      + exists (row 7%nat 2%nat "communication" 70%float). repeat split. set_solver. }
  split; [exact Hst|].
  exact (identify_strengths_weaknesses_frame self_exam w [0; 1]%nat Hst).
Defined.

(** ** Scores that are not numbers, competencies without a maximum *)

Lemma not_number_nan (x : float) : (x =? x)%float = false -> Prim2SF x = S754_nan.
Proof.
  rewrite FloatAxioms.eqb_spec. unfold SFeqb.
  destruct (Prim2SF x) as [s|s| |s m e]; simpl; try done.
  - by destruct s.
  - destruct s; by rewrite ?Pos.compare_refl, ?Z.compare_refl, ?FloatOrder.compare_cont_Eq.
Qed.

Lemma nan_ltb (x y : float) : Prim2SF x = S754_nan -> (x <? y)%float = false.
Proof. intros H. by rewrite FloatAxioms.ltb_spec, H. Qed.

Lemma nan_div_mul (x y z : float) :
  Prim2SF x = S754_nan -> Prim2SF (x / y * z) = S754_nan.
Proof.
  intros H. rewrite FloatAxioms.mul_spec, FloatAxioms.div_spec, H. reflexivity.
Qed.

(** A raw score that is not a number is stored as 100 percent, and a
    competency without a configured maximum as 0 percent. *)
Lemma percentage_for_edges (raw_score : float) (max_score : Z) :
  ((raw_score =? raw_score)%float = false -> 0 < max_score ->
   percentage_for raw_score max_score = 100%float)
  /\ (max_score <= 0 -> percentage_for raw_score max_score = 0%float).
Proof.
  unfold percentage_for. split.
  - intros Hnan Hpos. rewrite (proj2 (Z.ltb_lt 0 max_score) Hpos).
    unfold Py.min. rewrite nan_ltb by (by apply nan_div_mul, not_number_nan).
    reflexivity.
  - intros Hle. rewrite (proj2 (Z.ltb_ge 0 max_score) Hle). reflexivity.
Qed.

Lemma MAX_SCORES_positive (c : string) (m : Z) : dict_get MAX_SCORES c = Some m -> 0 < m.
Proof.
  unfold MAX_SCORES.
  repeat (rewrite dict_get_cons; destruct (String.eqb _ c); [intros [= <-]; lia|]).
  discriminate.
Qed.

(** The values [save_competency_breakdown] computes for an entry, before
    it creates the row.  For a competency that has no configured maximum
    the maximum is 0, the percentage 0 and the level Novice, whatever the
    raw score.  For a raw score that is not a number and a competency with
    a maximum, [min(100, nan)] keeps 100: the percentage is 100 and the
    level Advanced.  Whether the database then takes a row with such a raw
    score is not decided in this code. *)
Theorem save_competency_breakdown_edge_values (competency_name : string) (raw_score : float) :
  let max_score := default 0 (dict_get MAX_SCORES competency_name) in
  let percentage := percentage_for raw_score max_score in
  (dict_get MAX_SCORES competency_name = Datatypes.None ->
   max_score = 0 /\ percentage = 0%float /\ level_for percentage = novice)
  /\ (is_Some (dict_get MAX_SCORES competency_name) ->
      (raw_score =? raw_score)%float = false ->
      percentage = 100%float /\ level_for percentage = advanced).
Proof.
  split.
  - intros E. rewrite E. simpl.
    by rewrite (proj2 (percentage_for_edges raw_score 0)) by lia.
  - intros [m Hm] Hnan. rewrite Hm. simpl.
    by rewrite (proj1 (percentage_for_edges raw_score m) Hnan
                  (MAX_SCORES_positive competency_name m Hm)).
Qed.

(** ** Scoring twice *)

Lemma calculate_violation_deduction_events (self_exam : Exam.t) (w w' : World) :
  cheating_events w' = cheating_events w ->
  calculate_violation_deduction self_exam w' = calculate_violation_deduction self_exam w.
Proof.
  intros E. unfold calculate_violation_deduction, violations_of_student. by rewrite E.
Qed.

(** Scoring the same answers again, right after the first time, returns
    the same total and leaves rows of the exam that differ from those of
    the first run in their primary keys only; the rows of the other exams
    stay as they were. *)
Theorem calculate_total_score_again (self_exam : Exam.t) (questions : list Question.t)
    (user_answers : gmap string Py.value) (w : World) :
  table_consistent w ->
  first_unmarked user_answers questions = Datatypes.None ->
  exists total w1 w2,
    calculate_total_score self_exam questions user_answers w = Ok (total, w1)
    /\ calculate_total_score self_exam questions user_answers w1 = Ok (total, w2)
    /\ map fields_of (scores_of_exam self_exam w2) = map fields_of (scores_of_exam self_exam w1)
    /\ scores_of_others (Exam.pk self_exam) w2 = scores_of_others (Exam.pk self_exam) w.
Proof.
  intros Hcons Hnone.
  pose proof (grade_outcome questions user_answers (map (fun '(c, _) => (c, 0)) MARKS)
                eq_refl) as Hout.
  rewrite Hnone in Hout. destruct Hout as [r Hr].
  set (scores := map (fun '(c, score) => (c, Py.float_of_int score)) r).
  destruct (save_competency_breakdown_table self_exam scores w Hcons)
    as (w1 & Hrun1 & Ht1 & Hpk1 & Hev1 & _).
  assert (table_consistent w1) as Hcons1
    by (by apply (breakdown_table_consistent self_exam scores w)).
  destruct (save_competency_breakdown_table self_exam scores w1 Hcons1)
    as (w2 & Hrun2 & Ht2 & Hpk2 & Hev2 & _).
  destruct (breakdown_table_split _ _ _ _ _ Ht1) as [He1 Ho1].
  destruct (breakdown_table_split _ _ _ _ _ Ht2) as [He2 Ho2].
  eexists _, w1, w2.
  split; [by apply (calculate_total_score_world _ _ _ _ _ r)|].
  split.
  - rewrite (calculate_total_score_world _ _ _ _ _ r Hr Hrun2).
    by rewrite (calculate_violation_deduction_events self_exam w1 w2).
  - rewrite He1, He2. split; [apply breakdown_rows_fields|].
    rewrite Ho2. fold (scores_of_others (Exam.pk self_exam) w1). by rewrite Ho1.
Qed.

Lemma calculate_total_score_again_witness :
  let e := Exam.mk 1 (Some 7%nat) "completed" 0 0 Datatypes.None Datatypes.None in
  let w := mkWorld [] [] 0 [CheatingEvent.mk 1 (Some 7%nat) (Some "gaze_detected") 2] [] in
  let questions := [Question.mk (Py.Int 1) (Py.Str "b") (Some "technical");
                    Question.mk (Py.Int 2) (Py.Str "a") (Some "communication")] in
  let user_answers : gmap string Py.value := {["1" := Py.Str "b"]} in
  table_consistent w
  /\ first_unmarked user_answers questions = Datatypes.None
  /\ exists total w1 w2,
       calculate_total_score e questions user_answers w = Ok (total, w1)
       /\ calculate_total_score e questions user_answers w1 = Ok (total, w2)
       /\ map fields_of (scores_of_exam e w2) = map fields_of (scores_of_exam e w1)
       /\ scores_of_others (Exam.pk e) w2 = scores_of_others (Exam.pk e) w.
Proof.
  intros e w questions user_answers.
  assert (table_consistent w) as H by (split; simpl; constructor).
  assert (first_unmarked user_answers questions = Datatypes.None) as H' by (by vm_compute).
  split; [exact H|]. split; [exact H'|].
  exact (calculate_total_score_again e questions user_answers w H H').
Defined.

(** For an exam without stored scores the plan is the generic one. *)
Theorem generate_action_plan_no_scores (self_exam : Exam.t) (w : World) :
  scores_of_exam self_exam w = [] ->
  generate_action_plan self_exam w
  = Plan.mk ["Start with foundational skill-building tasks";
             "Practice 30–60 mins daily on weakest competency"]
            ["Build a mini-project to reinforce skills"]
            ["Start a specialization/capstone"].
Proof.
  intros H. unfold generate_action_plan, recommend_courses, compute_improvement_priorities.
  rewrite H. reflexivity.
Qed.

Lemma generate_action_plan_no_scores_witness :
  let e := Exam.mk 1 (Some 7%nat) "completed" 0 0 Datatypes.None Datatypes.None in
  let w := mkWorld []
             [CompetencyScore.mk 0 2 "technical" 6%float 48 12.5%float novice true true]
             1 [] [] in
  scores_of_exam e w = []
  /\ generate_action_plan e w
     = Plan.mk ["Start with foundational skill-building tasks";
                "Practice 30–60 mins daily on weakest competency"]
               ["Build a mini-project to reinforce skills"]
               ["Start a specialization/capstone"].
Proof.
  intros e w.
  assert (scores_of_exam e w = []) as H by reflexivity.
  split; [exact H|]. exact (generate_action_plan_no_scores e w H).
Defined.

(** When the exam has stored rows and the catalog knows their
    competencies, the plan for the first 30 days starts with the first
    priority course recommended. *)
Lemma action_plan_first_priority (self_exam : Exam.t) (w : World) :
  (0 < length (scores_of_exam self_exam w))%nat ->
  Forall (fun r => is_Some (dict_get COURSE_MAPPING (CompetencyScore.competency_name r)))
         (scores_of_exam self_exam w) ->
  exists course,
    head (Recommendation.priority_courses (recommend_courses self_exam w)) = Some course
    /\ Plan.days_30 (generate_action_plan self_exam w)
       = ["Complete priority course: " +:+ course;
          "Practice 30–60 mins daily on weakest competency"].
Proof.
  intros Hlen Hknown.
  set (pr := compute_improvement_priorities self_exam w).
  assert (pr ≡ₚ map entry_of (scores_of_exam self_exam w)) as Hperm.
  { unfold pr. rewrite compute_improvement_priorities_entries.
    apply stable_sort_Permutation. }
  assert (pr <> []) as Hne.
  { intros E. apply Permutation_length in Hperm. rewrite E, length_map in Hperm.
    simpl in Hperm. lia. }
  destruct (weak_entries_nonempty pr Hne) as (p & l & Ht & Hp).
  rewrite Hperm, map_fmap in Hp. apply list_elem_of_fmap in Hp as (r & -> & Hr).
  rewrite Forall_forall in Hknown. destruct (Hknown r Hr) as [c Hc].
  destruct (catalog_priority_nonempty _ _ Hc) as (x & xs & Hx).
  assert (courses_of Courses.priority (CompetencyScore.competency_name r) = x :: xs) as Hcs
    by (unfold courses_of; by rewrite Hc).
  exists x. unfold generate_action_plan, recommend_courses. simpl. fold pr. rewrite Ht. simpl.
  by rewrite !Hcs.
Qed.

Lemma earned_nonneg (ua : gmap string Py.value) (questions : list Question.t) :
  0 <= earned ua questions.
Proof.
  unfold earned. induction questions as [|q questions IH]; simpl; [lia|].
  destruct (is_correct ua q); simpl; [|exact IH].
  assert (0 <= default 0 (marks_of q)); [|lia].
  unfold marks_of. destruct (Question.competency_type q) as [c|]; simpl; [|lia].
  destruct (dict_get MARKS c) as [m|] eqn:E; simpl; [|lia]. by apply (MARKS_nonneg c).
Qed.

Lemma calculate_total_score_value (self_exam : Exam.t) (questions : list Question.t)
    (ua : gmap string Py.value) (w : World) :
  first_unmarked ua questions = Datatypes.None ->
  exists w',
    calculate_total_score self_exam questions ua w
    = Ok (Z.max 0 (earned ua questions - calculate_violation_deduction self_exam w), w').
Proof.
  intros Hnone.
  pose proof (calculate_total_score_run self_exam questions ua w) as Hrun.
  cbv zeta in Hrun.
  pose proof (grade_outcome questions ua (map (fun '(c, _) => (c, 0)) MARKS) eq_refl) as Hout.
  rewrite Hnone in Hout. destruct Hout as [r Hr]. rewrite Hr in Hrun.
  destruct Hrun as [w' Hw']. exists w'. rewrite Hw'. do 3 f_equal.
  apply grade_scores in Hr as (_ & Hsum & _).
  rewrite fold_left_add, Hsum. reflexivity.
Qed.

(** When [calculate_total_score] returns, the total lies between the marks
    earned less 2 and the marks earned, and is not negative; for a student
    without cheating events it is exactly the marks earned. *)
Theorem calculate_total_score_bounds (self_exam : Exam.t) (questions : list Question.t)
    (user_answers : gmap string Py.value) (w : World) :
  first_unmarked user_answers questions = Datatypes.None ->
  exists total w',
    calculate_total_score self_exam questions user_answers w = Ok (total, w')
    /\ 0 <= total <= earned user_answers questions
    /\ earned user_answers questions - 2 <= total
    /\ (violations_of_student self_exam w = [] -> total = earned user_answers questions).
Proof.
  intros Hnone.
  destruct (calculate_total_score_value self_exam questions user_answers w Hnone)
    as [w' Hw'].
  pose proof (earned_nonneg user_answers questions) as Hpos.
  eexists _, w'. split; [exact Hw'|].
  assert (calculate_violation_deduction self_exam w = 0
          \/ calculate_violation_deduction self_exam w = 2) as Hd.
  { unfold calculate_violation_deduction. destruct (Py.ge _ 1); auto. }
  split; [lia|]. split; [lia|].
  intros Hnil. unfold calculate_violation_deduction. rewrite Hnil. simpl.
  change (Py.ge 0 1) with false. lia.
Qed.

Lemma calculate_total_score_bounds_witness :
  let e := Exam.mk 1 (Some 7%nat) "completed" 0 0 Datatypes.None Datatypes.None in
  let w := mkWorld [] [] 0 [CheatingEvent.mk 1 (Some 8%nat) (Some "gaze_detected") 9] [] in
  let questions := [Question.mk (Py.Int 1) (Py.Str "b") (Some "technical");
                    Question.mk (Py.Int 2) (Py.Str "a") (Some "communication")] in
  let user_answers : gmap string Py.value := {["1" := Py.Str "b"]} in
  first_unmarked user_answers questions = Datatypes.None
  /\ exists total w',
       calculate_total_score e questions user_answers w = Ok (total, w')
       /\ 0 <= total <= earned user_answers questions
       /\ earned user_answers questions - 2 <= total
       /\ (violations_of_student e w = [] -> total = earned user_answers questions).
Proof.
  intros e w questions user_answers.
  assert (first_unmarked user_answers questions = Datatypes.None) as H by (by vm_compute).
  split; [exact H|].
  exact (calculate_total_score_bounds e questions user_answers w H).
Defined.

(** ** From the answers to the action plan *)

Lemma breakdown_rows_names (self_exam : Exam.t) (pk : nat) (scores : list (string * float)) :
  map CompetencyScore.competency_name (breakdown_rows self_exam pk scores) = map fst scores.
Proof.
  unfold breakdown_rows. rewrite !map_fmap, fmap_imap. unfold compose. simpl.
  apply (imap_const fst).
Qed.

(** After [calculate_total_score] returned on a consistent table, the
    action plan is specific to the exam: its first entry for 30 days is the
    first priority course recommended, and its last entry for the months 6
    to 12 names the two competencies flagged as strength. *)
Theorem calculate_total_score_action_plan (self_exam : Exam.t) (questions : list Question.t)
    (user_answers : gmap string Py.value) (w : World) :
  table_consistent w ->
  first_unmarked user_answers questions = Datatypes.None ->
  let name := fun s => Str.title (Str.replace "_" " " (CompetencyScore.competency_name s)) in
  exists total w' course s1 s2,
    calculate_total_score self_exam questions user_answers w = Ok (total, w')
    /\ head (Recommendation.priority_courses (recommend_courses self_exam w')) = Some course
    /\ Plan.days_30 (generate_action_plan self_exam w')
       = ["Complete priority course: " +:+ course;
          "Practice 30–60 mins daily on weakest competency"]
    /\ List.filter CompetencyScore.is_strength (scores_of_exam self_exam w') = [s1; s2]
    /\ last (Plan.months_6_12 (generate_action_plan self_exam w'))
       = Some ("Leverage strengths (" +:+ (name s1 +:+ ", " +:+ name s2)
               +:+ ") for internships or projects.").
Proof.
  intros Hcons Hnone name.
  pose proof (grade_outcome questions user_answers (map (fun '(c, _) => (c, 0)) MARKS)
                eq_refl) as Hout.
  rewrite Hnone in Hout. destruct Hout as [r Hr].
  set (scores := map (fun '(c, score) => (c, Py.float_of_int score)) r).
  assert (map fst scores = map fst MARKS) as Hnames.
  { unfold scores. rewrite (grade_breakdown _ _ _ Hr), !map_map. reflexivity. }
  assert (length scores = 5%nat) as Hlen.
  { rewrite <- (length_map fst), Hnames. reflexivity. }
  destruct (save_competency_breakdown_table self_exam scores w Hcons)
    as (w' & Hrun & Ht & _).
  destruct (breakdown_table_split _ _ _ _ _ Ht) as [He _].
  assert (0 < length (scores_of_exam self_exam w'))%nat as Hrows.
  { rewrite <- (length_map CompetencyScore.competency_name), He, breakdown_rows_names,
      length_map. lia. }
  assert (Forall (fun r => is_Some (dict_get COURSE_MAPPING
                                      (CompetencyScore.competency_name r)))
                 (scores_of_exam self_exam w')) as Hknown.
  { apply (Forall_fmap CompetencyScore.competency_name
             (fun c => is_Some (dict_get COURSE_MAPPING c))).
    rewrite <- map_fmap, He, breakdown_rows_names, Hnames.
    vm_compute. repeat constructor; eauto. }
  destruct (action_plan_first_priority self_exam w' Hrows Hknown) as (course & Hhead & H30).
  destruct (breakdown_rows_counts self_exam (next_pk w) scores ltac:(lia)) as [Hs _].
  unfold count in Hs. rewrite <- He in Hs.
  destruct (List.filter CompetencyScore.is_strength (scores_of_exam self_exam w'))
    as [|s1 [|s2 [|]]] eqn:E; simpl in Hs; try lia.
  eexists _, w', course, s1, s2.
  split; [by apply (calculate_total_score_world _ _ _ _ _ r)|].
  split; [exact Hhead|]. split; [exact H30|]. split; [done|].
  unfold generate_action_plan. simpl. rewrite E. by rewrite last_snoc.
Qed.

Lemma calculate_total_score_action_plan_witness :
  let e := Exam.mk 1 (Some 7%nat) "completed" 0 0 Datatypes.None Datatypes.None in
  let w := mkWorld [] [] 0 [] [] in
  let questions := [Question.mk (Py.Int 1) (Py.Str "b") (Some "technical");
                    Question.mk (Py.Int 2) (Py.Str "a") (Some "communication")] in
  let user_answers : gmap string Py.value := {["1" := Py.Str "b"]} in
  let name := fun s => Str.title (Str.replace "_" " " (CompetencyScore.competency_name s)) in
  table_consistent w
  /\ first_unmarked user_answers questions = Datatypes.None
  /\ exists total w' course s1 s2,
       calculate_total_score e questions user_answers w = Ok (total, w')
       /\ head (Recommendation.priority_courses (recommend_courses e w')) = Some course
       /\ Plan.days_30 (generate_action_plan e w')
          = ["Complete priority course: " +:+ course;
             "Practice 30–60 mins daily on weakest competency"]
       /\ List.filter CompetencyScore.is_strength (scores_of_exam e w') = [s1; s2]
       /\ last (Plan.months_6_12 (generate_action_plan e w'))
          = Some ("Leverage strengths (" +:+ (name s1 +:+ ", " +:+ name s2)
                  +:+ ") for internships or projects.").
Proof.
  intros e w questions user_answers name.
  assert (table_consistent w) as H by (split; simpl; constructor).
  assert (first_unmarked user_answers questions = Datatypes.None) as H' by (by vm_compute).
  split; [exact H|]. split; [exact H'|].
  exact (calculate_total_score_action_plan e questions user_answers w H H').
Defined.

(** ** When no record carries both flags *)

Lemma leb_refl_number (x : float) : Py.number x -> (x <=? x)%float = true.
Proof. intros H. apply FloatOrder.leb_cmp. right. by apply FloatOrder.eqb_cmp. Qed.

Lemma leb_antisym_eqb (x y : float) :
  (x <=? y)%float = true -> (y <=? x)%float = true -> (x =? y)%float = true.
Proof.
  intros Hxy Hyx. apply FloatOrder.eqb_cmp.
  apply FloatOrder.leb_cmp in Hxy as [Hxy|Hxy]; [|done].
  apply FloatOrder.leb_cmp in Hyx. apply FloatOrder.cmp_opp in Hxy. simpl in Hxy.
  destruct Hyx; congruence.
Qed.

(** In a list without repetition, two entries stand in one order only. *)
Lemma NoDup_app_order {A : Type} (l1 l2 l3 l4 : list A) (p q : A) :
  l1 ++ l2 = l3 ++ l4 -> NoDup (l1 ++ l2) ->
  p ∈ l1 -> q ∈ l2 -> q ∈ l3 -> p ∈ l4 -> False.
Proof.
  revert l3. induction l1 as [|x l1 IH]; intros l3 E ND Hp1 Hq2 Hq3 Hp4.
  { by apply elem_of_nil in Hp1. }
  destruct l3 as [|y l3]; [by apply elem_of_nil in Hq3|].
  simpl in E. injection E as <- E. simpl in ND. apply NoDup_cons in ND as [Hx ND].
  apply elem_of_cons in Hp1 as [->|Hp1].
  { apply Hx. rewrite E. apply elem_of_app. by right. }
  apply elem_of_cons in Hq3 as [->|Hq3].
  { apply Hx. apply elem_of_app. by right. }
  by apply (IH l3).
Qed.

(** An entry with the percentage of a strength that is not itself a
    strength is not a weakness either: among equal percentages both sorts
    keep the order of the first. *)
Lemma equal_keys_order (key : nat -> float) (l : list nat) (p q : nat) :
  NoDup l ->
  let S := sorted l key true in
  let B := sorted S key false in
  p ∈ take 2 S -> q ∉ take 2 S -> q ∈ take 2 B -> p ∉ take 2 B ->
  (key q =? key p)%float = true -> False.
Proof.
  intros ND S B Hp Hq Hq' Hp' Heq.
  assert (NoDup S) as NDS by (by apply stable_sort_NoDup).
  assert (Py.number (key p)) as Hnum.
  { apply FloatOrder.eqb_sym in Heq. by apply FloatOrder.eqb_number_l in Heq. }
  set (P := fun x => (key x =? key p)%float).
  assert (List.filter P B = List.filter P S) as Hfilter.
  { unfold B, sorted at 1. apply stable_sort_filter. intros x y Hlt Hx Hy. unfold P in *.
    pose proof (FloatOrder.eqb_trans _ _ _ Hy (FloatOrder.eqb_sym _ _ Hx)) as E.
    apply FloatOrder.eqb_not_ltb in E. congruence. }
  assert (forall x (k : list nat), x ∈ k -> P x = true -> x ∈ List.filter P k) as Hin.
  { intros x k Hx HP. apply list_elem_of_In, filter_In. by rewrite <- list_elem_of_In. }
  assert (forall k : list nat, q ∈ k -> q ∉ take 2 k -> q ∈ drop 2 k) as Hdrop.
  { intros k Hk Hn. rewrite <- (take_drop 2 k) in Hk. apply elem_of_app in Hk as [|]; done. }
  assert (forall k : list nat, p ∈ k -> p ∉ take 2 k -> p ∈ drop 2 k) as Hdrop'.
  { intros k Hk Hn. rewrite <- (take_drop 2 k) in Hk. apply elem_of_app in Hk as [|]; done. }
  assert (p ∈ S) as HpS by (eapply elem_of_sublist; [exact Hp|apply sublist_take]).
  assert (q ∈ B) as HqB by (eapply elem_of_sublist; [exact Hq'|apply sublist_take]).
  assert (q ∈ S) as HqS by (unfold B, sorted in HqB; by apply stable_sort_elem_of in HqB).
  assert (p ∈ B) as HpB by (unfold B, sorted; by apply stable_sort_elem_of).
  assert (P p = true) as HPp by (unfold P; by apply Hnum).
  apply (NoDup_app_order (List.filter P (take 2 S)) (List.filter P (drop 2 S))
           (List.filter P (take 2 B)) (List.filter P (drop 2 B)) p q).
  - by rewrite <- !List.filter_app, !take_drop.
  - rewrite <- List.filter_app, take_drop.
    eapply sublist_NoDup; [exact NDS|apply filter_sublist].
  - by apply Hin.
  - apply Hin; [by apply Hdrop|done].
  - by apply Hin.
  - apply Hin; [by apply Hdrop'|done].
Qed.

Lemma two_of_three {A : Type} (l : list A) (a b x : A) :
  NoDup l -> (length l <= 2)%nat -> a ∈ l -> b ∈ l -> x ∈ l -> a <> b -> x = a \/ x = b.
Proof.
  intros ND Hlen Ha Hb Hx Hab.
  destruct l as [|u [|v [|]]]; simpl in Hlen; try lia; set_solver.
Qed.

(** The selections share no entry exactly when two entries stand strictly
    above two others. *)
Lemma selections_disjoint (key : nat -> float) (comp_scores : list nat) :
  NoDup comp_scores -> comp_scores <> [] ->
  Forall (fun c => Py.number (key c)) comp_scores ->
  let ls := strength_selection key comp_scores in
  let lw := weakness_selection key comp_scores in
  (forall c, c ∈ ls -> c ∈ lw -> False)
  <-> exists a b c d,
        a ∈ comp_scores /\ b ∈ comp_scores /\ c ∈ comp_scores /\ d ∈ comp_scores
        /\ a <> b /\ c <> d
        /\ Forall (fun high => Forall (fun low => (key low <? key high)%float = true) [c; d])
                  [a; b].
Proof.
  intros ND Hne Hnum ls lw.
  pose proof (selections_extreme key comp_scores Hnum) as Hext. fold ls lw in Hext.
  assert (ls ⊆ comp_scores) as Hls by apply strength_selection_subseteq.
  assert (lw ⊆ comp_scores) as Hlw by apply weakness_selection_subseteq.
  assert (forall c, c ∈ comp_scores -> Py.number (key c)) as Hn
    by (by rewrite Forall_forall in Hnum).
  assert (NoDup ls) as NDls.
  { eapply sublist_NoDup; [|apply selection_sublist]. by apply stable_sort_NoDup. }
  assert (NoDup lw) as NDlw.
  { eapply sublist_NoDup; [|apply selection_sublist]. unfold sorted.
    by do 2 apply stable_sort_NoDup. }
  assert (length ls <= 2)%nat as Lls
    by (unfold ls, strength_selection; rewrite length_take; lia).
  assert (length lw <= 2)%nat as Llw
    by (unfold lw, weakness_selection; rewrite length_take; lia).
  assert (length comp_scores = 1%nat -> exists c, c ∈ ls /\ c ∈ lw) as Hone.
  { intros H1. destruct comp_scores as [|c [|c' l]]; simpl in H1; try lia.
    destruct (selection_one key c) as [E1 E2]. exists c.
    unfold ls, lw. rewrite E1, E2. split; left. }
  assert ((2 <= length comp_scores)%nat -> length ls = 2%nat /\ length lw = 2%nat) as Htwo.
  { intros H2. assert (NoDup (map id comp_scores)) as ND' by (by rewrite map_id).
    destruct (selection_two key comp_scores id ND' H2 ls) as (Ls & _); [by left|].
    destruct (selection_two key comp_scores id ND' H2 lw) as (Lw & _); [by right|].
    by split. }
  assert (forall p q, p ∈ ls -> q ∉ ls -> q ∈ lw -> p ∉ lw ->
            (key q =? key p)%float = true -> False) as Hord.
  { destruct (number_selections key comp_scores Hnum) as [Els Elw]. fold ls lw in Els, Elw.
    intros p q. rewrite Els, Elw. by apply equal_keys_order. }
  clearbody ls lw.
  assert (0 < length comp_scores)%nat as Hpos
    by (destruct comp_scores; [done|simpl; lia]).
  clear Hne. split.
  - intros Hdisj.
    assert (2 <= length comp_scores)%nat as H2.
    { destruct (decide (length comp_scores = 1%nat)) as [H1|H1]; [|lia].
      destruct (Hone H1) as (c & Hc1 & Hc2). destruct (Hdisj c Hc1 Hc2). }
    destruct (Htwo H2) as [Ls Lw].
    assert (forall p q, p ∈ ls -> q ∈ lw -> (key q <? key p)%float = true) as Hstrict.
    { intros p q Hp Hq.
      assert (q ∉ ls) as Hq' by (intros H; exact (Hdisj q H Hq)).
      assert (p ∉ lw) as Hp' by (intros H; exact (Hdisj p Hp H)).
      destruct (key q <? key p)%float eqn:E; [reflexivity|]. exfalso.
      destruct (Hext p q (Hlw q Hq)) as [Hs _]. specialize (Hs Hp Hq').
      assert ((key p <=? key q)%float = true) as Hpq.
      { apply FloatOrder.not_ltb_leb; [apply Hn, Hlw, Hq|apply Hn, Hls, Hp|exact E]. }
      apply (Hord p q Hp Hq' Hq Hp'). by apply leb_antisym_eqb. }
    destruct ls as [|a [|b [|]]]; simpl in Ls; try lia.
    destruct lw as [|c [|d [|]]]; simpl in Lw; try lia.
    exists a, b, c, d.
    assert (a ∈ [a; b]) as Ia by left.
    assert (b ∈ [a; b]) as Ib by (right; left).
    assert (c ∈ [c; d]) as Ic by left.
    assert (d ∈ [c; d]) as Id by (right; left).
    split; [exact (Hls a Ia)|]. split; [exact (Hls b Ib)|].
    split; [exact (Hlw c Ic)|]. split; [exact (Hlw d Id)|].
    split.
    { intros ->. apply NoDup_cons in NDls as [Ha _]. apply Ha. left. }
    split.
    { intros ->. apply NoDup_cons in NDlw as [Hc _]. apply Hc. left. }
    repeat constructor; by apply Hstrict.
  - intros (a & b & c & d & Ha & Hb & Hc & Hd & Hab & Hcd & Habove) x Hxs Hxw.
    apply Forall_cons in Habove as [Ha' Habove]. apply Forall_cons in Habove as [Hb' _].
    apply Forall_cons in Ha' as [Hca Ha']. apply Forall_cons in Ha' as [Hda _].
    apply Forall_cons in Hb' as [Hcb Hb']. apply Forall_cons in Hb' as [Hdb _].
    assert (exists u, (u = a \/ u = b) /\ (key u <=? key x)%float = true) as (u & Hu & Hux).
    { destruct (decide (a ∈ ls)) as [Ia|Ia];
        [|exists a; split; [by left|]; by apply (Hext x a Ha)].
      destruct (decide (b ∈ ls)) as [Ib|Ib];
        [|exists b; split; [by right|]; by apply (Hext x b Hb)].
      destruct (two_of_three ls a b x NDls Lls Ia Ib Hxs Hab) as [-> | ->].
      - exists a. split; [by left|]. by apply leb_refl_number, Hn.
      - exists b. split; [by right|]. by apply leb_refl_number, Hn. }
    assert (exists v, (v = c \/ v = d) /\ (key x <=? key v)%float = true) as (v & Hv & Hxv).
    { destruct (decide (c ∈ lw)) as [Ic|Ic];
        [|exists c; split; [by left|]; by apply (Hext x c Hc)].
      destruct (decide (d ∈ lw)) as [Id|Id];
        [|exists d; split; [by right|]; by apply (Hext x d Hd)].
      destruct (two_of_three lw c d x NDlw Llw Ic Id Hxw Hcd) as [-> | ->].
      - exists c. split; [by left|]. by apply leb_refl_number, Hn.
      - exists d. split; [by right|]. by apply leb_refl_number, Hn. }
    pose proof (FloatOrder.leb_trans _ _ _ Hux Hxv) as Huv.
    apply FloatOrder.leb_not_ltb in Huv.
    destruct Hu as [->| ->], Hv as [->| ->]; congruence.
Qed.

(** C10, amended. For a non-empty input of stored records of the exam
    whose percentages are numbers, [identify_strengths_weaknesses] returns,
    and no row of the exam ends with both flags exactly when two of the
    records have percentages strictly above those of two other records,
    that is when the second-highest percentage is above the second-lowest.
    In every other case a row carries both flags: with one, two or three
    records always, with four or more when the second-highest and the
    second-lowest percentage are equal.  The same holds for the instances
    passed in, when none carried a flag before the call. *)
Theorem identify_strengths_weaknesses_exclusive
    (self_exam : Exam.t) (w : World) (comp_scores : list nat) :
  stored_records (Exam.pk self_exam) w comp_scores ->
  (0 < length comp_scores)%nat ->
  Forall (fun c => Py.number (percentage_of w c)) comp_scores ->
  exists sorted_scores w',
    identify_strengths_weaknesses self_exam comp_scores w = Ok (sorted_scores, w')
    /\ (Forall (fun r => CompetencyScore.is_strength r && CompetencyScore.is_weakness r = false)
               (scores_of_exam self_exam w')
        <-> two_above_two w comp_scores)
    /\ (Forall (fun c => CompetencyScore.is_strength (objects w !!! c) = false
                         /\ CompetencyScore.is_weakness (objects w !!! c) = false)
               comp_scores ->
        Forall (fun c => CompetencyScore.is_strength (objects w' !!! c)
                         && CompetencyScore.is_weakness (objects w' !!! c) = false)
               comp_scores
        <-> two_above_two w comp_scores).
Proof.
  intros Hst Hlen Hnum.
  pose proof (stored_records_saveable _ _ _ Hst) as Hsave.
  destruct Hst as (NDt & NDp & Hall).
  assert (comp_scores <> []) as Hne by (intros ->; simpl in Hlen; lia).
  assert (NoDup comp_scores) as ND
    by (unfold pks_of in NDp; rewrite map_fmap in NDp; by apply NoDup_fmap_1 in NDp).
  rewrite identify_strengths_weaknesses_run by done.
  pose proof (selections_disjoint (percentage_of w) comp_scores ND Hne Hnum) as Hiff.
  cbv zeta in Hiff. fold (two_above_two w comp_scores) in Hiff.
  set (ls := strength_selection (percentage_of w) comp_scores) in *.
  set (lw := weakness_selection (percentage_of w) comp_scores) in *.
  assert (ls ⊆ comp_scores) as Hls by apply strength_selection_subseteq.
  assert (lw ⊆ comp_scores) as Hlw by apply weakness_selection_subseteq.
  clearbody ls lw.
  eexists _, _. split; [reflexivity|]. rewrite <- Hiff. split.
  - unfold scores_of_exam. simpl. rewrite flagged_rows_map. split.
    + intros Hrows c Hcs Hcw.
      rewrite Forall_forall in Hall. destruct (Hall c (Hls c Hcs)) as (_ & r & Hr & Hpk & He).
      rewrite Forall_forall in Hrows.
      specialize (Hrows (final_row (Exam.pk self_exam) (pks_of w ls) (pks_of w lw) r)).
      rewrite final_row_is_strength, final_row_is_weakness in Hrows by done.
      rewrite !bool_decide_eq_true_2 in Hrows.
      * assert (true && true = false) as Habs; [|discriminate].
        apply Hrows. apply list_elem_of_In, filter_In. split.
        -- apply in_map, list_elem_of_In, Hr.
        -- rewrite final_row_exam, He. apply Nat.eqb_refl.
      * rewrite Hpk. unfold pks_of. rewrite map_fmap.
        by apply (list_elem_of_fmap_2 (fun c => CompetencyScore.pk (objects w !!! c))).
      * rewrite Hpk. unfold pks_of. rewrite map_fmap.
        by apply (list_elem_of_fmap_2 (fun c => CompetencyScore.pk (objects w !!! c))).
    + intros Hdisj. rewrite Forall_forall. intros r' Hr'.
      apply list_elem_of_In, filter_In in Hr' as [Hr' He].
      apply in_map_iff in Hr' as (r & <- & Hr).
      rewrite final_row_exam in He. apply Nat.eqb_eq in He.
      rewrite final_row_is_strength, final_row_is_weakness by done.
      apply andb_false_iff.
      destruct (decide (CompetencyScore.pk r ∈ pks_of w ls)) as [H1|H1];
        [|left; by apply bool_decide_eq_false].
      destruct (decide (CompetencyScore.pk r ∈ pks_of w lw)) as [H2|H2];
        [|right; by apply bool_decide_eq_false].
      exfalso. unfold pks_of in H1, H2. rewrite map_fmap in H1, H2.
      apply list_elem_of_fmap in H1 as (c1 & E1 & Hc1).
      apply list_elem_of_fmap in H2 as (c2 & E2 & Hc2).
      assert (c1 = c2) as ->.
      { apply (NoDup_map_inj (fun c => CompetencyScore.pk (objects w !!! c)) comp_scores);
          [exact NDp|by apply Hls|by apply Hlw|congruence]. }
      by apply (Hdisj c2).
  - intros Hun. rewrite Forall_forall in Hun, Hall.
    assert (forall c, c ∈ comp_scores ->
              CompetencyScore.is_strength
                (flag_objects (CompetencyScore.set_is_weakness true) lw
                   (flag_objects (CompetencyScore.set_is_strength true) ls (objects w)) !!! c)
              && CompetencyScore.is_weakness
                   (flag_objects (CompetencyScore.set_is_weakness true) lw
                      (flag_objects (CompetencyScore.set_is_strength true) ls (objects w))
                    !!! c)
              = bool_decide (c ∈ ls) && bool_decide (c ∈ lw)) as Hflags.
    { intros c Hc. destruct (Hall c Hc) as [Hv _]. destruct (Hun c Hc) as [Hs Hw].
      destruct (final_object_flags ls lw (objects w) c Hv) as [Es Ew].
      simpl in Es, Ew. by rewrite Es, Ew, Hs, Hw, !orb_false_r. }
    simpl. rewrite Forall_forall. split.
    + intros Hobj c Hcs Hcw. specialize (Hobj c (Hls c Hcs)).
      rewrite (Hflags c (Hls c Hcs)), !bool_decide_eq_true_2 in Hobj by done.
      discriminate.
    + intros Hdisj c Hc. rewrite (Hflags c Hc). apply andb_false_iff.
      destruct (decide (c ∈ ls)) as [H1|H1]; [|left; by apply bool_decide_eq_false].
      destruct (decide (c ∈ lw)) as [H2|H2]; [|right; by apply bool_decide_eq_false].
      destruct (Hdisj c H1 H2).
Qed.

(** Five stored records of exam 7 at 60%, 40%, 50%, 60% and 37.5%: two
    percentages tie, and no record carries both flags. *)
Lemma identify_strengths_weaknesses_exclusive_witness :
  let row p n pct := CompetencyScore.mk p 7 n 0 0 pct novice false false in
  let rows := [row 1%nat "critical_thinking" 60%float;
               row 2%nat "communication" 40%float;
               row 3%nat "adaptability" 50%float;
               row 4%nat "basic_engineering" 60%float;
               row 5%nat "technical" 37.5%float] in
  let w := mkWorld rows rows 6 [] [] in
  let self_exam := Exam.mk 7 (Some 1%nat) "completed" 0 0 Datatypes.None Datatypes.None in
  let comp_scores := [0; 1; 2; 3; 4]%nat in
  stored_records 7 w comp_scores
  /\ (0 < length comp_scores)%nat
  /\ Forall (fun c => Py.number (percentage_of w c)) comp_scores
  /\ two_above_two w comp_scores
  /\ exists sorted_scores w',
       identify_strengths_weaknesses self_exam comp_scores w = Ok (sorted_scores, w')
       /\ (Forall (fun r => CompetencyScore.is_strength r && CompetencyScore.is_weakness r
                            = false)
                  (scores_of_exam self_exam w')
           <-> two_above_two w comp_scores)
       /\ (Forall (fun c => CompetencyScore.is_strength (objects w !!! c) = false
                            /\ CompetencyScore.is_weakness (objects w !!! c) = false)
                  comp_scores ->
           Forall (fun c => CompetencyScore.is_strength (objects w' !!! c)
                            && CompetencyScore.is_weakness (objects w' !!! c) = false)
                  comp_scores
           <-> two_above_two w comp_scores).
Proof.
  intros row rows w self_exam comp_scores.
  assert (stored_records 7 w comp_scores) as Hst.
  { repeat split.
    - simpl. repeat constructor; set_solver.
    - simpl. repeat constructor; set_solver.
    - repeat constructor; simpl; try lia.
      + exists (row 1%nat "critical_thinking" 60%float). repeat split. set_solver.
      + exists (row 2%nat "communication" 40%float). repeat split. set_solver.
      + exists (row 3%nat "adaptability" 50%float). repeat split. set_solver.
      + exists (row 4%nat "basic_engineering" 60%float). repeat split. set_solver.
      + exists (row 5%nat "technical" 37.5%float). repeat split. set_solver. }
  assert (0 < length comp_scores)%nat as Hlen by (simpl; lia).
  assert (Forall (fun c => Py.number (percentage_of w c)) comp_scores) as Hnum
    by (repeat constructor).
  assert (two_above_two w comp_scores) as Htwo.
  { exists 0%nat, 3%nat, 1%nat, 4%nat.
    repeat split; try (unfold comp_scores; set_solver); try lia.
    repeat constructor. }
  split; [exact Hst|]. split; [exact Hlen|]. split; [exact Hnum|]. split; [exact Htwo|].
  exact (identify_strengths_weaknesses_exclusive self_exam w comp_scores Hst Hlen Hnum).
Defined.

Lemma StronglySorted_lookup_total {A : Type} `{Inhabited A} (R : A -> A -> Prop)
    (l : list A) (i j : nat) :
  StronglySorted R l -> (i < j < length l)%nat -> R (l !!! i) (l !!! j).
Proof.
  intros Hl Hij. apply (StronglySorted_take_drop R l (S i) Hl).
  - apply list_elem_of_lookup. exists i. rewrite lookup_take_lt by lia.
    apply list_lookup_lookup_total_lt. lia.
  - apply list_elem_of_lookup. exists (j - S i)%nat. rewrite lookup_drop.
    replace (S i + (j - S i))%nat with j by lia. apply list_lookup_lookup_total_lt. lia.
Qed.

(** Two records stand strictly above two others exactly when, in
    descending order of percentage, the second entry is strictly above the
    entry before the last. *)
Lemma two_above_two_second (w : World) (comp_scores : list nat) :
  NoDup comp_scores ->
  Forall (fun c => Py.number (percentage_of w c)) comp_scores ->
  let ranked := sorted comp_scores (percentage_of w) true in
  two_above_two w comp_scores
  <-> (2 <= length comp_scores)%nat
      /\ (percentage_of w (ranked !!! (length comp_scores - 2)%nat)
          <? percentage_of w (ranked !!! 1%nat))%float = true.
Proof.
  intros ND Hnum ranked.
  set (key := percentage_of w). set (n := length comp_scores).
  assert (length ranked = n) as Hlen by apply stable_sort_length.
  assert (NoDup ranked) as NDr by (by apply stable_sort_NoDup).
  assert (forall c, c ∈ ranked <-> c ∈ comp_scores) as Hin
    by (intros c; apply stable_sort_elem_of).
  assert (forall c, c ∈ comp_scores -> Py.number (key c)) as Hn
    by (by rewrite Forall_forall in Hnum).
  pose proof (sorted_reverse_descending key comp_scores Hnum) as Hsorted.
  fold ranked in Hsorted.
  assert (forall i j, (i <= j < n)%nat ->
            (key (ranked !!! j) <=? key (ranked !!! i))%float = true) as Hle.
  { intros i j Hij. destruct (decide (i = j)) as [->|Hne].
    - apply leb_refl_number, Hn, Hin, list_elem_of_lookup_total_2. lia.
    - apply (StronglySorted_lookup_total _ ranked i j Hsorted). lia. }
  assert (forall c, c ∈ comp_scores -> exists i, (i < n)%nat /\ ranked !!! i = c) as Hpos.
  { intros c Hc. apply Hin, list_elem_of_lookup in Hc as [i Hi].
    exists i. split; [apply lookup_lt_Some in Hi; lia|].
    by apply list_lookup_total_correct. }
  unfold two_above_two. fold key. split.
  - intros (a & b & c & d & Ha & Hb & Hc & Hd & Hab & Hcd & Habove).
    apply Forall_cons in Habove as [Ha' Habove]. apply Forall_cons in Habove as [Hb' _].
    apply Forall_cons in Ha' as [Hca Ha']. apply Forall_cons in Ha' as [Hda _].
    apply Forall_cons in Hb' as [Hcb Hb']. apply Forall_cons in Hb' as [Hdb _].
    destruct (Hpos a Ha) as (ia & Hia & Ea). destruct (Hpos b Hb) as (ib & Hib & Eb).
    destruct (Hpos c Hc) as (ic & Hic & Ec). destruct (Hpos d Hd) as (id & Hid & Ed).
    assert (ia <> ib) by (intros ->; congruence).
    assert (ic <> id) by (intros ->; congruence).
    split; [lia|].
    assert (exists u, (u = a \/ u = b) /\ (key u <=? key (ranked !!! 1%nat))%float = true)
      as (u & Hu & Hu1).
    { destruct (decide (ia = 0)%nat) as [->|].
      - exists b. split; [by right|]. rewrite <- Eb. apply Hle. lia.
      - exists a. split; [by left|]. rewrite <- Ea. apply Hle. lia. }
    assert (exists v, (v = c \/ v = d)
                      /\ (key (ranked !!! (n - 2)%nat) <=? key v)%float = true)
      as (v & Hv & Hv1).
    { destruct (decide (ic = n - 1)%nat) as [->|].
      - exists d. split; [by right|]. rewrite <- Ed. apply Hle. lia.
      - exists c. split; [by left|]. rewrite <- Ec. apply Hle. lia. }
    eapply FloatOrder.leb_ltb_trans; [exact Hv1|].
    eapply FloatOrder.ltb_leb_trans; [|exact Hu1].
    destruct Hu as [-> | ->], Hv as [-> | ->]; done.
  - intros [H2 Hlt].
    assert (4 <= n)%nat as H4.
    { destruct (decide (n - 2 <= 1)%nat) as [Hsmall|]; [|lia]. exfalso.
      assert ((key (ranked !!! 1%nat) <=? key (ranked !!! (n - 2)%nat))%float = true) as H
        by (apply Hle; unfold n in *; lia).
      apply FloatOrder.leb_not_ltb in H. congruence. }
    assert (forall i, (i < n)%nat -> ranked !!! i ∈ comp_scores) as Hmem.
    { intros i Hi. apply Hin, list_elem_of_lookup_total_2. lia. }
    assert (forall i j, (i < n)%nat -> (j < n)%nat -> i <> j -> ranked !!! i <> ranked !!! j)
      as Hneq.
    { intros i j Hi Hj Hij E. apply Hij.
      apply (NoDup_lookup ranked i j (ranked !!! i)); [done| |].
      - apply list_lookup_lookup_total_lt. lia.
      - rewrite E. apply list_lookup_lookup_total_lt. lia. }
    exists (ranked !!! 0%nat), (ranked !!! 1%nat),
           (ranked !!! (n - 2)%nat), (ranked !!! (n - 1)%nat).
    split; [apply Hmem; lia|]. split; [apply Hmem; lia|].
    split; [apply Hmem; lia|]. split; [apply Hmem; lia|].
    split; [apply Hneq; lia|]. split; [apply Hneq; lia|].
    assert ((key (ranked !!! (n - 2)%nat) <? key (ranked !!! 0%nat))%float = true) as H0.
    { eapply FloatOrder.ltb_leb_trans; [exact Hlt|]. apply Hle. lia. }
    assert ((key (ranked !!! (n - 1)%nat) <=? key (ranked !!! (n - 2)%nat))%float = true)
      as Hlast by (apply Hle; lia).
    repeat constructor; try done;
      eapply FloatOrder.leb_ltb_trans; [exact Hlast|done|exact Hlast|done].
Qed.
